(** * AI-Tutor ai-service: resilient invocation and caching layer

    A shallow embedding of the Python sources of [packages/ai-service]:
    - [app/clients/openai_client.py]   (retry loop of [create_completion]),
    - [app/clients/redis_client.py]    (best-effort cache wrapper),
    - [app/services/explanation_service.py],
    - [app/services/test_generation_service.py],
    - [app/services/cache_invalidation.py],
    - [app/services/context_manager.py],
    - [app/services/learning_plan_service.py],
    - [app/routes/tests.py],
    - [app/models/requests.py], [app/models/responses.py].

    Python [int] is [Z]; [str] is [string], one [ascii] per character,
    so the strings are those whose characters are the code points 0 to
    255, on which [isspace], [lower] and [strip] below are the Unicode
    ones; a [dict] is an insertion-ordered association list; [async] functions
    are computations in a state-and-exception monad over a [world] that
    holds the Redis connection, the completion endpoint and the trace of
    endpoint calls and sleeps. *)

From stdpp Require Import gmap strings list sorting pretty.
From Stdlib Require Import Ascii QArith.

Local Open Scope string_scope.
Local Open Scope list_scope.
Local Open Scope Z_scope.

(** ** Python primitives *)

Module Py.

(** The exceptions the service can see.  [APIError] carries the HTTP
    status code the handler reads through [e.status_code]. *)
Inductive exn :=
| ZeroDivisionError
| IndexError
| AttributeError (obj attr : string)
| TypeError (msg : string)
| ValueError (msg : string)
| KeyError (key : string)
| JSONDecodeError
| ValidationError (field : string)
| RedisError (msg : string)
| RateLimitError
| APIConnectionError
| APIError (status_code : Z)
| OpenAIError (msg : string)
| OtherException (msg : string).

(** Exception classes named in the [except] clauses of the sources. *)
Inductive exn_class :=
| cRateLimitError | cAPIConnectionError | cAPIError | cOpenAIError
| cJSONDecodeError | cException.

(** [isinstance e c], following the class hierarchy of the [openai]
    package: RateLimitError and APIConnectionError derive from APIError,
    which derives from OpenAIError, which derives from Exception. *)
Definition isinstance (e : exn) (c : exn_class) : bool :=
  match c, e with
  | cException, _ => true
  | cRateLimitError, RateLimitError => true
  | cAPIConnectionError, APIConnectionError => true
  | cAPIError, (RateLimitError | APIConnectionError | APIError _) => true
  | cOpenAIError, (RateLimitError | APIConnectionError | APIError _ | OpenAIError _) => true
  | cJSONDecodeError, JSONDecodeError => true
  | _, _ => false
  end.

(** Outcome of evaluating a Python expression. *)
Inductive result (A : Type) :=
| Return (a : A)
| Raise (e : exn).
Global Arguments Return {A} a.
Global Arguments Raise {A} e.

(** *** Strings *)

(** [c.isspace()] for a code point below 256: TAB, LF, VT, FF, CR, the
    four separators 0x1c-0x1f, SPACE, NEL (0x85) and the no-break space
    (0xa0). *)
Definition isspace (c : ascii) : bool :=
  let n := nat_of_ascii c in
  ((9 <=? n) && (n <=? 13) || (28 <=? n) && (n <=? 32)
   || (n =? 133) || (n =? 160))%nat.

(** [c.lower()] for a code point below 256: the letters A-Z and the
    capital letters 0xc0-0xde (all of that range but the multiplication
    sign 0xd7) move up by 32; every other character is its own lower
    case. *)
Definition lower_char (c : ascii) : ascii :=
  let n := nat_of_ascii c in
  if ((65 <=? n) && (n <=? 90)
      || (192 <=? n) && (n <=? 222) && negb (n =? 215))%nat
  then ascii_of_nat (n + 32) else c.

(** [s.lower()] *)
Fixpoint lower (s : string) : string :=
  match s with
  | EmptyString => EmptyString
  | String c s' => String (lower_char c) (lower s')
  end.

(** [s.lstrip()] *)
Fixpoint lstrip (s : string) : string :=
  match s with
  | EmptyString => EmptyString
  | String c s' => if isspace c then lstrip s' else s
  end.

(** [s.rstrip()]: a character is dropped when it is white space and all
    that follows it has been dropped. *)
Fixpoint rstrip (s : string) : string :=
  match s with
  | EmptyString => EmptyString
  | String c s' =>
      match rstrip s' with
      | EmptyString => if isspace c then EmptyString else String c EmptyString
      | r => String c r
      end
  end.

(** [s.strip()] *)
Definition strip (s : string) : string := rstrip (lstrip s).

(** [s.encode()]: the UTF-8 bytes of [s], one [ascii] per byte.  A
    character below 128 is one byte; one from 128 to 255 is two. *)
Definition encode_char (c : ascii) : string :=
  let n := nat_of_ascii c in
  if (n <? 128)%nat then String c EmptyString
  else String (ascii_of_nat (192 + n / 64))
         (String (ascii_of_nat (128 + n mod 64)) EmptyString).

Fixpoint encode (s : string) : string :=
  match s with
  | EmptyString => EmptyString
  | String c s' => encode_char c +:+ encode s'
  end.

(** [s.startswith(p)] *)
Fixpoint startswith (s p : string) : bool :=
  match p, s with
  | EmptyString, _ => true
  | String a p', String b s' => if Ascii.eqb a b then startswith s' p' else false
  | String _ _, EmptyString => false
  end.

(** [sub in s] *)
Fixpoint contains (s sub : string) : bool :=
  startswith s sub ||
  match s with
  | EmptyString => false
  | String _ s' => contains s' sub
  end.

(** [s[n:]] *)
Fixpoint drop_chars (n : nat) (s : string) : string :=
  match n, s with
  | O, _ => s
  | S n', String _ s' => drop_chars n' s'
  | S _, EmptyString => EmptyString
  end.

(** [s.split(sep)[0]] for a non-empty [sep]: the text before the first
    occurrence of [sep], all of [s] when there is none. *)
Fixpoint before (sep s : string) : string :=
  if startswith s sep then EmptyString
  else match s with
       | EmptyString => EmptyString
       | String c s' => String c (before sep s')
       end.

(** [s.replace(a, b)] for single characters. *)
Fixpoint replace_char (a b : ascii) (s : string) : string :=
  match s with
  | EmptyString => EmptyString
  | String c s' =>
      String (if Ascii.eqb c a then b else c) (replace_char a b s')
  end.

(** [sep.join(l)] *)
Fixpoint join (sep : string) (l : list string) : string :=
  match l with
  | [] => ""
  | [x] => x
  | x :: l' => x +:+ sep +:+ join sep l'
  end.

(** [len(s.split())]: the number of maximal runs of non-space characters. *)
Fixpoint count_words (in_word : bool) (s : string) : Z :=
  match s with
  | EmptyString => 0
  | String c s' =>
      if isspace c then count_words false s'
      else (if in_word then 0 else 1) + count_words true s'
  end.

(** Insertion of [x] into a sorted list, before the first element that
    is not below it in the code-point order [String.leb]. *)
Fixpoint insert_sorted (x : string) (l : list string) : list string :=
  match l with
  | [] => [x]
  | y :: l' => if String.leb x y then x :: l else y :: insert_sorted x l'
  end.

(** [sorted(l)] for a list of [str].  The order is total, so every
    sorting algorithm returns the same list as Python's. *)
Definition sorted (l : list string) : list string :=
  foldr insert_sorted [] l.

(** [enumerate(l)] *)
Definition enumerate {A} (l : list A) : list (nat * A) :=
  zip (seq 0 (length l)) l.

(** [range(n)] for an [int] n: empty when [n <= 0]. *)
Definition range (n : Z) : list nat := seq 0 (Z.to_nat n).

(** [round(n / d)] for ints [n] and [d > 0]: true division followed by
    rounding half to even. *)
Definition round_div (n d : Z) : Z :=
  let q := n `div` d in
  let r := n `mod` d in
  if 2 * r <? d then q
  else if d <? 2 * r then q + 1
  else if Z.even q then q else q + 1.

(** *** Dictionaries with [str] keys, in insertion order *)

Definition dict (V : Type) := list (string * V).

(** [d[k] = v]: overwrite in place, or append a new key. *)
Fixpoint dict_set {V} (k : string) (v : V) (d : dict V) : dict V :=
  match d with
  | [] => [(k, v)]
  | (k', v') :: d' =>
      if String.eqb k' k then (k', v) :: d' else (k', v') :: dict_set k v d'
  end.

(** [d.get(k)] *)
Fixpoint dict_get {V} (k : string) (d : dict V) : option V :=
  match d with
  | [] => None
  | (k', v') :: d' => if String.eqb k' k then Some v' else dict_get k d'
  end.

(** [list(d.values())] *)
Definition values {V} (d : dict V) : list V := map snd d.

(** [sum(l)], [max(l)], [min(l)] on lists of ints ([max] and [min] of an
    empty list raise; the callers below only use non-empty lists, and the
    functions return 0 there). *)
Definition sum (l : list Z) : Z := foldr Z.add 0 l.

Definition max (l : list Z) : Z :=
  match l with
  | [] => 0
  | x :: l' => foldr Z.max x l'
  end.

Definition min (l : list Z) : Z :=
  match l with
  | [] => 0
  | x :: l' => foldr Z.min x l'
  end.

End Py.

Import Py.

(** ** Work distributor: [TestGenerationService._distribute_questions] *)

Module Distribution.

(** One iteration of
    [for i, q_type in enumerate(question_types):
       distribution[q_type] = base_count + (1 if i < remainder else 0)]. *)
Definition assign (base_count remainder : Z) (distribution : dict Z)
    (it : nat * string) : dict Z :=
  dict_set it.2
    (base_count + (if Z.of_nat it.1 <? remainder then 1 else 0))
    distribution.

(** [total_count // len(question_types)] raises ZeroDivisionError on an
    empty list; for a positive divisor Python's [//] and [%] are [Z.div]
    and [Z.modulo]. *)
Definition _distribute_questions (total_count : Z)
    (question_types : list string) : result (dict Z) :=
  let n := Z.of_nat (length question_types) in
  if n =? 0 then Raise ZeroDivisionError
  else
    let base_count := total_count `div` n in
    let remainder := total_count `mod` n in
    Return (fold_left (assign base_count remainder)
              (enumerate question_types) []).

End Distribution.

(** ** JSON values and the library functions the service calls *)

(** What [json.loads] returns and [json.dumps] accepts. *)
#[warnings="-register-all"]
Inductive json :=
| JNull
| JBool (b : bool)
| JInt (n : Z)
| JStr (s : string)
| JList (l : list json)
| JDict (d : list (string * json)).

(** Truth value of a Python object in [if value:]. *)
Definition truthy (j : json) : bool :=
  match j with
  | JNull => false
  | JBool b => b
  | JInt n => negb (n =? 0)
  | JStr s => negb (String.eqb s "")
  | JList l => match l with [] => false | _ => true end
  | JDict d => match d with [] => false | _ => true end
  end.

(** [if cached:] on an [Optional] value. *)
Definition truthy_opt (o : option json) : bool :=
  match o with
  | None => false
  | Some j => truthy j
  end.

(** The regular expressions of [explanation_service.py]:
    - [ExampleNumbered]: "Example \d+:?\s*([^\n]+)\n([^E]+?)(?=Example \d+|$)"
    - [ExampleBold]:     "\*\*Example:?\*\*\s*([^\n]+)\n([^*]+?)(?=\*\*|$)"
    - [RelatedTopics]:   "Related [Tt]opics?:?\s*\n([^\n]+(?:\n[^\n]+)*?)(?=\n\n|$)"
    - [FurtherLearning]: "Further [Ll]earning:?\s*\n([^\n]+(?:\n[^\n]+)*?)(?=\n\n|$)"
    - [BulletItem]:      the bullet or numbered line of [re.findall]. *)
Inductive regex :=
| ExampleNumbered | ExampleBold | RelatedTopics | FurtherLearning | BulletItem.

(** A match object: [group1] is [match.group(1)], [group2] is
    [match.group(2)]. *)
Record re_match := ReMatch { group1 : string; group2 : string }.

(** A chat message [{"role": .., "content": ..}]. *)
Record message := Message { role : string; msg_content : string }.

(** Library code outside the repository, taken as an interface:
    [json], [hashlib], [re] (with the flags the call sites pass) and the
    prompt formatter. *)
Class Externals := {
  json_dumps : bool -> json -> string;        (* json.dumps(v, sort_keys=b) *)
  json_loads : string -> result json;         (* json.loads(s) *)
  md5_hexdigest : string -> string;           (* hashlib.md5(s.encode()).hexdigest() *)
  re_finditer : regex -> string -> list re_match;
  re_search : regex -> string -> option re_match;
  re_findall : regex -> string -> list string;
  format_explanation_prompt :
    string -> string -> Z -> option string -> list message;
  uuid4 : nat -> string;                      (* str of the n-th uuid.uuid4() *)
  model_dump_json : json -> string            (* pydantic's JSON text of a dump *)
}.

(** ** The world the service runs in *)

(** Arguments of [client.chat.completions.create]. *)
Record completion_request := CompletionRequest {
  req_model : string;
  req_messages : list message;
  req_temperature : Q;
  req_max_tokens : Z;
  req_stream : bool
}.

(** A completion: the [message.content] of each of its [choices]. *)
Record completion := Completion { choices : list string }.

(** The Redis server seen through a connection: it either answers from its
    key space (value and TTL per key), or every command raises. *)
Inductive redis_conn :=
| Live (data : gmap string (Z * string))
| Failing (e : exn).

Record world := World {
  redis : option redis_conn;            (* redis_client.redis *)
  endpoint : nat -> completion_request -> result completion;
                                        (* answer to the n-th call *)
  endpoint_calls : nat;                 (* calls made so far *)
  sleeps : list Q;                      (* arguments of time.sleep, oldest first *)
  uuid_calls : nat                      (* calls of uuid.uuid4 so far *)
}.

(** Computations that read and change the world and may raise.  A raise
    keeps the changes made before it. *)
Definition M (A : Type) : Type := world -> result A * world.

#[global] Instance M_ret : MRet M := fun A a w => (Return a, w).

#[global] Instance M_bind : MBind M := fun A B f m w =>
  match m w with
  | (Return a, w') => f a w'
  | (Raise e, w') => (Raise e, w')
  end.

Definition raise {A} (e : exn) : M A := fun w => (Raise e, w).

(** [try: m except ...]: the outcome of [m] as a value. *)
Definition try_ {A} (m : M A) : M (result A) := fun w =>
  let '(r, w') := m w in (Return r, w').

Definition lift {A} (r : result A) : M A := fun w => (r, w).

(** [time.sleep(t)] *)
Definition time_sleep (t : Q) : M unit := fun w =>
  (Return tt,
   World (redis w) (endpoint w) (endpoint_calls w) (sleeps w ++ [t])
     (uuid_calls w)).

(** [self.client.chat.completions.create(...)] *)
Definition chat_completions_create (req : completion_request) : M completion :=
  fun w =>
    (endpoint w (endpoint_calls w) req,
     World (redis w) (endpoint w) (S (endpoint_calls w)) (sleeps w)
       (uuid_calls w)).

(** [str(uuid.uuid4())] *)
Definition new_uuid `{Externals} : M string := fun w =>
  (Return (uuid4 (uuid_calls w)),
   World (redis w) (endpoint w) (endpoint_calls w) (sleeps w)
     (S (uuid_calls w))).

(** Redis commands on the connection [conn]. *)
Definition redis_GET (conn : redis_conn) (key : string) : M (option string) :=
  match conn with
  | Live data => mret (snd <$> data !! key)
  | Failing e => raise e
  end.

(** Reading the attribute [redis_client.redis]. *)
Definition self_redis : M (option redis_conn) := fun w => (Return (redis w), w).

Definition set_redis (r : option redis_conn) : M unit := fun w =>
  (Return tt,
   World r (endpoint w) (endpoint_calls w) (sleeps w) (uuid_calls w)).

(** [SETEX key ttl value]: the server refuses a time to live that is
    not positive or that exceeds [LLONG_MAX / 1000] seconds, and the
    library raises its ResponseError. *)
Definition expire_time_ok (ttl : Z) : bool :=
  (0 <? ttl) && (ttl <=? 9223372036854775).

Definition redis_SETEX (conn : redis_conn) (key : string) (ttl : Z)
    (value : string) : M unit :=
  match conn with
  | Live data =>
      if expire_time_ok ttl
      then set_redis (Some (Live (<[key := (ttl, value)]> data)))
      else raise (RedisError "invalid expire time in 'setex' command")
  | Failing e => raise e
  end.

(** [DEL k1 .. kn]: the number of keys that existed. *)
Definition redis_DEL (conn : redis_conn) (keys : list string) : M Z :=
  match conn with
  | Live data =>
      _ ← set_redis (Some (Live (foldr delete data keys)));
      mret (Z.of_nat (length (filter (fun k => is_Some (data !! k)) (remove_dups keys))))
  | Failing e => raise e
  end.

(** ** [app/clients/openai_client.py] *)

Module OpenAIClient.

(** The attributes [__init__] copies from [settings]. *)
Record t := Client {
  model : string;
  temperature : Q;
  max_tokens : Z;
  max_retries : Z;
  retry_delay : Q
}.

(** The defaults of [app/config.py]. *)
Definition from_settings : t :=
  Client "gpt-4" (7 # 10) 2000 3 1.

(** The attributes of an instance: those [__init__] sets and the methods
    the class defines. *)
Definition data_attributes : list string :=
  ["client"; "model"; "temperature"; "max_tokens"; "max_retries";
   "retry_delay"].

Definition methods : list string :=
  ["__init__"; "create_completion"; "check_health"].

(** [getattr(openai_client, name)] *)
Definition getattr (name : string) : result unit :=
  if bool_decide (name ∈ data_attributes ++ methods) then Return tt
  else Raise (AttributeError "OpenAIClient" name).

(** [e.status_code] *)
Definition status_code (e : exn) : Z :=
  match e with
  | APIError n => n
  | RateLimitError => 429
  | _ => 0
  end.

(** [wait_time = self.retry_delay * (2 ** attempt)] *)
Definition wait_time (self : t) (attempt : nat) : Q :=
  Qmult (retry_delay self) (inject_Z (2 ^ Z.of_nat attempt)).

(** The body of [for attempt in range(self.max_retries)], with the
    [except] clauses in source order; after the loop,
    [raise OpenAIError("Failed to create completion after all retries")]. *)
Fixpoint attempt_loop (self : t) (req : completion_request)
    (attempts : list nat) : M completion :=
  match attempts with
  | [] => raise (OpenAIError "Failed to create completion after all retries")
  | attempt :: rest =>
      r ← try_ (chat_completions_create req);
      match r with
      | Return response => mret response
      | Raise e =>
          if isinstance e cRateLimitError then
            if Z.of_nat attempt <? max_retries self - 1 then
              _ ← time_sleep (wait_time self attempt);
              attempt_loop self req rest
            else raise e
          else if isinstance e cAPIConnectionError then
            if Z.of_nat attempt <? max_retries self - 1 then
              _ ← time_sleep (wait_time self attempt);
              attempt_loop self req rest
            else raise e
          else if isinstance e cAPIError then
            if (Z.of_nat attempt <? max_retries self - 1)
               && (500 <=? status_code e) then
              _ ← time_sleep (wait_time self attempt);
              attempt_loop self req rest
            else raise e
          else if isinstance e cOpenAIError then raise e
          else raise e
      end
  end.

(** The arguments every attempt passes to the endpoint:
    [temp] and [tokens] fall back to the client's settings. *)
Definition request (self : t) (messages : list message)
    (temperature' : option Q) (max_tokens' : option Z) (stream : bool)
    : completion_request :=
  let temp := default (temperature self) temperature' in
  let tokens := default (max_tokens self) max_tokens' in
  CompletionRequest (model self) messages temp tokens stream.

Definition create_completion (self : t) (messages : list message)
    (temperature' : option Q) (max_tokens' : option Z) (stream : bool)
    : M completion :=
  attempt_loop self (request self messages temperature' max_tokens' stream)
    (range (max_retries self)).

(** [openai_client.<name>(messages=.., temperature=.., max_tokens=..)]:
    the attribute is looked up first; only [create_completion] accepts
    these keyword arguments. *)
Definition call (self : t) (name : string) (messages : list message)
    (temperature' : option Q) (max_tokens' : option Z) : M completion :=
  _ ← lift (getattr name);
  if String.eqb name "create_completion" then
    create_completion self messages temperature' max_tokens' false
  else raise (TypeError ("cannot call " +:+ name +:+ " with these arguments")).

End OpenAIClient.

(** ** [app/clients/redis_client.py] *)

Module RedisClient.

(** [settings.redis_cache_ttl] *)
Definition cache_ttl : Z := 86400.

(** The parameters of [set] after [self]. *)
Definition set_params : list string := ["key"; "value"; "ttl"].

Section with_externals.
Context `{Externals}.

(** [get]: [None] without a connection; inside the [try], a truthy
    reply is decoded with [json.loads]; [except Exception] returns [None]. *)
Definition get (key : string) : M (option json) :=
  redis ← self_redis;
  match redis with
  | None => mret None
  | Some conn =>
      r ← try_ (value ← redis_GET conn key;
                 match value with
                 | Some v =>
                     if negb (String.eqb v "") then
                       j ← lift (json_loads v); mret (Some j)
                     else mret None
                 | None => mret None
                 end);
       match r with
       | Return x => mret x
       | Raise e => if isinstance e cException then mret None else raise e
       end
  end.

(** [set]: [False] without a connection; [True] after [setex]; [False]
    from [except Exception]. *)
Definition set (key : string) (value : json) (ttl : option Z) : M bool :=
  redis ← self_redis;
  match redis with
  | None => mret false
  | Some conn =>
      r ← try_ (let ttl := default cache_ttl ttl in
                 _ ← redis_SETEX conn key ttl (json_dumps false value);
                 mret true);
       match r with
       | Return x => mret x
       | Raise e => if isinstance e cException then mret false else raise e
       end
  end.

(** [delete] *)
Definition delete (key : string) : M bool :=
  redis ← self_redis;
  match redis with
  | None => mret false
  | Some conn =>
      r ← try_ (_ ← redis_DEL conn [key]; mret true);
       match r with
       | Return x => mret x
       | Raise e => if isinstance e cException then mret false else raise e
       end
  end.

(** [redis_client.set(key, value, **kwargs)]: the keyword arguments are
    bound to the parameters left after the two positional ones before the
    body runs; a keyword that names none of them is a TypeError. *)
Definition call_set (key : string) (value : json) (kwargs : list (string * Z))
    : M bool :=
  match filter (fun kw => bool_decide (kw.1 ∉ drop 2 set_params)) kwargs with
  | kw :: _ =>
      raise (TypeError ("set() got an unexpected keyword argument " +:+ kw.1))
  | [] => set key value (snd <$> head kwargs)
  end.

End with_externals.

End RedisClient.

(** Sequencing of pure computations that may raise. *)
#[global] Instance result_ret : MRet result := fun A a => Return a.

#[global] Instance result_bind : MBind result := fun A B f r =>
  match r with
  | Return a => f a
  | Raise e => Raise e
  end.

(** [[f(x) for x in l]] where [f] may raise. *)
Fixpoint traverse {A B} (f : A -> result B) (l : list A) : result (list B) :=
  match l with
  | [] => Return []
  | x :: l' => y ← f x; ys ← traverse f l'; Return (y :: ys)
  end.

(** ** [app/models/responses.py]: the explanation records *)

Module Example.

Record t := Make { title : string; content : string }.

(** [model_dump()] *)
Definition model_dump (e : t) : json :=
  JDict [("title", JStr (title e)); ("content", JStr (content e))].

(** Validation of one element of [examples]. *)
Definition validate (j : json) : result t :=
  match j with
  | JDict d =>
      match dict_get "title" d, dict_get "content" d with
      | Some (JStr a), Some (JStr b) => Return (Make a b)
      | _, _ => Raise (ValidationError "examples")
      end
  | _ => Raise (ValidationError "examples")
  end.

End Example.

Module Explanation.

Record t := Make {
  content : string;
  examples : list Example.t;
  related_topics : list string;
  difficulty : Z;                 (* Field(..., ge=1, le=10) *)
  estimated_read_time : Z         (* Field(..., ge=1) *)
}.

(** [Explanation(content=.., examples=.., ...)]: the field constraints
    are checked when the model is built. *)
Definition init (content : string) (examples : list Example.t)
    (related_topics : list string) (difficulty estimated_read_time : Z)
    : result t :=
  if negb ((1 <=? difficulty) && (difficulty <=? 10)) then
    Raise (ValidationError "difficulty")
  else if negb (1 <=? estimated_read_time) then
    Raise (ValidationError "estimated_read_time")
  else Return (Make content examples related_topics difficulty estimated_read_time).

(** [explanation.model_dump()] *)
Definition model_dump (e : t) : json :=
  JDict [("content", JStr (content e));
         ("examples", JList (map Example.model_dump (examples e)));
         ("related_topics", JList (map JStr (related_topics e)));
         ("difficulty", JInt (difficulty e));
         ("estimated_read_time", JInt (estimated_read_time e))].

Definition validate_str (field : string) (j : json) : result string :=
  match j with
  | JStr s => Return s
  | _ => Raise (ValidationError field)
  end.

(** [Explanation] called on the keyword arguments [cached], which must
    be a mapping; [content],
    [difficulty] and [estimated_read_time] are required, the two lists
    default to [[]]; types are checked without coercion. *)
Definition from_kwargs (cached : json) : result t :=
  match cached with
  | JDict d =>
      match dict_get "content" d, dict_get "difficulty" d,
            dict_get "estimated_read_time" d with
      | Some (JStr c), Some (JInt df), Some (JInt rt) =>
          exs ← match dict_get "examples" d with
                | None => Return []
                | Some (JList l) => traverse Example.validate l
                | Some _ => Raise (ValidationError "examples")
                end;
          rel ← match dict_get "related_topics" d with
                | None => Return []
                | Some (JList l) => traverse (validate_str "related_topics") l
                | Some _ => Raise (ValidationError "related_topics")
                end;
          init c exs rel df rt
      | _, _, _ => Raise (ValidationError "Explanation")
      end
  | _ => Raise (TypeError "argument after ** must be a mapping")
  end.

End Explanation.

(** ** [app/services/explanation_service.py] *)

Module ExplanationService.

(** [app/models/requests.py], [ExplanationRequest]. *)
Record ExplanationRequest := Request {
  topic : string;
  subject : string;
  student_level : Z;
  context : option string;
  previous_explanations : option (list string)
}.

(** [self.cache_enabled], set to [True] by [__init__]. *)
Record t := Service { cache_enabled : bool }.

Definition new : t := Service true.

Section with_externals.
Context `{Externals} (openai_client : OpenAIClient.t).

(** [request.context.lower().strip() if request.context else ""] *)
Definition context_key (context : option string) : string :=
  match context with
  | Some c => if negb (String.eqb c "") then strip (lower c) else ""
  | None => ""
  end.

(** The dictionary [key_data]. *)
Definition key_data (request : ExplanationRequest) : json :=
  JDict [("topic", JStr (strip (lower (topic request))));
         ("subject", JStr (strip (lower (subject request))));
         ("level", JInt (student_level request));
         ("context", JStr (context_key (context request)))].

Definition _generate_cache_key (request : ExplanationRequest) : string :=
  let key_string := json_dumps true (key_data request) in
  let key_hash := md5_hexdigest key_string in
  "explanation:" +:+ key_hash.

(** The fallback of [_extract_examples]. *)
Definition placeholder : Example.t :=
  Example.Make "Example" "See explanation above for examples.".

Definition example_patterns : list regex := [ExampleNumbered; ExampleBold].

(** The two nested loops of [_extract_examples]: every match of every
    pattern is appended, patterns in order, matches in order. *)
Definition collect_examples (content : string) : list Example.t :=
  fold_left
    (fun examples pattern =>
       fold_left
         (fun examples m =>
            examples ++ [Example.Make (strip (group1 m)) (strip (group2 m))])
         (re_finditer pattern content) examples)
    example_patterns [].

Definition _extract_examples (content : string) : list Example.t :=
  let examples := collect_examples content in
  let examples :=
    if (match examples with [] => true | _ => false end)
       && contains (lower content) "example"
    then examples ++ [placeholder]
    else examples in
  take 3 examples.

Definition topic_patterns : list regex := [RelatedTopics; FurtherLearning].

Definition _extract_related_topics (content : string) : list string :=
  let related_topics :=
    fold_left
      (fun related_topics pattern =>
         match re_search pattern content with
         | Some m =>
             let topics_text := group1 m in
             let topics := re_findall BulletItem topics_text in
             related_topics ++ map strip topics
         | None => related_topics
         end)
      topic_patterns [] in
  take 5 related_topics.

Definition _parse_explanation (content : string) (student_level : Z)
    : result Explanation.t :=
  let examples := _extract_examples content in
  let related_topics := _extract_related_topics content in
  let difficulty := Z.min 10 (Z.max 1 student_level) in
  let word_count := count_words false content in
  let estimated_read_time := Z.max 1 (round_div word_count 200) in
  Explanation.init content examples related_topics difficulty
    estimated_read_time.

(** [response.choices[0].message.content] *)
Definition first_choice (response : completion) : result string :=
  match choices response with
  | c :: _ => Return c
  | [] => Raise IndexError
  end.

Definition get_explanation (self : t) (request : ExplanationRequest)
    (use_cache : bool) : M Explanation.t :=
  hit ← (if use_cache && cache_enabled self then
           let cache_key := _generate_cache_key request in
           cached ← RedisClient.get cache_key;
           match cached with
           | Some c =>
               if truthy c then e ← lift (Explanation.from_kwargs c); mret (Some e)
               else mret None
           | None => mret None
           end
         else mret None);
  match hit with
  | Some e => mret e
  | None =>
      let messages :=
        format_explanation_prompt (topic request) (subject request)
          (student_level request) (context request) in
      response ← OpenAIClient.create_completion openai_client messages
                   (Some (7 # 10)%Q) (Some 2000) false;
      content ← lift (first_choice response);
      explanation ← lift (_parse_explanation content (student_level request));
      _ ← (if use_cache && cache_enabled self then
             let cache_key := _generate_cache_key request in
             _ ← RedisClient.set cache_key (Explanation.model_dump explanation) None;
             mret tt
           else mret tt);
      mret explanation
  end.

End with_externals.

End ExplanationService.

(** ** [app/models/requests.py], [TestGenerationRequest] *)

Module TestGenerationRequest.

Record t := Make {
  subject : string;
  topics : list string;
  difficulty : Z;
  question_count : Z;
  question_types : list string;
  student_level : option Z
}.

(** [Literal['multiple_choice', 'true_false', 'open_ended']] *)
Definition type_literals : list string :=
  ["multiple_choice"; "true_false"; "open_ended"].

Definition between (lo hi n : Z) : bool := (lo <=? n) && (n <=? hi).

(** Building a request: the [Field] constraints are checked on the input,
    then the validators [strip_whitespace] and [strip_topics] run. *)
Definition init (subject : string) (topics : list string)
    (difficulty question_count : Z) (question_types : option (list string))
    (student_level : option Z) : result t :=
  let question_types := default ["multiple_choice"] question_types in
  if negb (between 1 100 (Z.of_nat (String.length subject))) then
    Raise (ValidationError "subject")
  else if negb (between 1 10 (Z.of_nat (length topics))) then
    Raise (ValidationError "topics")
  else if negb (between 1 10 difficulty) then
    Raise (ValidationError "difficulty")
  else if negb (between 1 50 question_count) then
    Raise (ValidationError "question_count")
  else if negb (forallb (fun q => bool_decide (q ∈ type_literals)) question_types) then
    Raise (ValidationError "question_types")
  else if negb (from_option (between 1 12) true student_level) then
    Raise (ValidationError "student_level")
  else
    Return (Make (strip subject)
              (map strip (filter (fun topic => strip topic ≠ "") topics))
              difficulty question_count question_types student_level).

End TestGenerationRequest.

(** ** [app/models/responses.py]: the test records *)

Module GeneratedQuestion.

(** [Union[str, List[str]]] *)
Inductive answer :=
| One (s : string)
| Many (l : list string).

Record t := Make {
  id : string;
  type : string;
  content : string;
  options : option (list string);
  correct_answer : answer;
  explanation : string;
  difficulty : Z;                 (* Field(..., ge=1, le=10) *)
  topic : string;
  points : Z
}.

Definition validate_str (field : string) (j : json) : result string :=
  match j with
  | JStr s => Return s
  | _ => Raise (ValidationError field)
  end.

Definition validate_options (j : option json) : result (option (list string)) :=
  match j with
  | None | Some JNull => Return None
  | Some (JList l) => l' ← traverse (validate_str "options") l; Return (Some l')
  | Some _ => Raise (ValidationError "options")
  end.

Definition validate_answer (j : json) : result answer :=
  match j with
  | JStr s => Return (One s)
  | JList l => l' ← traverse (validate_str "correct_answer") l; Return (Many l')
  | _ => Raise (ValidationError "correct_answer")
  end.

(** [GeneratedQuestion(id=.., type=.., ...)] on values as they come out
    of the parsed response. *)
Definition init (id type : string) (content : json) (options : option json)
    (correct_answer explanation : json) (difficulty : Z) (topic : json)
    (points : Z) : result t :=
  if negb (bool_decide (type ∈ TestGenerationRequest.type_literals)) then
    Raise (ValidationError "type")
  else
    content ← validate_str "content" content;
    options ← validate_options options;
    correct_answer ← validate_answer correct_answer;
    explanation ← validate_str "explanation" explanation;
    if negb (TestGenerationRequest.between 1 10 difficulty) then
      Raise (ValidationError "difficulty")
    else
      topic ← validate_str "topic" topic;
      Return (Make id type content options correct_answer explanation
                difficulty topic points).

Definition dump_answer (a : answer) : json :=
  match a with
  | One s => JStr s
  | Many l => JList (map JStr l)
  end.

Definition model_dump (q : t) : json :=
  JDict [("id", JStr (id q)); ("type", JStr (type q));
         ("content", JStr (content q));
         ("options", from_option (fun l => JList (map JStr l)) JNull (options q));
         ("correct_answer", dump_answer (correct_answer q));
         ("explanation", JStr (explanation q));
         ("difficulty", JInt (difficulty q));
         ("topic", JStr (topic q));
         ("points", JInt (points q))].

(** Validation of one element of [questions] when a test is rebuilt from
    a mapping; [points] defaults to 1. *)
Definition validate (j : json) : result t :=
  match j with
  | JDict d =>
      match dict_get "id" d, dict_get "type" d, dict_get "content" d,
            dict_get "correct_answer" d, dict_get "explanation" d,
            dict_get "difficulty" d, dict_get "topic" d with
      | Some (JStr i), Some (JStr ty), Some c, Some a, Some e,
        Some (JInt df), Some tp =>
          match default (JInt 1) (dict_get "points" d) with
          | JInt p => init i ty c (dict_get "options" d) a e df tp p
          | _ => Raise (ValidationError "points")
          end
      | _, _, _, _, _, _, _ => Raise (ValidationError "questions")
      end
  | _ => Raise (ValidationError "questions")
  end.

End GeneratedQuestion.

Module GeneratedTest.

Record t := Make {
  title : string;
  subject : string;
  topics : list string;
  questions : list GeneratedQuestion.t;
  time_limit : option Z;
  passing_score : Z
}.

Definition model_dump (g : t) : json :=
  JDict [("title", JStr (title g)); ("subject", JStr (subject g));
         ("topics", JList (map JStr (topics g)));
         ("questions", JList (map GeneratedQuestion.model_dump (questions g)));
         ("time_limit", from_option JInt JNull (time_limit g));
         ("passing_score", JInt (passing_score g))].

(** [GeneratedTest] called on the keyword arguments of a mapping. *)
Definition from_kwargs (cached : json) : result t :=
  match cached with
  | JDict d =>
      match dict_get "title" d, dict_get "subject" d, dict_get "topics" d,
            dict_get "questions" d, dict_get "passing_score" d with
      | Some (JStr ti), Some (JStr su), Some (JList tl), Some (JList ql),
        Some (JInt ps) =>
          tl' ← traverse (GeneratedQuestion.validate_str "topics") tl;
          ql' ← traverse GeneratedQuestion.validate ql;
          match dict_get "time_limit" d with
          | None | Some JNull => Return (Make ti su tl' ql' None ps)
          | Some (JInt n) => Return (Make ti su tl' ql' (Some n) ps)
          | Some _ => Raise (ValidationError "time_limit")
          end
      | _, _, _, _, _ => Raise (ValidationError "GeneratedTest")
      end
  | _ => Raise (TypeError "argument after ** must be a mapping")
  end.

End GeneratedTest.

(** ** [app/services/test_generation_service.py] *)

Module TestGenerationService.

Import TestGenerationRequest.

(** [self.cache_ttl], set to 3600 by [__init__]. *)
Record t := Service { cache_ttl : Z }.

Definition new : t := Service 3600.

(** The double quote and the line break of the prompt texts. *)
Definition dq : string := String (ascii_of_nat 34) EmptyString.
Definition nl : string := String (ascii_of_nat 10) EmptyString.
Definition quoted (s : string) : string := dq +:+ s +:+ dq.

Definition format_instructions (question_type : string) : string :=
  if String.eqb question_type "multiple_choice" then
    nl +:+ join nl
      ["Each question should have:";
       "- " +:+ quoted "content" +:+ ": the question text";
       "- " +:+ quoted "options" +:+ ": array of 4 answer choices";
       "- " +:+ quoted "correct_answer" +:+ ": the correct option (exact match from options)";
       "- " +:+ quoted "explanation" +:+ ": why the answer is correct";
       "- " +:+ quoted "topic" +:+ ": which topic this question covers"]
    +:+ nl
  else if String.eqb question_type "true_false" then
    nl +:+ join nl
      ["Each question should have:";
       "- " +:+ quoted "content" +:+ ": the statement to evaluate";
       "- " +:+ quoted "options" +:+ ": [" +:+ quoted "True" +:+ ", " +:+ quoted "False" +:+ "]";
       "- " +:+ quoted "correct_answer" +:+ ": either " +:+ quoted "True" +:+ " or " +:+ quoted "False";
       "- " +:+ quoted "explanation" +:+ ": why the answer is correct";
       "- " +:+ quoted "topic" +:+ ": which topic this question covers"]
    +:+ nl
  else
    nl +:+ join nl
      ["Each question should have:";
       "- " +:+ quoted "content" +:+ ": the question text";
       "- " +:+ quoted "correct_answer" +:+ ": a sample correct answer or key points";
       "- " +:+ quoted "explanation" +:+ ": what makes a good answer";
       "- " +:+ quoted "topic" +:+ ": which topic this question covers"]
    +:+ nl.

Definition example_format : string :=
  join nl
    ["[";
     "  {";
     "    " +:+ quoted "content" +:+ ": " +:+ quoted "Question text here?" +:+ ",";
     "    " +:+ quoted "options" +:+ ": [" +:+ quoted "Option A" +:+ ", "
       +:+ quoted "Option B" +:+ ", " +:+ quoted "Option C" +:+ ", "
       +:+ quoted "Option D" +:+ "],";
     "    " +:+ quoted "correct_answer" +:+ ": " +:+ quoted "Option A" +:+ ",";
     "    " +:+ quoted "explanation" +:+ ": " +:+ quoted "Explanation here" +:+ ",";
     "    " +:+ quoted "topic" +:+ ": " +:+ quoted "Topic name";
     "  }";
     "]"].

Definition _build_question_generation_prompt (question_type : string)
    (count : Z) (subject : string) (topics : list string) (difficulty : Z)
    (student_level : option Z) : string :=
  let topics_str := join ", " topics in
  let level_info :=
    match student_level with
    | Some l => if negb (l =? 0) then " for grade " +:+ pretty l +:+ " students" else ""
    | None => ""
    end in
  join nl
    ["Generate " +:+ pretty count +:+ " "
       +:+ replace_char "_" " " question_type
       +:+ " questions about " +:+ subject +:+ level_info +:+ ".";
     "";
     "Topics to cover: " +:+ topics_str;
     "Difficulty level: " +:+ pretty difficulty +:+ "/10";
     "";
     format_instructions question_type;
     "";
     "Return ONLY a valid JSON array of questions. Example format:";
     example_format;
     "";
     "Make questions clear, educational, and appropriate for the difficulty level."].

Definition fence : string := "```".

Section with_externals.
Context `{Externals} (openai_client : OpenAIClient.t).

(** [_parse_questions_response]: the [ValueError] for a non-list is
    raised inside the [try] and is not a JSONDecodeError, so it passes
    through the handler. *)
Definition _parse_questions_response (content question_type : string)
    : result (list json) :=
  let content := strip content in
  let content :=
    if startswith content fence then
      let content := before fence (drop_chars 3 content) in
      let content :=
        if startswith content "json" then drop_chars 4 content else content in
      strip content
    else content in
  match json_loads content with
  | Return (JList questions) => Return questions
  | Return _ => Raise (ValueError "Response is not a list")
  | Raise e =>
      if isinstance e cJSONDecodeError then
        Raise (ValueError "Invalid JSON response from AI")
      else Raise e
  end.

Definition _calculate_points (difficulty : Z) : Z :=
  if difficulty <=? 3 then 1
  else if difficulty <=? 6 then 2
  else 3.

(** [q_data[key]] *)
Definition subscript (q_data : json) (key : string) : result json :=
  match q_data with
  | JDict d =>
      match dict_get key d with
      | Some v => Return v
      | None => Raise (KeyError key)
      end
  | _ => Raise (TypeError "indices must be integers")
  end.

(** [q_data.get(key)] *)
Definition get_item (q_data : json) (key : string) : result (option json) :=
  match q_data with
  | JDict d => Return (dict_get key d)
  | _ => Raise (AttributeError "object" "get")
  end.

(** [topics[i % len(topics)]] *)
Definition round_robin (topics : list string) (i : nat) : result string :=
  match topics with
  | [] => Raise ZeroDivisionError
  | t0 :: _ => Return (nth (i mod length topics) topics t0)
  end.

(** The loop [for i, q_data in enumerate(questions_data)]; the keyword
    arguments of [GeneratedQuestion] are evaluated in source order. *)
Fixpoint build_questions (question_type : string) (topics : list string)
    (difficulty : Z) (items : list (nat * json))
    (questions : list GeneratedQuestion.t) : M (list GeneratedQuestion.t) :=
  match items with
  | [] => mret questions
  | (i, q_data) :: rest =>
      id ← new_uuid;
      content ← lift (subscript q_data "content");
      options ← lift (get_item q_data "options");
      correct_answer ← lift (subscript q_data "correct_answer");
      explanation ← lift (subscript q_data "explanation");
      fallback ← lift (round_robin topics i);
      topic ← lift (get_item q_data "topic");
      question ← lift (GeneratedQuestion.init id question_type content options
                         correct_answer explanation difficulty
                         (default (JStr fallback) topic)
                         (_calculate_points difficulty));
      build_questions question_type topics difficulty rest
        (questions ++ [question])
  end.

(** [_generate_questions_by_type]: the handler logs and re-raises. *)
Definition _generate_questions_by_type (question_type : string) (count : Z)
    (subject : string) (topics : list string) (difficulty : Z)
    (student_level : option Z) : M (list GeneratedQuestion.t) :=
  let prompt :=
    _build_question_generation_prompt question_type count subject topics
      difficulty student_level in
  r ← try_ (
    response ← OpenAIClient.call openai_client "chat_completion"
      [Message "system" "You are an expert educational content creator. Generate high-quality test questions in valid JSON format.";
       Message "user" prompt]
      (Some (7 # 10)%Q) (Some 2000);
    content ← lift (ExplanationService.first_choice response);
    questions_data ← lift (_parse_questions_response content question_type);
    build_questions question_type topics difficulty
      (enumerate questions_data) []);
  match r with
  | Return questions => mret questions
  | Raise e => raise e
  end.

(** The loop [for question_type, count in questions_per_type.items()]. *)
Fixpoint generate_each (request : TestGenerationRequest.t)
    (items : list (string * Z)) (questions : list GeneratedQuestion.t)
    : M (list GeneratedQuestion.t) :=
  match items with
  | [] => mret questions
  | (question_type, count) :: rest =>
      if 0 <? count then
        type_questions ← _generate_questions_by_type question_type count
          (subject request) (topics request) (difficulty request)
          (student_level request);
        generate_each request rest (questions ++ type_questions)
      else generate_each request rest questions
  end.

Definition _generate_questions (request : TestGenerationRequest.t)
    : M (list GeneratedQuestion.t) :=
  questions_per_type ← lift (Distribution._distribute_questions
                               (question_count request)
                               (question_types request));
  generate_each request questions_per_type [].

Definition _generate_title (subject : string) (topics : list string) : string :=
  match topics with
  | [t0] => subject +:+ ": " +:+ t0 +:+ " Test"
  | _ =>
      if (length topics <=? 3)%nat then
        subject +:+ ": " +:+ join ", " topics +:+ " Test"
      else subject +:+ ": Multiple Topics Test"
  end.

(** [_calculate_time_limit]: [base_time = 1 + difficulty / 5] is a float
    in the source; the product and the truncation of [int(..)] are taken
    here in exact arithmetic. *)
Definition _calculate_time_limit (question_count difficulty : Z) : Z :=
  let total_minutes := (question_count * (5 + difficulty)) `quot` 5 in
  Z.max 5 (round_div total_minutes 5 * 5).

Definition _calculate_passing_score (difficulty : Z) : Z :=
  if difficulty <=? 3 then 80
  else if difficulty <=? 6 then 70
  else 60.

Definition _get_cache_key (request : TestGenerationRequest.t) : string :=
  let topics_str := join "_" (sorted (topics request)) in
  let types_str := join "_" (sorted (question_types request)) in
  "test:" +:+ subject request +:+ ":" +:+ topics_str +:+ ":"
    +:+ pretty (difficulty request) +:+ ":"
    +:+ pretty (question_count request) +:+ ":" +:+ types_str.

(** The write-through step of [generate_test]:
    [redis_client.set(cache_key, test.model_dump_json(), ex=self.cache_ttl)]. *)
Definition write_through (self : t) (cache_key : string)
    (test : GeneratedTest.t) : M bool :=
  RedisClient.call_set cache_key
    (JStr (model_dump_json (GeneratedTest.model_dump test)))
    [("ex", cache_ttl self)].

Definition generate_test (self : t) (request : TestGenerationRequest.t)
    : M GeneratedTest.t :=
  let cache_key := _get_cache_key request in
  cached_test ← RedisClient.get cache_key;
  if truthy_opt cached_test then
    match cached_test with
    | Some (JStr s) =>
        j ← lift (json_loads s); lift (GeneratedTest.from_kwargs j)
    | _ => raise (TypeError "the JSON object must be str, bytes or bytearray")
    end
  else
    questions ← _generate_questions request;
    let test :=
      GeneratedTest.Make
        (_generate_title (subject request) (topics request))
        (subject request) (topics request) questions
        (Some (_calculate_time_limit (Z.of_nat (length questions))
                 (difficulty request)))
        (_calculate_passing_score (difficulty request)) in
    _ ← write_through self cache_key test;
    mret test.

End with_externals.

End TestGenerationService.

(** ** Glob-style patterns of the Redis command KEYS

    The server matches bytes: [*] matches any run of bytes, [?] one byte,
    [[...]] one byte of a class (ranges [a-z], negation with a leading
    [^]), and a backslash makes the next byte literal.  A pattern is
    first split into items, then matched. *)

Module Glob.

Inductive item :=
| Star
| AnyChar
| Lit (c : ascii)
| Class (negated : bool) (ranges : list (ascii * ascii)).

Definition lo_hi (a b : ascii) : ascii * ascii :=
  if (nat_of_ascii a <=? nat_of_ascii b)%nat then (a, b) else (b, a).

Fixpoint parse (p : string) : list item :=
  match p with
  | EmptyString => []
  | String c p' =>
      if Ascii.eqb c "*" then Star :: parse p'
      else if Ascii.eqb c "?" then AnyChar :: parse p'
      else if Ascii.eqb c "\" then
        match p' with
        | String x p'' => Lit x :: parse p''
        | EmptyString => [Lit c]
        end
      else if Ascii.eqb c "[" then
        match p' with
        | String x p'' =>
            if Ascii.eqb x "^" then parse_class true [] p''
            else parse_class false [] p'
        | EmptyString => parse_class false [] p'
        end
      else Lit c :: parse p'
  end
with parse_class (negated : bool) (acc : list (ascii * ascii)) (p : string)
    : list item :=
  match p with
  | EmptyString => [Class negated (rev acc)]
  | String c p' =>
      if Ascii.eqb c "\" then
        match p' with
        | String x p'' => parse_class negated ((x, x) :: acc) p''
        | EmptyString => parse_class negated ((c, c) :: acc) p'
        end
      else if Ascii.eqb c "]" then Class negated (rev acc) :: parse p'
      else
        match p' with
        | String d (String e p'') =>
            if Ascii.eqb d "-" then parse_class negated (lo_hi c e :: acc) p''
            else parse_class negated ((c, c) :: acc) p'
        | _ => parse_class negated ((c, c) :: acc) p'
        end
  end.

Definition in_class (ranges : list (ascii * ascii)) (c : ascii) : bool :=
  existsb
    (fun r => (nat_of_ascii r.1 <=? nat_of_ascii c)%nat
              && (nat_of_ascii c <=? nat_of_ascii r.2)%nat)
    ranges.

Fixpoint matches (its : list item) (s : string) : bool :=
  match its with
  | [] => match s with EmptyString => true | String _ _ => false end
  | Star :: its' =>
      (fix try (s : string) : bool :=
         matches its' s
         || match s with
            | EmptyString => false
            | String _ s' => try s'
            end) s
  | AnyChar :: its' =>
      match s with
      | String _ s' => matches its' s'
      | EmptyString => false
      end
  | Lit c :: its' =>
      match s with
      | String x s' => Ascii.eqb x c && matches its' s'
      | EmptyString => false
      end
  | Class negated ranges :: its' =>
      match s with
      | String x s' => xorb negated (in_class ranges x) && matches its' s'
      | EmptyString => false
      end
  end.

Definition glob_match (pattern s : string) : bool := matches (parse pattern) s.

End Glob.

(** Whether the server finds the key [k] under [pattern]: the library
    sends both as UTF-8. *)
Definition key_match (pattern k : string) : bool :=
  Glob.glob_match (encode pattern) (encode k).

(** [KEYS pattern]: the keys of the key space that match. *)
Definition redis_KEYS (conn : redis_conn) (pattern : string) : M (list string) :=
  match conn with
  | Live data =>
      mret (filter (fun k => key_match pattern k = true)
              (map fst (map_to_list data)))
  | Failing e => raise e
  end.

(** ** [app/services/learning_plan_service.py]: the cache key *)

Module LearningPlanService.

Definition _generate_cache_key (student_id : string) (subjects : list string)
    (exam_type : option string) (planning_days : Z) : string :=
  let subjects_str := join "_" (sorted subjects) in
  let exam_str :=
    match exam_type with
    | Some e => if negb (String.eqb e "") then e else "general"
    | None => "general"
    end in
  "learning_plan:" +:+ student_id +:+ ":" +:+ subjects_str +:+ ":"
    +:+ exam_str +:+ ":" +:+ pretty planning_days.

End LearningPlanService.

(** ** [app/services/cache_invalidation.py] *)

Module CacheInvalidationService.

(** The shared body of the invalidation methods: 0 without a connection;
    [keys = await redis.keys(pattern)], then [redis.delete] on the keys
    found when there are any; [except Exception] returns 0. *)
Definition invalidate_pattern (pattern : string) : M Z :=
  redis ← self_redis;
  match redis with
  | None => mret 0
  | Some conn =>
      r ← try_ (keys ← redis_KEYS conn pattern;
                match keys with
                | _ :: _ => deleted ← redis_DEL conn keys; mret deleted
                | [] => mret 0
                end);
      match r with
      | Return deleted => mret deleted
      | Raise e => if isinstance e cException then mret 0 else raise e
      end
  end.

Definition invalidate_explanation (topic subject : string) : M Z :=
  invalidate_pattern
    ("explanation:*" +:+ lower topic +:+ "*" +:+ lower subject +:+ "*").

Definition invalidate_test_templates (subject : option string) : M Z :=
  invalidate_pattern
    (match subject with
     | Some s => if negb (String.eqb s "") then "test:*" +:+ lower s +:+ "*" else "test:*"
     | None => "test:*"
     end).

Definition invalidate_learning_plans (student_id : string) : M Z :=
  invalidate_pattern ("learning_plan:" +:+ student_id +:+ ":*").

End CacheInvalidationService.

(** ** A test double for the library interface

    Used to run the service on concrete inputs: JSON is rendered without
    escaping, decoding recognises the documents of a given table, the
    digest is the text itself, the regular expressions find nothing, and
    the prompt is the topic. *)

Module Stub.

Fixpoint render (j : json) : string :=
  match j with
  | JNull => "null"
  | JBool b => if b then "true" else "false"
  | JInt n => pretty n
  | JStr s => TestGenerationService.quoted s
  | JList l => "[" +:+ join ", " (map render l) +:+ "]"
  | JDict d =>
      "{" +:+ join ", "
                (map (fun kv =>
                        match kv with
                        | (k, v) =>
                            TestGenerationService.quoted k +:+ ": " +:+ render v
                        end) d)
          +:+ "}"
  end.

Definition decode (table : list json) (s : string) : result json :=
  match filter (fun j => render j = s) table with
  | j :: _ => Return j
  | [] => Raise JSONDecodeError
  end.

Definition externals (table : list json) : Externals := {|
  json_dumps := fun _ => render;
  json_loads := decode table;
  md5_hexdigest := fun s => s;
  re_finditer := fun _ _ => [];
  re_search := fun _ _ => None;
  re_findall := fun _ _ => [];
  format_explanation_prompt := fun topic _ _ _ => [Message "user" topic];
  uuid4 := fun n => pretty n;
  model_dump_json := render
|}.

End Stub.

(** * Properties *)

(** ** Dictionaries *)

Section dict_facts.
Context {V : Type}.
Implicit Types (d : dict V) (k : string) (v : V).

Lemma dict_set_fresh k v d :
  k ∉ map fst d -> dict_set k v d = d ++ [(k, v)].
Proof.
  induction d as [|[k' v'] d IH]; simpl; intros Hk; [done|].
  apply not_elem_of_cons in Hk as [Hne Hk].
  destruct (String.eqb_spec k' k) as [->|_]; [done|].
  by rewrite IH.
Qed.

End dict_facts.

(** ** C1: the work distributor *)

Section distribution_facts.
Import Distribution.

(** The count the loop assigns to position [i]. *)
Definition share (base_count remainder : Z) (i : nat) : Z :=
  base_count + (if Z.of_nat i <? remainder then 1 else 0).

Definition shares (base_count remainder : Z) (its : list (nat * string))
    : dict Z :=
  map (fun it => (it.2, share base_count remainder it.1)) its.

Lemma shares_keys b r k (cats : list string) :
  map fst (shares b r (zip (seq k (length cats)) cats)) = cats.
Proof.
  revert k. induction cats as [|c cats IH]; intros k; simpl; [done|].
  by rewrite IH.
Qed.

(** On distinct categories the loop only ever appends. *)
Lemma fold_assign_fresh b r (cats : list string) : forall k (d0 : dict Z),
  NoDup (map fst d0 ++ cats) ->
  fold_left (assign b r) (zip (seq k (length cats)) cats) d0
  = d0 ++ shares b r (zip (seq k (length cats)) cats).
Proof.
  induction cats as [|c cats IH]; intros k d0 Hnd; simpl.
  - by rewrite app_nil_r.
  - unfold assign at 2; simpl.
    assert (Hc : c ∉ map fst d0).
    { apply NoDup_app in Hnd as (_ & Hdis & _). intros Hin.
      apply (Hdis c Hin). left. }
    rewrite (dict_set_fresh _ _ _ Hc), IH.
    + by rewrite <- app_assoc.
    + rewrite map_app; simpl. rewrite <- app_assoc. exact Hnd.
Qed.

Lemma distribute_shares (total : Z) (cats : list string) :
  cats <> [] -> NoDup cats ->
  let n := Z.of_nat (length cats) in
  _distribute_questions total cats
  = Return (shares (total `div` n) (total `mod` n) (enumerate cats)).
Proof.
  intros Hne Hnd n. unfold _distribute_questions, enumerate.
  destruct (Z.eqb_spec (Z.of_nat (length cats)) 0) as [E|_].
  - destruct cats; [done | simpl in E; lia].
  - by rewrite (fold_assign_fresh _ _ cats 0%nat []).
Qed.

Lemma shares_get b r (cats : list string) : forall k i c,
  NoDup cats -> cats !! i = Some c ->
  dict_get c (shares b r (zip (seq k (length cats)) cats))
  = Some (share b r (k + i)).
Proof.
  induction cats as [|c0 cats IH]; intros k i c Hnd Hi; [done|].
  apply NoDup_cons in Hnd as [Hc0 Hnd]. simpl.
  destruct i as [|i]; simpl in Hi.
  - injection Hi as ->. rewrite String.eqb_refl. by rewrite Nat.add_0_r.
  - destruct (String.eqb_spec c0 c) as [->|_].
    + exfalso. apply Hc0. by eapply list_elem_of_lookup_2.
    + rewrite (IH (S k) i c Hnd Hi). f_equal. f_equal. lia.
Qed.

Lemma shares_sum b r (cats : list string) : forall k,
  sum (values (shares b r (zip (seq k (length cats)) cats)))
  = Z.of_nat (length cats) * b
    + Z.max 0 (Z.min (Z.of_nat (k + length cats)) r - Z.of_nat k).
Proof.
  unfold sum, values.
  induction cats as [|c cats IH]; intros k; simpl.
  - rewrite Nat.add_0_r. lia.
  - rewrite (IH (S k)). unfold share.
    destruct (Z.ltb_spec (Z.of_nat k) r); lia.
Qed.

Lemma shares_bounds b r (its : list (nat * string)) :
  Forall (fun v => b <= v <= b + 1) (values (shares b r its)).
Proof.
  induction its as [|it its IH]; simpl; constructor; [|exact IH].
  unfold share. destruct (_ <? _); lia.
Qed.

Lemma max_le (l : list Z) hi : Forall (fun v => v <= hi) l -> l <> [] -> max l <= hi.
Proof.
  destruct l as [|x l]; [done|]. intros Hall _.
  apply Forall_cons in Hall as [Hx Hl]. simpl.
  induction Hl; simpl; lia.
Qed.

Lemma min_ge (l : list Z) lo : Forall (fun v => lo <= v) l -> l <> [] -> lo <= min l.
Proof.
  destruct l as [|x l]; [done|]. intros Hall _.
  apply Forall_cons in Hall as [Hx Hl]. simpl.
  induction Hl; simpl; lia.
Qed.

(** C1.  For a total between 1 and 50 and one to three distinct
    categories, [_distribute_questions] returns a mapping whose keys are
    the categories in input order, whose values add up to the total and
    differ by at most one, and in which the category at index [i] gets
    [base + 1] when [i < remainder] and [base] otherwise, where
    [base = total // n] and [remainder = total % n]. *)
Theorem distribute_questions_fair (total : Z) (categories : list string) :
  1 <= total <= 50 ->
  (1 <= length categories <= 3)%nat ->
  NoDup categories ->
  let n := Z.of_nat (length categories) in
  let base := total `div` n in
  let remainder := total `mod` n in
  exists d,
    _distribute_questions total categories = Return d
    /\ map fst d = categories
    /\ sum (values d) = total
    /\ max (values d) - min (values d) <= 1
    /\ forall i c, categories !! i = Some c ->
         dict_get c d = Some (if Z.of_nat i <? remainder then base + 1 else base).
Proof.
  intros Htot Hlen Hnd n base remainder.
  assert (Hne : categories <> []) by (destruct categories; simpl in *; [lia|done]).
  assert (Hn : 0 < n) by (unfold n; lia).
  exists (shares base remainder (enumerate categories)).
  split; [by apply distribute_shares|].
  unfold enumerate. split; [apply shares_keys|].
  split; [|split].
  - rewrite shares_sum. simpl. fold n.
    pose proof (Z.mod_pos_bound total n Hn) as Hr. fold remainder in Hr.
    pose proof (Z.div_mod total n ltac:(lia)) as Hdm.
    fold base remainder in Hdm. lia.
  - pose proof (shares_bounds base remainder
                  (zip (seq 0 (length categories)) categories)) as Hb.
    assert (Hv : values (shares base remainder
                   (zip (seq 0 (length categories)) categories)) <> []).
    { destruct categories; [done|]. simpl. discriminate. }
    assert (Hhi : max (values (shares base remainder
                   (zip (seq 0 (length categories)) categories))) <= base + 1).
    { apply max_le; [|exact Hv]. eapply Forall_impl; [exact Hb|]. simpl. lia. }
    assert (Hlo : base <= min (values (shares base remainder
                   (zip (seq 0 (length categories)) categories)))).
    { apply min_ge; [|exact Hv]. eapply Forall_impl; [exact Hb|]. simpl. lia. }
    lia.
  - intros i c Hi. rewrite (shares_get _ _ _ 0%nat i c Hnd Hi). simpl.
    unfold share. destruct (_ <? _); f_equal; lia.
Qed.

(** Ten questions over three types: the hypotheses hold, and the counts
    are 4, 3 and 3. *)
Lemma distribute_questions_fair_witness :
  exists d,
    _distribute_questions 10 ["A"; "B"; "C"] = Return d
    /\ map fst d = ["A"; "B"; "C"]
    /\ sum (values d) = 10
    /\ max (values d) - min (values d) <= 1
    /\ forall i c, ["A"; "B"; "C"] !! i = Some c ->
         dict_get c d = Some (if Z.of_nat i <? 10 `mod` 3 then 10 `div` 3 + 1 else 10 `div` 3).
Proof.
  apply (distribute_questions_fair 10 ["A"; "B"; "C"]).
  - lia.
  - simpl; lia.
  - apply (bool_decide_unpack _). vm_compute. exact I.
Defined.

Example distribute_10_over_3 :
  _distribute_questions 10 ["A"; "B"; "C"]
  = Return [("A", 4); ("B", 3); ("C", 3)].
Proof. reflexivity. Qed.

(** A repeated type is overwritten by its last position, and the counts
    no longer add up: the distinctness of the categories is needed. *)
Example distribute_repeated_type :
  _distribute_questions 10 ["A"; "B"; "A"] = Return [("A", 3); ("B", 3)].
Proof. reflexivity. Qed.

Example distribute_no_types :
  _distribute_questions 10 [] = Raise ZeroDivisionError.
Proof. reflexivity. Qed.

End distribution_facts.

(** ** The retry loop of [create_completion] *)

Ltac unfold_monad :=
  unfold mbind, M_bind, mret, M_ret, try_, raise, lift, time_sleep,
    chat_completions_create, self_redis, set_redis.

Section retry_facts.
Import OpenAIClient.

(** The failures the handlers retry while attempts remain: rate limits,
    connection errors, and API errors with a 5xx status. *)
Definition retryable (e : exn) : bool :=
  isinstance e cRateLimitError
  || isinstance e cAPIConnectionError
  || isinstance e cAPIError && (500 <=? status_code e).

(** The world after [calls] more endpoint calls and the sleeps [ts]. *)
Definition after (w : world) (calls : nat) (ts : list Q) : world :=
  World (redis w) (endpoint w) (endpoint_calls w + calls) (sleeps w ++ ts)
    (uuid_calls w).

(** One failed attempt that is not the last sleeps and moves on. *)
Lemma attempt_retry self req attempt rest w e :
  endpoint w (endpoint_calls w) req = Raise e ->
  retryable e = true ->
  Z.of_nat attempt < max_retries self - 1 ->
  attempt_loop self req (attempt :: rest) w
  = attempt_loop self req rest (after w 1 [wait_time self attempt]).
Proof.
  intros He Hr Hlt. simpl. unfold_monad. rewrite He.
  apply Z.ltb_lt in Hlt. rewrite Hlt. unfold retryable in Hr.
  unfold after. rewrite Nat.add_1_r.
  destruct e; simpl in *; try discriminate; try done.
  by rewrite Hr.
Qed.

(** A failed attempt that is the last one re-raises the error it caught. *)
Lemma attempt_last self req attempt rest w e :
  endpoint w (endpoint_calls w) req = Raise e ->
  max_retries self - 1 <= Z.of_nat attempt ->
  attempt_loop self req (attempt :: rest) w = (Raise e, after w 1 []).
Proof.
  intros He Hge. simpl. unfold_monad. rewrite He.
  assert (Hlt : (Z.of_nat attempt <? max_retries self - 1) = false)
    by (apply Z.ltb_ge; lia).
  rewrite Hlt. unfold after. rewrite Nat.add_1_r, app_nil_r.
  by destruct e.
Qed.

(** When each of the [m] attempts left fails with a retryable error, the
    loop makes [m] calls, sleeps after each one but the last, and raises
    the error of the last call. *)
Lemma attempt_loop_all_fail self req : forall m (err : nat -> exn) a w,
  Z.of_nat (a + S m) = max_retries self ->
  (forall j, (j <= m)%nat ->
     endpoint w (endpoint_calls w + j) req = Raise (err j)
     /\ retryable (err j) = true) ->
  attempt_loop self req (seq a (S m)) w
  = (Raise (err m), after w (S m) (map (wait_time self) (seq a m))).
Proof.
  induction m as [|m IH]; intros err a w Hmax Hfail.
  - destruct (Hfail 0%nat ltac:(lia)) as [He _]. rewrite Nat.add_0_r in He.
    apply attempt_last; [done | lia].
  - destruct (Hfail 0%nat ltac:(lia)) as [He Hr]. rewrite Nat.add_0_r in He.
    change (seq a (S (S m))) with (a :: seq (S a) (S m)).
    rewrite (attempt_retry self req a _ w (err 0%nat) He Hr); [|lia].
    rewrite (IH (fun j => err (S j)) (S a)); [| lia |].
    + f_equal. unfold after; simpl. f_equal; [lia|]. by rewrite <- app_assoc.
    + intros j Hj. simpl.
      replace (endpoint_calls w + 1 + j)%nat
        with (endpoint_calls w + S j)%nat by lia.
      apply Hfail. lia.
Qed.

(** A world without a cache connection whose endpoint raises [e] on
    every call. *)
Definition always_raising (e : exn) : world :=
  World None (fun _ _ => Raise e) 0 [] 0.




(** C4, as amended.  When every attempt fails with a retryable error,
    [create_completion] ends by re-raising the error caught on the final
    attempt itself. *)
Theorem exhaustion_reraises_last_error (self : t) messages temperature'
    max_tokens' stream (w : world) (n : nat) (err : nat -> exn) :
  max_retries self = Z.of_nat (S n) ->
  (forall j, (j <= n)%nat ->
     endpoint w (endpoint_calls w + j)
       (request self messages temperature' max_tokens' stream) = Raise (err j)
     /\ retryable (err j) = true) ->
  (create_completion self messages temperature' max_tokens' stream w).1
  = Raise (err n).
Proof.
  intros Hmax Hfail. unfold create_completion, range.
  rewrite Hmax, Nat2Z.id.
  by rewrite (attempt_loop_all_fail self _ n err 0%nat w); [|lia|done].
Qed.

(** Three attempts that fail with a rate limit, a connection error and a
    503: the 503 of the last attempt is what the caller sees. *)
Definition mixed_failures (j : nat) : exn :=
  match j with
  | O => RateLimitError
  | S O => APIConnectionError
  | _ => APIError 503
  end.

Lemma exhaustion_reraises_last_error_witness :
  (create_completion from_settings [] None None false
     (World None (fun j _ => Raise (mixed_failures j)) 0 [] 0)).1
  = Raise (APIError 503).
Proof.
  apply (exhaustion_reraises_last_error from_settings [] None None false
           (World None (fun j _ => Raise (mixed_failures j)) 0 [] 0)
           2 mixed_failures).
  - reflexivity.
  - intros j Hj.
    destruct j as [|[|[|j]]]; [split; reflexivity .. | exfalso; lia].
Defined.

(** C4 as stated fails: after three rate-limited attempts the caller gets
    the RateLimitError of the last attempt, not the generic error raised
    after the loop. *)
Lemma exhaustion_is_not_a_distinct_error :
  (create_completion from_settings [] None None false
     (always_raising RateLimitError)).1 = Raise RateLimitError
  /\ (create_completion from_settings [] None None false
        (always_raising RateLimitError)).1
     <> Raise (OpenAIError "Failed to create completion after all retries").
Proof. vm_compute. split; [reflexivity | discriminate]. Qed.

(** The generic error after the loop is reached only when the loop body
    never runs. *)
Lemma no_attempts_generic_error (self : t) messages temperature' max_tokens'
    stream (w : world) :
  max_retries self <= 0 ->
  create_completion self messages temperature' max_tokens' stream w
  = (Raise (OpenAIError "Failed to create completion after all retries"), w).
Proof.
  intros Hle. unfold create_completion, range.
  by replace (Z.to_nat (max_retries self)) with 0%nat by lia.
Qed.

(** C5.  A client-side API error (status below 500) on the first attempt
    ends the invocation at once: one endpoint call, no sleep, and the
    error itself reaches the caller. *)
Theorem client_error_not_retried (self : t) messages temperature' max_tokens'
    stream (w : world) (code : Z) :
  1 <= max_retries self ->
  code < 500 ->
  endpoint w (endpoint_calls w)
    (request self messages temperature' max_tokens' stream)
  = Raise (APIError code) ->
  create_completion self messages temperature' max_tokens' stream w
  = (Raise (APIError code),
     World (redis w) (endpoint w) (S (endpoint_calls w)) (sleeps w)
       (uuid_calls w)).
Proof.
  intros Hmax Hcode He. unfold create_completion, range.
  destruct (Z.to_nat (max_retries self)) as [|k] eqn:Hk; [lia|].
  simpl. unfold_monad. rewrite He. simpl.
  assert (Hc : (500 <=? code) = false) by (apply Z.leb_gt; lia).
  by rewrite Hc, andb_false_r.
Qed.

Lemma client_error_not_retried_witness :
  create_completion from_settings [] None None false
    (always_raising (APIError 400))
  = (Raise (APIError 400), World None (fun _ _ => Raise (APIError 400)) 1 [] 0).
Proof.
  apply (client_error_not_retried from_settings [] None None false
           (always_raising (APIError 400)) 400).
  - simpl. lia.
  - lia.
  - reflexivity.
Defined.

End retry_facts.

(** ** C6: the cache wrapper absorbs every failure of the store *)

Section redis_facts.
Context `{Externals}.

(** The store is unavailable: no connection was made, or every command
    on the connection raises. *)
Definition unavailable (w : world) : Prop :=
  redis w = None \/ exists e, redis w = Some (Failing e).

Lemma isinstance_Exception e : isinstance e cException = true.
Proof. by destruct e. Qed.

(** [get] returns a value in every world and leaves the world as it is. *)
Lemma get_never_raises key w : exists r, RedisClient.get key w = (Return r, w).
Proof.
  unfold RedisClient.get. unfold_monad. simpl.
  destruct (redis w) as [[data|e]|]; simpl; unfold_monad; simpl.
  - destruct (data !! key) as [[ttl v]|]; simpl; [|by eexists].
    destruct (String.eqb v ""); simpl; [by eexists|].
    destruct (json_loads v) as [j|e]; simpl; [by eexists|].
    rewrite ?isinstance_Exception. by eexists.
  - rewrite ?isinstance_Exception. by eexists.
  - by eexists.
Qed.

Lemma set_never_raises key value ttl w :
  exists b w', RedisClient.set key value ttl w = (Return b, w').
Proof.
  unfold RedisClient.set. unfold_monad. simpl.
  destruct (redis w) as [[data|e]|]; simpl; unfold_monad; simpl.
  - destruct (expire_time_ok _); simpl; by do 2 eexists.
  - rewrite ?isinstance_Exception. by do 2 eexists.
  - by do 2 eexists.
Qed.

Lemma delete_never_raises key w :
  exists b w', RedisClient.delete key w = (Return b, w').
Proof.
  unfold RedisClient.delete. unfold_monad. simpl.
  destruct (redis w) as [[data|e]|]; simpl; unfold_monad; simpl.
  - by do 2 eexists.
  - rewrite ?isinstance_Exception. by do 2 eexists.
  - by do 2 eexists.
Qed.

(** C6.  When the store is unavailable, [get] returns [None] and [set]
    and [delete] return [False]; none of them raises, and the world is
    left as it was. *)
Theorem cache_failures_absorbed (w : world) (key : string) (value : json)
    (ttl : option Z) :
  unavailable w ->
  RedisClient.get key w = (Return None, w)
  /\ RedisClient.set key value ttl w = (Return false, w)
  /\ RedisClient.delete key w = (Return false, w).
Proof.
  unfold RedisClient.get, RedisClient.set, RedisClient.delete.
  intros [Hr | [e Hr]]; unfold_monad; simpl; rewrite Hr; simpl;
    unfold_monad; simpl; rewrite ?isinstance_Exception; done.
Qed.

(** A reply that [json.loads] rejects is absorbed as well. *)
Lemma get_absorbs_decode_error (w : world) key data ttl v e :
  redis w = Some (Live data) ->
  data !! key = Some (ttl, v) ->
  json_loads v = Raise e ->
  RedisClient.get key w = (Return None, w).
Proof.
  intros Hr Hk Hj. unfold RedisClient.get. unfold_monad. simpl.
  rewrite Hr. simpl. unfold_monad. simpl. rewrite Hk. simpl.
  destruct (String.eqb v ""); simpl; [done|].
  rewrite Hj. simpl. by rewrite ?isinstance_Exception.
Qed.

(** On a live store: a miss, a write, and a hit. *)
Lemma get_live_miss (w : world) key data :
  redis w = Some (Live data) -> data !! key = None ->
  RedisClient.get key w = (Return None, w).
Proof.
  intros Hr Hk. unfold RedisClient.get. unfold_monad. simpl.
  rewrite Hr. simpl. unfold_monad. simpl. by rewrite Hk.
Qed.

Lemma set_live (w : world) key value ttl data :
  redis w = Some (Live data) ->
  expire_time_ok (default RedisClient.cache_ttl ttl) = true ->
  RedisClient.set key value ttl w
  = (Return true,
     World (Some (Live (<[key := (default RedisClient.cache_ttl ttl,
                                   json_dumps false value)]> data)))
       (endpoint w) (endpoint_calls w) (sleeps w) (uuid_calls w)).
Proof.
  intros Hr Hok. unfold RedisClient.set. unfold_monad. simpl.
  rewrite Hr. simpl. rewrite Hok. by unfold_monad.
Qed.

(** A time to live the server refuses: nothing is stored. *)
Lemma set_refused (w : world) key value ttl data :
  redis w = Some (Live data) ->
  expire_time_ok (default RedisClient.cache_ttl ttl) = false ->
  RedisClient.set key value ttl w = (Return false, w).
Proof.
  intros Hr Hok. unfold RedisClient.set. unfold_monad. simpl.
  rewrite Hr. simpl. rewrite Hok. by unfold_monad.
Qed.

Lemma get_live_hit (w : world) key data ttl v j :
  redis w = Some (Live data) ->
  data !! key = Some (ttl, v) ->
  v <> "" ->
  json_loads v = Return j ->
  RedisClient.get key w = (Return (Some j), w).
Proof.
  intros Hr Hk Hv Hj. unfold RedisClient.get. unfold_monad. simpl.
  rewrite Hr. simpl. unfold_monad. simpl. rewrite Hk. simpl.
  apply String.eqb_neq in Hv. rewrite Hv. simpl. by rewrite Hj.
Qed.

End redis_facts.

(** With no connection at all the three operations degrade quietly. *)
Lemma cache_failures_absorbed_witness :
  RedisClient.get (H := Stub.externals []) "k" (always_raising RateLimitError)
    = (Return None, always_raising RateLimitError)
  /\ RedisClient.set (H := Stub.externals []) "k" JNull None
       (always_raising RateLimitError)
    = (Return false, always_raising RateLimitError)
  /\ RedisClient.delete "k" (always_raising RateLimitError)
    = (Return false, always_raising RateLimitError).
Proof.
  apply (cache_failures_absorbed (H := Stub.externals [])
           (always_raising RateLimitError) "k" JNull None).
  left. reflexivity.
Defined.

(** ** C8: example extraction *)

Section example_facts.
Context `{Externals}.
Import ExplanationService.

(** The example built from one match. *)
Definition example_of (m : re_match) : Example.t :=
  Example.Make (strip (group1 m)) (strip (group2 m)).

(** The structured examples in discovery order: the matches of the
    numbered pattern, then those of the bold pattern. *)
Definition discovered (content : string) : list Example.t :=
  map example_of (re_finditer ExampleNumbered content)
  ++ map example_of (re_finditer ExampleBold content).

Lemma fold_left_snoc {A B} (f : A -> B) (l : list A) : forall acc,
  fold_left (fun acc x => acc ++ [f x]) l acc = acc ++ map f l.
Proof.
  induction l as [|x l IH]; intros acc; simpl.
  - by rewrite app_nil_r.
  - by rewrite IH, <- app_assoc.
Qed.

Lemma collect_examples_discovered content :
  collect_examples content = discovered content.
Proof.
  unfold collect_examples, discovered, example_patterns. simpl.
  by rewrite !(fold_left_snoc example_of).
Qed.

(** C8.  When neither example pattern matches and the lower-cased text
    contains "example", the result is the one placeholder; in every case
    the result has at most three elements, and when a pattern matches it
    is the first three structured examples in discovery order. *)
Theorem extract_examples_fallback_and_cap (content : string) :
  (re_finditer ExampleNumbered content = [] ->
   re_finditer ExampleBold content = [] ->
   contains (lower content) "example" = true ->
   _extract_examples content = [placeholder])
  /\ (length (_extract_examples content) <= 3)%nat
  /\ (discovered content <> [] ->
      _extract_examples content = take 3 (discovered content)).
Proof.
  unfold _extract_examples. rewrite collect_examples_discovered.
  split; [|split].
  - intros H1 H2 Hc. unfold discovered. rewrite H1, H2. simpl. by rewrite Hc.
  - rewrite length_take. lia.
  - intros Hne. by destruct (discovered content).
Qed.

End example_facts.

(** A text that mentions an example without a structured marker. *)
Lemma extract_examples_fallback_and_cap_witness :
  ExplanationService._extract_examples (H := Stub.externals [])
    "For example, 2 + 2 = 4."
  = [ExplanationService.placeholder].
Proof.
  apply (proj1 (extract_examples_fallback_and_cap (H := Stub.externals [])
                  "For example, 2 + 2 = 4.")); reflexivity.
Defined.

(** ** C2: cache keys *)

Section sorted_facts.

Lemma insert_sorted_perm x l : insert_sorted x l ≡ₚ x :: l.
Proof.
  induction l as [|y l IH]; simpl; [done|].
  destruct (String.leb x y); [done|].
  rewrite IH. apply Permutation_swap.
Qed.

Lemma sorted_perm l : sorted l ≡ₚ l.
Proof.
  induction l as [|x l IH]; simpl; [done|].
  by rewrite insert_sorted_perm, IH.
Qed.

Lemma insert_sorted_Sorted x l :
  Sorted String.le l -> Sorted String.le (insert_sorted x l).
Proof.
  induction 1 as [|y l Hl IH Hhd]; simpl.
  - repeat constructor.
  - destruct (String.leb x y) eqn:Hxy.
    + constructor; [by constructor|]. constructor.
      unfold String.le. by rewrite Hxy.
    + constructor; [exact IH|].
      assert (Hyx : String.le y x).
      { unfold String.le. destruct (String.leb_total x y) as [E|E];
          [congruence | by rewrite E]. }
      destruct Hhd as [|z l' Hyz]; simpl.
      * by constructor.
      * destruct (String.leb x z); by constructor.
Qed.

Lemma sorted_Sorted l : Sorted String.le (sorted l).
Proof.
  induction l as [|x l IH]; simpl; [constructor|].
  by apply insert_sorted_Sorted.
Qed.

(** [sorted] does not depend on the order of its input. *)
Lemma sorted_of_perm l1 l2 : l1 ≡ₚ l2 -> sorted l1 = sorted l2.
Proof.
  intros Hp. apply (Sorted_unique String.le); try apply sorted_Sorted.
  by rewrite !sorted_perm.
Qed.

End sorted_facts.

Section cache_key_facts.
Context `{Externals}.
Import ExplanationService TestGenerationRequest.

(** A string field after case-folding and whitespace-trimming; an absent
    optional field counts as the empty string. *)
Definition normalize (s : string) : string := strip (lower s).

Definition normalize_opt (o : option string) : string :=
  match o with
  | Some s => normalize s
  | None => ""
  end.

(** Two explanation requests with equal normalized fields. *)
Definition same_explanation_fields (r1 r2 : ExplanationRequest) : Prop :=
  normalize (topic r1) = normalize (topic r2)
  /\ normalize (ExplanationService.subject r1)
     = normalize (ExplanationService.subject r2)
  /\ ExplanationService.student_level r1 = ExplanationService.student_level r2
  /\ normalize_opt (context r1) = normalize_opt (context r2).

(** Two test requests with equal normalized fields, as C2 reads them. *)
Definition same_test_fields (t1 t2 : TestGenerationRequest.t) : Prop :=
  normalize (subject t1) = normalize (subject t2)
  /\ map normalize (topics t1) = map normalize (topics t2)
  /\ difficulty t1 = difficulty t2
  /\ question_count t1 = question_count t2
  /\ question_types t1 = question_types t2.

Lemma context_key_normalize o : context_key o = normalize_opt o.
Proof.
  destruct o as [c|]; simpl; [|done].
  destruct (String.eqb_spec c "") as [->|_]; done.
Qed.

Lemma explanation_key_of_same_fields r1 r2 :
  same_explanation_fields r1 r2 ->
  _generate_cache_key r1 = _generate_cache_key r2.
Proof.
  intros (Ht & Hs & Hl & Hc). unfold _generate_cache_key, key_data.
  rewrite !context_key_normalize. unfold normalize in *.
  by rewrite Ht, Hs, Hl, Hc.
Qed.

(** The validator [strip_topics] keeps the non-empty trimmed topics. *)
Lemma strip_topics_filter (l : list string) :
  map strip (filter (fun topic => strip topic ≠ "") l)
  = filter (fun t => t ≠ "") (map strip l).
Proof.
  induction l as [|x l IH]; simpl; [done|].
  rewrite !filter_cons. destruct (decide (strip x ≠ "")); simpl; by rewrite IH.
Qed.

(** What the key functions do guarantee.  Explanation keys are equal
    whenever the string fields agree after lower-casing and trimming and
    the level is equal.  Test keys are equal whenever the subjects agree
    after trimming, the trimmed topics and the question types agree up to
    order, and difficulty and question count are equal. *)
Theorem cache_keys_of_equal_fields (r1 r2 : ExplanationRequest)
    (subject1 subject2 : string) (topics1 topics2 : list string)
    (difficulty question_count : Z) (types1 types2 : option (list string))
    (level1 level2 : option Z) (t1 t2 : TestGenerationRequest.t) :
  same_explanation_fields r1 r2 ->
  init subject1 topics1 difficulty question_count types1 level1 = Return t1 ->
  init subject2 topics2 difficulty question_count types2 level2 = Return t2 ->
  strip subject1 = strip subject2 ->
  map strip topics1 ≡ₚ map strip topics2 ->
  default ["multiple_choice"] types1 ≡ₚ default ["multiple_choice"] types2 ->
  _generate_cache_key r1 = _generate_cache_key r2
  /\ TestGenerationService._get_cache_key t1
     = TestGenerationService._get_cache_key t2.
Proof.
  intros Hr Hi1 Hi2 Hs Ht Hty. split; [by apply explanation_key_of_same_fields|].
  unfold init in Hi1, Hi2.
  repeat match type of Hi1 with
         | (if ?b then _ else _) = _ => destruct b; [discriminate|]
         end.
  repeat match type of Hi2 with
         | (if ?b then _ else _) = _ => destruct b; [discriminate|]
         end.
  injection Hi1 as <-. injection Hi2 as <-.
  unfold TestGenerationService._get_cache_key; simpl.
  rewrite Hs. f_equal. f_equal. f_equal.
  rewrite !strip_topics_filter.
  rewrite (sorted_of_perm _ _ (filter_Permutation _ _ _ Ht)).
  by rewrite (sorted_of_perm _ _ Hty).
Qed.

End cache_key_facts.

(** The spec's example for explanations, and two test requests that
    differ in white space and in the order of their topics. *)
Lemma cache_keys_of_equal_fields_witness :
  ExplanationService._generate_cache_key (H := Stub.externals [])
    (ExplanationService.Request "Algebra " "math" 8 None None)
  = ExplanationService._generate_cache_key (H := Stub.externals [])
      (ExplanationService.Request "algebra" "Math" 8 (Some "") None)
  /\ TestGenerationService._get_cache_key
       (TestGenerationRequest.Make "Math" ["Algebra"; "Sets"] 5 10
          ["multiple_choice"] None)
     = TestGenerationService._get_cache_key
         (TestGenerationRequest.Make "Math" ["Sets"; "Algebra"] 5 10
            ["multiple_choice"] None).
Proof.
  apply (cache_keys_of_equal_fields (H := Stub.externals [])
           (ExplanationService.Request "Algebra " "math" 8 None None)
           (ExplanationService.Request "algebra" "Math" 8 (Some "") None)
           " Math" "Math  " ["Algebra "; "Sets"] ["Sets"; " Algebra"]
           5 10 None (Some ["multiple_choice"]) None None).
  - repeat split; reflexivity.
  - reflexivity.
  - reflexivity.
  - reflexivity.
  - apply Permutation_swap.
  - reflexivity.
Defined.

(** C2.  [_get_cache_key] does not fold case, unlike
    [_generate_cache_key] of the explanation service: the two validated
    requests below agree in every field after lower-casing and trimming,
    and their test keys differ. *)
Lemma test_keys_keep_case :
  TestGenerationRequest.init "math" ["Algebra "] 5 10 None None
    = Return (TestGenerationRequest.Make "math" ["Algebra"] 5 10
                ["multiple_choice"] None)
  /\ TestGenerationRequest.init "Math" ["algebra"] 5 10 None None
    = Return (TestGenerationRequest.Make "Math" ["algebra"] 5 10
                ["multiple_choice"] None)
  /\ same_test_fields
       (TestGenerationRequest.Make "math" ["Algebra"] 5 10
          ["multiple_choice"] None)
       (TestGenerationRequest.Make "Math" ["algebra"] 5 10
          ["multiple_choice"] None)
  /\ TestGenerationService._get_cache_key
       (TestGenerationRequest.Make "math" ["Algebra"] 5 10
          ["multiple_choice"] None)
     = "test:math:Algebra:5:10:multiple_choice"
  /\ TestGenerationService._get_cache_key
       (TestGenerationRequest.Make "Math" ["algebra"] 5 10
          ["multiple_choice"] None)
     = "test:Math:algebra:5:10:multiple_choice"
  /\ TestGenerationService._get_cache_key
       (TestGenerationRequest.Make "math" ["Algebra"] 5 10
          ["multiple_choice"] None)
     <> TestGenerationService._get_cache_key
          (TestGenerationRequest.Make "Math" ["algebra"] 5 10
             ["multiple_choice"] None).
Proof. repeat split; try reflexivity. vm_compute. discriminate. Qed.

(** ** C7: write-through caching of explanations *)

Section explanation_cache_facts.
Context `{Externals} (openai_client : OpenAIClient.t).
Import ExplanationService.

Lemma traverse_example_dump (l : list Example.t) :
  traverse Example.validate (map Example.model_dump l) = Return l.
Proof.
  induction l as [|[a b] l IH]; simpl; [done|].
  unfold mbind, result_bind in *. by rewrite IH.
Qed.

Lemma traverse_str_dump field (l : list string) :
  traverse (Explanation.validate_str field) (map JStr l) = Return l.
Proof.
  induction l as [|a l IH]; simpl; [done|].
  unfold mbind, result_bind in *. by rewrite IH.
Qed.

(** A dumped explanation that meets the field constraints is read back
    unchanged. *)
Lemma explanation_dump_roundtrip (e : Explanation.t) :
  1 <= Explanation.difficulty e <= 10 ->
  1 <= Explanation.estimated_read_time e ->
  Explanation.from_kwargs (Explanation.model_dump e) = Return e.
Proof.
  intros Hd Ht. destruct e as [c exs rel df rt]; simpl in *.
  rewrite traverse_example_dump, traverse_str_dump.
  unfold mbind, result_bind, Explanation.init.
  assert (Hb : (1 <=? df) && (df <=? 10) = true) by lia.
  assert (Hb' : (1 <=? rt) = true) by lia.
  by rewrite Hb, Hb'.
Qed.

(** [_parse_explanation] always builds an explanation: the difficulty is
    clamped to 1..10 and the read time is at least 1. *)
Lemma parse_explanation_total (content : string) (level : Z) :
  exists e,
    _parse_explanation content level = Return e
    /\ 1 <= Explanation.difficulty e <= 10
    /\ 1 <= Explanation.estimated_read_time e.
Proof.
  unfold _parse_explanation, Explanation.init.
  assert (Hb : (1 <=? Z.min 10 (Z.max 1 level))
               && (Z.min 10 (Z.max 1 level) <=? 10) = true) by lia.
  assert (Hb' : (1 <=? Z.max 1 (round_div (count_words false content) 200))
                = true) by lia.
  rewrite Hb, Hb'. simpl. eexists. split; [done|]. simpl. lia.
Qed.

(** The first attempt succeeds: one call, no sleep. *)
Lemma create_completion_first_success (self : OpenAIClient.t) messages
    temperature' max_tokens' stream (w : world) (response : completion) :
  1 <= OpenAIClient.max_retries self ->
  endpoint w (endpoint_calls w)
    (OpenAIClient.request self messages temperature' max_tokens' stream)
  = Return response ->
  OpenAIClient.create_completion self messages temperature' max_tokens' stream w
  = (Return response,
     World (redis w) (endpoint w) (S (endpoint_calls w)) (sleeps w)
       (uuid_calls w)).
Proof.
  intros Hmax He. unfold OpenAIClient.create_completion, range.
  destruct (Z.to_nat (OpenAIClient.max_retries self)) as [|k] eqn:Hk; [lia|].
  simpl. unfold_monad. by rewrite He.
Qed.

(** The messages and the endpoint request of an explanation request. *)
Definition explanation_call (request : ExplanationRequest) : completion_request :=
  OpenAIClient.request openai_client
    (format_explanation_prompt (topic request) (subject request)
       (student_level request) (context request))
    (Some (7 # 10)%Q) (Some 2000) false.

(** A hit: the cached mapping is turned back into the explanation and
    nothing else happens. *)
Lemma get_explanation_hit (self : t) (request : ExplanationRequest)
    (w : world) data ttl (e : Explanation.t) :
  cache_enabled self = true ->
  redis w = Some (Live data) ->
  data !! _generate_cache_key request
    = Some (ttl, json_dumps false (Explanation.model_dump e)) ->
  json_dumps false (Explanation.model_dump e) <> "" ->
  json_loads (json_dumps false (Explanation.model_dump e))
    = Return (Explanation.model_dump e) ->
  1 <= Explanation.difficulty e <= 10 ->
  1 <= Explanation.estimated_read_time e ->
  get_explanation openai_client self request true w = (Return e, w).
Proof.
  intros Hen Hr Hk Hne Hrt Hd Ht. unfold get_explanation.
  rewrite Hen. cbn [andb].
  unfold mbind at 1, M_bind at 1. unfold mbind at 1, M_bind at 1.
  rewrite (get_live_hit w _ data ttl _ _ Hr Hk Hne Hrt).
  cbn [truthy Explanation.model_dump].
  unfold_monad. by rewrite (explanation_dump_roundtrip e Hd Ht).
Qed.

(** A miss on a live store: one endpoint call, then the write-through. *)
Lemma get_explanation_miss (self : t) (request : ExplanationRequest)
    (w : world) data (response : completion) (content : string)
    (rest : list string) (e : Explanation.t) :
  cache_enabled self = true ->
  redis w = Some (Live data) ->
  data !! _generate_cache_key request = None ->
  1 <= OpenAIClient.max_retries openai_client ->
  endpoint w (endpoint_calls w) (explanation_call request) = Return response ->
  choices response = content :: rest ->
  _parse_explanation content (student_level request) = Return e ->
  get_explanation openai_client self request true w
  = (Return e,
     World (Some (Live (<[_generate_cache_key request
                          := (RedisClient.cache_ttl,
                              json_dumps false (Explanation.model_dump e))]> data)))
       (endpoint w) (S (endpoint_calls w)) (sleeps w) (uuid_calls w)).
Proof.
  intros Hen Hr Hk Hmax He Hc Hp. unfold get_explanation.
  rewrite Hen. cbn [andb].
  unfold mbind at 1, M_bind at 1. unfold mbind at 1, M_bind at 1.
  rewrite (get_live_miss w _ data Hr Hk).
  unfold mret at 1, M_ret at 1.
  unfold mbind at 1, M_bind at 1.
  rewrite (create_completion_first_success _ _ _ _ _ w response Hmax He).
  unfold mbind at 1, M_bind at 1. unfold lift at 1, first_choice. rewrite Hc.
  unfold mbind at 1, M_bind at 1. unfold lift at 1. rewrite Hp.
  unfold mbind at 1, M_bind at 1. unfold mbind at 1, M_bind at 1.
  erewrite set_live by (first [exact Hr | reflexivity]).
  by simpl.
Qed.

(** C7.  With caching on, a live and initially empty store, and an
    endpoint that answers its first call with at least one choice, asking
    twice for requests with equal normalized fields returns the same
    explanation both times; the second call leaves the world untouched,
    so the endpoint is called exactly once over the two calls.  The
    encoding of the dumped explanation is assumed non-empty and decodable
    by [json.loads]. *)
Theorem second_explanation_served_from_cache (self : t)
    (request1 request2 : ExplanationRequest) (w : world)
    (response : completion) (content : string) (rest : list string) :
  cache_enabled self = true ->
  redis w = Some (Live ∅) ->
  same_explanation_fields request1 request2 ->
  1 <= OpenAIClient.max_retries openai_client ->
  endpoint w (endpoint_calls w) (explanation_call request1) = Return response ->
  choices response = content :: rest ->
  (forall e, _parse_explanation content (student_level request1) = Return e ->
     json_dumps false (Explanation.model_dump e) <> ""
     /\ json_loads (json_dumps false (Explanation.model_dump e))
        = Return (Explanation.model_dump e)) ->
  exists e w1,
    get_explanation openai_client self request1 true w = (Return e, w1)
    /\ get_explanation openai_client self request2 true w1 = (Return e, w1)
    /\ endpoint_calls w1 = S (endpoint_calls w).
Proof.
  intros Hen Hr Hsame Hmax He Hc Hcodec.
  destruct (parse_explanation_total content (student_level request1))
    as (e & Hp & Hd & Ht).
  destruct (Hcodec e Hp) as [Hne Hrt].
  eexists e, _. split; [|split].
  - by apply (get_explanation_miss self request1 w ∅ response content rest e).
  - eapply get_explanation_hit; try done.
    rewrite <- (explanation_key_of_same_fields _ _ Hsame).
    apply lookup_insert_eq.
  - done.
Qed.

End explanation_cache_facts.

(** The explanation the stub endpoint below leads to. *)
Definition algebra_text : string :=
  "Algebra is about symbols. For example, x + 1.".

Definition algebra_explanation : Explanation.t :=
  Explanation.Make algebra_text [ExplanationService.placeholder] [] 8 1.

Definition algebra_world : world :=
  World (Some (Live ∅)) (fun _ _ => Return (Completion [algebra_text])) 0 [] 0.

(** The spec's two requests against an empty live cache: the second is
    answered from the cache. *)
Lemma second_explanation_served_from_cache_witness :
  exists e w1,
    ExplanationService.get_explanation
      (H := Stub.externals [Explanation.model_dump algebra_explanation])
      OpenAIClient.from_settings ExplanationService.new
      (ExplanationService.Request "Algebra " "math" 8 None None) true
      algebra_world = (Return e, w1)
    /\ ExplanationService.get_explanation
         (H := Stub.externals [Explanation.model_dump algebra_explanation])
         OpenAIClient.from_settings ExplanationService.new
         (ExplanationService.Request "algebra" "Math" 8 (Some "") None) true
         w1 = (Return e, w1)
    /\ endpoint_calls w1 = S (endpoint_calls algebra_world).
Proof.
  apply (second_explanation_served_from_cache
           (H := Stub.externals [Explanation.model_dump algebra_explanation])
           OpenAIClient.from_settings ExplanationService.new
           (ExplanationService.Request "Algebra " "math" 8 None None)
           (ExplanationService.Request "algebra" "Math" 8 (Some "") None)
           algebra_world (Completion [algebra_text]) algebra_text []).
  - reflexivity.
  - reflexivity.
  - repeat split; reflexivity.
  - simpl. lia.
  - reflexivity.
  - reflexivity.
  - intros e He. vm_compute in He. injection He as <-.
    split; [vm_compute; discriminate | vm_compute; reflexivity].
Defined.

(** ** C9: invalidation of one student's learning plans *)

Section glob_facts.
Import Glob.

(** Every character of [s] satisfies [P]. *)
Fixpoint all_chars (P : ascii -> bool) (s : string) : bool :=
  match s with
  | EmptyString => true
  | String c s' => P c && all_chars P s'
  end.

(** A character that stands for itself in a pattern. *)
Definition plain (c : ascii) : bool :=
  negb (Ascii.eqb c "*") && negb (Ascii.eqb c "?")
  && negb (Ascii.eqb c "\") && negb (Ascii.eqb c "[").

Definition not_colon (c : ascii) : bool := negb (Ascii.eqb c ":").

(** The items of a pattern made of plain characters. *)
Fixpoint lits (s : string) : list item :=
  match s with
  | EmptyString => []
  | String c s' => Lit c :: lits s'
  end.

Lemma append_cons x (a b : string) : String x a +:+ b = String x (a +:+ b).
Proof. reflexivity. Qed.

Lemma append_assoc (a b c : string) : (a +:+ b) +:+ c = a +:+ b +:+ c.
Proof.
  induction a as [|x a IH]; [done|]. by rewrite !append_cons, IH.
Qed.

Lemma all_chars_app P s1 s2 :
  all_chars P (s1 +:+ s2) = all_chars P s1 && all_chars P s2.
Proof.
  induction s1 as [|c s1 IH]; [done|].
  rewrite append_cons. simpl. by rewrite IH, andb_assoc.
Qed.

Lemma parse_plain_app s rest :
  all_chars plain s = true -> parse (s +:+ rest) = lits s ++ parse rest.
Proof.
  induction s as [|c s IH]; [done|].
  cbn [all_chars]. intros [Hc Hs]%andb_true_iff.
  change (String c s +:+ rest) with (String c (s +:+ rest)).
  cbn [parse lits]. unfold plain in Hc.
  destruct (Ascii.eqb c "*"); [done|]. destruct (Ascii.eqb c "?"); [done|].
  destruct (Ascii.eqb c "\"); [done|]. destruct (Ascii.eqb c "["); [done|].
  simpl. by rewrite IH.
Qed.

(** A match of literal items consumes exactly their text. *)
Lemma matches_lits s its : forall k,
  matches (lits s ++ its) k = true ->
  exists k', k = s +:+ k' /\ matches its k' = true.
Proof.
  induction s as [|c s IH]; intros k Hm.
  - by exists k.
  - cbn [lits app matches] in Hm. destruct k as [|x k]; [done|].
    apply andb_true_iff in Hm as [Hx Hm]. apply Ascii.eqb_eq in Hx as ->.
    destruct (IH k Hm) as (k' & -> & Hk'). by exists k'.
Qed.

(** A key matched by [p*], for a pattern text [p] of plain characters,
    starts with [p]. *)
Lemma glob_prefix_star p k :
  all_chars plain p = true ->
  glob_match (p +:+ "*") k = true -> exists k', k = p +:+ k'.
Proof.
  intros Hp Hm. unfold glob_match in Hm. rewrite (parse_plain_app _ _ Hp) in Hm.
  destruct (matches_lits _ _ _ Hm) as (k' & -> & _). by exists k'.
Qed.

Lemma startswith_app k p :
  startswith k p = true -> exists rest, k = p +:+ rest.
Proof.
  revert k. induction p as [|a p IH]; intros k Hs.
  - by exists k.
  - destruct k as [|b k]; [done|]. simpl in Hs.
    destruct (Ascii.eqb_spec a b) as [->|]; [|done].
    destruct (IH k Hs) as [rest ->]. by exists rest.
Qed.

Lemma startswith_of_app p rest : startswith (p +:+ rest) p = true.
Proof.
  induction p as [|a p IH]; [by destruct rest|].
  rewrite append_cons. cbn [startswith]. by rewrite Ascii.eqb_refl.
Qed.

Lemma startswith_app_same x s p :
  startswith (x +:+ s) (x +:+ p) = startswith s p.
Proof.
  induction x as [|a x IH]; [done|].
  rewrite !append_cons. cbn [startswith]. by rewrite Ascii.eqb_refl.
Qed.

(** Reading one character back from its UTF-8 bytes. *)
Definition decode_char (bytes : string) : option (ascii * string) :=
  match bytes with
  | EmptyString => None
  | String x rest =>
      if (nat_of_ascii x <? 128)%nat then Some (x, rest)
      else
        match rest with
        | EmptyString => None
        | String y rest' =>
            Some (ascii_of_nat ((nat_of_ascii x - 192) * 64
                                + (nat_of_ascii y - 128)), rest')
        end
  end.

Lemma decode_encode_char c s : decode_char (encode_char c +:+ s) = Some (c, s).
Proof. by destruct c as [[] [] [] [] [] [] [] []]. Qed.

Lemma encode_char_inj a b s t :
  encode_char a +:+ s = encode_char b +:+ t -> a = b /\ s = t.
Proof.
  intros E. apply (f_equal decode_char) in E.
  rewrite !decode_encode_char in E. by injection E as -> ->.
Qed.

Lemma encode_char_cons c : exists x r, encode_char c = String x r.
Proof. unfold encode_char. destruct (_ <? _)%nat; by eexists _, _. Qed.

Lemma encode_app a b : encode (a +:+ b) = encode a +:+ encode b.
Proof.
  induction a as [|c a IH]; [done|].
  rewrite append_cons. cbn [encode]. by rewrite IH, append_assoc.
Qed.

Lemma encode_plain p :
  all_chars plain p = true -> all_chars plain (encode p) = true.
Proof.
  induction p as [|c p IH]; [done|].
  cbn [all_chars encode]. intros [Hc Hp]%andb_true_iff.
  rewrite all_chars_app, (IH Hp), andb_true_r. clear -Hc.
  by destruct c as [[] [] [] [] [] [] [] []].
Qed.

(** A prefix of the bytes is a prefix of the characters. *)
Lemma startswith_encode p : forall k,
  startswith (encode k) (encode p) = startswith k p.
Proof.
  induction p as [|a p IH]; intros k.
  { change (encode "") with "". by destruct k, (encode _). }
  destruct k as [|b k].
  - cbn [encode]. destruct (encode_char_cons a) as (x & r & ->).
    reflexivity.
  - cbn [encode]. change (startswith (String b k) (String a p))
      with (if Ascii.eqb a b then startswith k p else false).
    destruct (Ascii.eqb_spec a b) as [->|Hne].
    + by rewrite startswith_app_same.
    + destruct (startswith _ _) eqn:Hs; [|done].
      apply startswith_app in Hs as [rest E]. rewrite append_assoc in E.
      apply encode_char_inj in E as [-> _]. done.
Qed.

(** A key found under [p*], for a pattern text [p] of plain characters,
    starts with [p]. *)
Lemma key_prefix_star p k :
  all_chars plain p = true ->
  key_match (p +:+ "*") k = true -> exists k', k = p +:+ k'.
Proof.
  intros Hp Hm. unfold key_match in Hm. rewrite encode_app in Hm.
  apply (glob_prefix_star (encode p) (encode k) (encode_plain p Hp))
    in Hm as [rest E].
  apply startswith_app. rewrite <- startswith_encode, E.
  apply startswith_of_app.
Qed.

(** Two identifiers without a colon that are each followed by a colon in
    the same text are equal. *)
Lemma colon_delimited_inj a : forall b k1 k2,
  all_chars not_colon a = true -> all_chars not_colon b = true ->
  a +:+ ":" +:+ k1 = b +:+ ":" +:+ k2 -> a = b.
Proof.
  induction a as [|x a IH]; intros [|y b] k1 k2 Ha Hb E; simpl in *.
  - done.
  - injection E as <- _. by apply andb_true_iff in Hb as [? _].
  - injection E as -> _. by apply andb_true_iff in Ha as [? _].
  - injection E as -> E.
    apply andb_true_iff in Ha as [_ Ha]. apply andb_true_iff in Hb as [_ Hb].
    f_equal. by eapply IH.
Qed.

End glob_facts.

Section invalidation_facts.
Import CacheInvalidationService.

(** The entry the store holds under [k]; nothing without a live store. *)
Definition cached (w : world) (k : string) : option (Z * string) :=
  match redis w with
  | Some (Live data) => data !! k
  | _ => None
  end.

Lemma lookup_foldr_delete_other (data : gmap string (Z * string)) keys k :
  k ∉ keys -> foldr delete data keys !! k = data !! k.
Proof.
  induction keys as [|k' keys IH]; simpl; intros Hk; [done|].
  apply not_elem_of_cons in Hk as [Hne Hk].
  rewrite lookup_delete_ne by done. by apply IH.
Qed.

(** Invalidation by pattern leaves every key the pattern does not match. *)
Lemma invalidate_pattern_frame pattern (w : world) k :
  key_match pattern k = false ->
  cached (invalidate_pattern pattern w).2 k = cached w k.
Proof.
  intros Hk. unfold invalidate_pattern, cached. unfold_monad. simpl.
  destruct (redis w) as [[data|e]|] eqn:Hr; simpl; unfold_monad; simpl;
    rewrite ?Hr; try done.
  destruct (filter _ _) as [|k0 keys] eqn:Hf; simpl; [by rewrite Hr|].
  unfold redis_DEL. unfold_monad. simpl.
  change (delete k0 (foldr delete data keys))
    with (foldr delete data (k0 :: keys)).
  apply lookup_foldr_delete_other. rewrite <- Hf.
  intros [Hm _]%list_elem_of_filter. congruence.
Qed.

(** What the scoping of the pattern does achieve: for two distinct
    student identifiers that contain no colon, the first of which contains
    none of the pattern characters [*], [?], [[] and backslash,
    invalidating the learning plans of the first leaves every key under
    the prefix of the second as it was. *)
Lemma invalidation_keeps_plain_identifiers (A B : string) (w : world)
    (k : string) :
  A <> B ->
  all_chars plain A = true ->
  all_chars not_colon A = true ->
  all_chars not_colon B = true ->
  startswith k ("learning_plan:" +:+ B +:+ ":") = true ->
  cached (invalidate_learning_plans A w).2 k = cached w k.
Proof.
  intros Hne Hplain HA HB Hk. apply invalidate_pattern_frame.
  destruct (key_match _ k) eqn:Hm; [exfalso|done].
  change ("learning_plan:" +:+ A +:+ ":*")
    with ("learning_plan:" +:+ A +:+ ":" +:+ "*") in Hm.
  rewrite <- (append_assoc A), <- (append_assoc "learning_plan:") in Hm.
  apply key_prefix_star in Hm as [k1 E1].
  - apply startswith_app in Hk as [k2 E2]. rewrite E1 in E2.
    rewrite !append_assoc in E2.
    apply (inj (String.app "learning_plan:")) in E2.
    apply Hne. by eapply colon_delimited_inj.
  - rewrite !all_chars_app, Hplain. reflexivity.
Qed.

End invalidation_facts.

(** A store that holds one plan of student "bob" and one of "7:x". *)
Definition plans_world : world :=
  World
    (Some (Live (<[LearningPlanService._generate_cache_key "bob" ["math"] None 7
                   := (86400, "{}")]>
                 (<[LearningPlanService._generate_cache_key "7:x" ["math"] None 7
                    := (86400, "{}")]> ∅))))
    (fun _ _ => Raise RateLimitError) 0 [] 0.

Example invalidation_keeps_bob :
  cached
    (CacheInvalidationService.invalidate_learning_plans "alice" plans_world).2
    "learning_plan:bob:math:general:7"
  = cached plans_world "learning_plan:bob:math:general:7".
Proof.
  apply (invalidation_keeps_plain_identifiers "alice" "bob" plans_world
           "learning_plan:bob:math:general:7").
  - discriminate.
  - reflexivity.
  - reflexivity.
  - reflexivity.
  - reflexivity.
Qed.

(** C9.  Invalidating the plans of one student must leave the keys of
    every other student in place; here it does not: the identifier goes
    into the pattern unescaped, so invalidating student "*" deletes the
    plan of student "bob", and invalidating student "7" deletes the plan
    of student "7:x". *)
Theorem invalidation_reaches_other_students :
  ("*" <> "bob"
   /\ startswith (LearningPlanService._generate_cache_key "bob" ["math"] None 7)
        "learning_plan:bob:" = true
   /\ cached plans_world
        (LearningPlanService._generate_cache_key "bob" ["math"] None 7)
      = Some (86400, "{}")
   /\ cached
        (CacheInvalidationService.invalidate_learning_plans "*" plans_world).2
        (LearningPlanService._generate_cache_key "bob" ["math"] None 7)
      = None)
  /\ ("7" <> "7:x"
      /\ startswith
           (LearningPlanService._generate_cache_key "7:x" ["math"] None 7)
           "learning_plan:7:x:" = true
      /\ cached plans_world
           (LearningPlanService._generate_cache_key "7:x" ["math"] None 7)
         = Some (86400, "{}")
      /\ cached
           (CacheInvalidationService.invalidate_learning_plans "7" plans_world).2
           (LearningPlanService._generate_cache_key "7:x" ["math"] None 7)
         = None).
Proof. repeat split; try discriminate; vm_compute; reflexivity. Qed.

(** ** C10: test generation on a cache miss *)

Section test_generation_facts.
Context `{Externals} (openai_client : OpenAIClient.t).
Import TestGenerationService.

(** The error of looking up [chat_completion] on the client. *)
Definition no_chat_completion : exn :=
  AttributeError "OpenAIClient" "chat_completion".

(** The error of passing [ex] to [RedisClient.set]. *)
Definition unexpected_ex : exn :=
  TypeError "set() got an unexpected keyword argument ex".

Lemma chat_completion_undefined messages temperature' max_tokens' (w : world) :
  OpenAIClient.call openai_client "chat_completion" messages temperature'
    max_tokens' w
  = (Raise no_chat_completion, w).
Proof. reflexivity. Qed.

Lemma generate_questions_by_type_raises question_type count subject topics
    difficulty student_level (w : world) :
  _generate_questions_by_type openai_client question_type count subject topics
    difficulty student_level w
  = (Raise no_chat_completion, w).
Proof.
  unfold _generate_questions_by_type.
  unfold mbind at 1, M_bind at 1, try_ at 1.
  unfold mbind at 1, M_bind at 1.
  by rewrite chat_completion_undefined.
Qed.

(** Some type was given a positive number of questions. *)
Definition some_positive (items : list (string * Z)) : bool :=
  existsb (fun it => 0 <? it.2) items.

Lemma generate_each_outcome request items : forall questions (w : world),
  generate_each openai_client request items questions w
  = if some_positive items then (Raise no_chat_completion, w)
    else (Return questions, w).
Proof.
  induction items as [|[question_type count] items IH]; intros questions w.
  - reflexivity.
  - cbn [generate_each some_positive existsb snd].
    destruct (0 <? count); cbn [orb].
    + unfold mbind, M_bind.
      by rewrite generate_questions_by_type_raises.
    + apply IH.
Qed.

(** The write-through step raises whatever it is given. *)
Lemma write_through_raises self cache_key test (w : world) :
  write_through self cache_key test w = (Raise unexpected_ex, w).
Proof. reflexivity. Qed.

(** On distinct, non-empty types and a positive total the first type is
    given at least one question. *)
Lemma distribution_some_positive total (types : list string) :
  1 <= total -> types <> [] -> NoDup types ->
  exists d,
    Distribution._distribute_questions total types = Return d
    /\ some_positive d = true.
Proof.
  intros Htot Hne Hnd. eexists. split; [by apply distribute_shares|].
  destruct types as [|t0 types]; [done|].
  unfold enumerate. cbn [length seq zip zip_with shares map some_positive existsb].
  apply orb_true_iff. left. simpl fst. simpl snd. unfold share.
  set (n := Z.of_nat (S (length types))).
  assert (Hn : 0 < n) by (unfold n; lia).
  pose proof (Z.mod_pos_bound total n Hn) as Hr.
  pose proof (Z.div_mod total n ltac:(lia)) as Hdm.
  assert (Hb : 0 <= total `div` n) by (apply Z.div_pos; lia).
  destruct (Z.ltb_spec (Z.of_nat 0) (total `mod` n)); apply Z.ltb_lt; [lia|].
  simpl in *. nia.
Qed.

(** C10.  On a cache miss [generate_test] raises and leaves the world
    untouched, so no endpoint call is made: the lookup of
    [chat_completion] raises AttributeError as soon as a question type has
    a positive count, which is the case for every request with a positive
    question count and distinct, non-empty types; an empty type list
    raises ZeroDivisionError before that, and when no count is positive
    the write-through raises TypeError.  Independently, the write-through
    step raises that TypeError on every input. *)
Theorem generate_test_raises_on_miss (self : t)
    (request : TestGenerationRequest.t) (w : world) (cached : option json) :
  RedisClient.get (_get_cache_key request) w = (Return cached, w) ->
  truthy_opt cached = false ->
  (exists e,
     generate_test openai_client self request w = (Raise e, w)
     /\ (e = ZeroDivisionError \/ e = no_chat_completion \/ e = unexpected_ex)
     /\ (1 <= TestGenerationRequest.question_count request ->
         TestGenerationRequest.question_types request <> [] ->
         NoDup (TestGenerationRequest.question_types request) ->
         e = no_chat_completion))
  /\ (forall cache_key test w',
        write_through self cache_key test w' = (Raise unexpected_ex, w')).
Proof.
  intros Hget Hmiss. split; [|intros; apply write_through_raises].
  unfold generate_test. unfold mbind at 1, M_bind at 1.
  rewrite Hget, Hmiss. unfold _generate_questions.
  unfold mbind at 1, M_bind at 1. unfold mbind at 1, M_bind at 1.
  unfold lift at 1.
  destruct (Distribution._distribute_questions _ _) as [d|e0] eqn:Hd.
  - rewrite generate_each_outcome.
    destruct (some_positive d) eqn:Hpos.
    + exists no_chat_completion. repeat split; auto.
    + exists unexpected_ex. split; [|split; [auto|]].
      * unfold mbind, M_bind. by rewrite write_through_raises.
      * intros Htot Hne Hnd.
        destruct (distribution_some_positive _ _ Htot Hne Hnd) as (d' & Hd' & Hp').
        congruence.
  - exists e0.
    assert (He0 : e0 = ZeroDivisionError).
    { unfold Distribution._distribute_questions in Hd.
      destruct (_ =? 0); congruence. }
    subst e0. split; [done|]. split; [auto|].
    intros Htot Hne Hnd.
    destruct (distribution_some_positive _ _ Htot Hne Hnd) as (d' & Hd' & _).
    congruence.
Qed.

End test_generation_facts.

(** One question over a repeated type: the second position overwrites
    the count with 0, no question is generated, and the write-through is
    what raises. *)
Example generate_test_repeated_type :
  TestGenerationService.generate_test (H := Stub.externals [])
    OpenAIClient.from_settings TestGenerationService.new
    (TestGenerationRequest.Make "Mathematics" ["Sets"] 5 1
       ["multiple_choice"; "multiple_choice"] None)
    (always_raising RateLimitError)
  = (Raise unexpected_ex, always_raising RateLimitError).
Proof. reflexivity. Qed.

(** The example request of the model, with no cache connection. *)
Lemma generate_test_raises_on_miss_witness :
  (exists e,
     TestGenerationService.generate_test (H := Stub.externals [])
       OpenAIClient.from_settings TestGenerationService.new
       (TestGenerationRequest.Make "Mathematics"
          ["Pythagorean theorem"; "Right triangles"] 5 10
          ["multiple_choice"; "true_false"] (Some 8))
       (always_raising RateLimitError)
     = (Raise e, always_raising RateLimitError)
     /\ (e = ZeroDivisionError \/ e = no_chat_completion \/ e = unexpected_ex)
     /\ (1 <= 10 ->
         ["multiple_choice"; "true_false"] <> [] ->
         NoDup ["multiple_choice"; "true_false"] ->
         e = no_chat_completion))
  /\ (forall cache_key test w',
        TestGenerationService.write_through (H := Stub.externals [])
          TestGenerationService.new cache_key test w'
        = (Raise unexpected_ex, w')).
Proof.
  apply (generate_test_raises_on_miss (H := Stub.externals [])
           OpenAIClient.from_settings TestGenerationService.new
           (TestGenerationRequest.Make "Mathematics"
              ["Pythagorean theorem"; "Right triangles"] 5 10
              ["multiple_choice"; "true_false"] (Some 8))
           (always_raising RateLimitError) None).
  - reflexivity.
  - reflexivity.
Defined.

(** * Further properties of the modelled code *)

(** ** More on the retry loop of [create_completion] *)

Section retry_more_facts.
Import OpenAIClient.

(** One attempt, whatever the endpoint does: a response is returned, a
    retryable failure with attempts left sleeps and moves on, every other
    failure is raised. *)
Lemma attempt_step self req attempt rest (w : world) :
  attempt_loop self req (attempt :: rest) w
  = match endpoint w (endpoint_calls w) req with
    | Return response => (Return response, after w 1 [])
    | Raise e =>
        if retryable e && (Z.of_nat attempt <? max_retries self - 1)
        then attempt_loop self req rest (after w 1 [wait_time self attempt])
        else (Raise e, after w 1 [])
    end.
Proof.
  simpl. unfold_monad. unfold after. rewrite Nat.add_1_r, app_nil_r.
  destruct (endpoint w (endpoint_calls w) req) as [response|e]; [done|].
  unfold retryable.
  destruct (Z.of_nat attempt <? max_retries self - 1) eqn:Hlt;
    destruct e; simpl; try done.
  - by destruct (500 <=? _).
  - by rewrite andb_false_r.
Qed.

(** [k] retryable failures in a row, none on the last attempt, are
    retried, with the sleeps between them. *)
Lemma attempt_loop_retries self req : forall k (err : nat -> exn) a m w,
  Z.of_nat (a + k) < max_retries self ->
  (forall j, (j < k)%nat ->
     endpoint w (endpoint_calls w + j) req = Raise (err j)
     /\ retryable (err j) = true) ->
  attempt_loop self req (seq a (k + m)) w
  = attempt_loop self req (seq (a + k) m)
      (after w k (map (wait_time self) (seq a k))).
Proof.
  induction k as [|k IH]; intros err a m w Hlt Hfail.
  - simpl. rewrite Nat.add_0_r. f_equal. destruct w; unfold after; simpl.
    by rewrite Nat.add_0_r, app_nil_r.
  - destruct (Hfail 0%nat ltac:(lia)) as [He Hr]. rewrite Nat.add_0_r in He.
    change (seq a (S k + m)) with (a :: seq (S a) (k + m)).
    rewrite attempt_step, He, Hr.
    assert (Hb : (Z.of_nat a <? max_retries self - 1) = true)
      by (apply Z.ltb_lt; lia).
    rewrite Hb. cbn [andb].
    rewrite (IH (fun j => err (S j)) (S a) m); [| lia |].
    + replace (S a + k)%nat with (a + S k)%nat by lia. f_equal.
      unfold after; simpl. f_equal; [lia|]. by rewrite <- app_assoc.
    + intros j Hj. simpl.
      replace (endpoint_calls w + 1 + j)%nat
        with (endpoint_calls w + S j)%nat by lia.
      apply Hfail. lia.
Qed.

(** X1.  When the first [k] attempts fail with retryable errors and
    attempt [k] (with [k < max_retries]) gets a response,
    [create_completion] returns that response after [k + 1] calls and the
    sleeps [retry_delay * 2^j] for [j < k]. *)
Theorem create_completion_recovers (self : t) messages temperature' max_tokens'
    stream (w : world) (k : nat) (err : nat -> exn) (response : completion) :
  Z.of_nat k < max_retries self ->
  (forall j, (j < k)%nat ->
     endpoint w (endpoint_calls w + j)
       (request self messages temperature' max_tokens' stream) = Raise (err j)
     /\ retryable (err j) = true) ->
  endpoint w (endpoint_calls w + k)
    (request self messages temperature' max_tokens' stream) = Return response ->
  create_completion self messages temperature' max_tokens' stream w
  = (Return response,
     World (redis w) (endpoint w) (endpoint_calls w + S k)
       (sleeps w
        ++ map (fun j => Qmult (retry_delay self) (inject_Z (2 ^ Z.of_nat j)))
             (seq 0 k))
       (uuid_calls w)).
Proof.
  intros Hk Hfail Hok. unfold create_completion, range.
  replace (Z.to_nat (max_retries self))
    with (k + S (Z.to_nat (max_retries self) - S k))%nat by lia.
  rewrite (attempt_loop_retries self _ k err 0%nat); [|simpl; lia|done].
  cbn [seq]. rewrite attempt_step. simpl endpoint_calls. simpl endpoint.
  rewrite Hok. unfold after; simpl. f_equal. f_equal; [lia|].
  by rewrite app_nil_r.
Qed.

Lemma create_completion_recovers_witness :
  create_completion from_settings [] None None false
    (World None
       (fun j _ => match j with
                   | O => Raise RateLimitError
                   | S O => Raise (APIError 503)
                   | _ => Return (Completion ["ok"])
                   end) 0 [] 0)
  = (Return (Completion ["ok"]),
     World None
       (fun j _ => match j with
                   | O => Raise RateLimitError
                   | S O => Raise (APIError 503)
                   | _ => Return (Completion ["ok"])
                   end) 3 [1%Q; 2%Q] 0).
Proof.
  apply (create_completion_recovers from_settings [] None None false
           (World None
              (fun j _ => match j with
                          | O => Raise RateLimitError
                          | S O => Raise (APIError 503)
                          | _ => Return (Completion ["ok"])
                          end) 0 [] 0)
           2 (fun j => match j with O => RateLimitError | _ => APIError 503 end)
           (Completion ["ok"])).
  - simpl. lia.
  - intros j Hj. destruct j as [|[|j]]; [split; reflexivity .. | exfalso; lia].
  - reflexivity.
Defined.

(** X2.  A failure that is not retryable (a client-side API error, another
    OpenAI error, or any other exception) ends the invocation at the
    attempt where it occurs, after however many retried failures: it is
    raised as it is, with no sleep after it. *)
Theorem create_completion_stops_on_other_failure (self : t) messages
    temperature' max_tokens' stream (w : world) (k : nat) (err : nat -> exn)
    (e : exn) :
  Z.of_nat k < max_retries self ->
  (forall j, (j < k)%nat ->
     endpoint w (endpoint_calls w + j)
       (request self messages temperature' max_tokens' stream) = Raise (err j)
     /\ retryable (err j) = true) ->
  endpoint w (endpoint_calls w + k)
    (request self messages temperature' max_tokens' stream) = Raise e ->
  retryable e = false ->
  create_completion self messages temperature' max_tokens' stream w
  = (Raise e,
     World (redis w) (endpoint w) (endpoint_calls w + S k)
       (sleeps w
        ++ map (fun j => Qmult (retry_delay self) (inject_Z (2 ^ Z.of_nat j)))
             (seq 0 k))
       (uuid_calls w)).
Proof.
  intros Hk Hfail He Hnr. unfold create_completion, range.
  replace (Z.to_nat (max_retries self))
    with (k + S (Z.to_nat (max_retries self) - S k))%nat by lia.
  rewrite (attempt_loop_retries self _ k err 0%nat); [|simpl; lia|done].
  cbn [seq]. rewrite attempt_step. simpl endpoint_calls. simpl endpoint.
  rewrite He, Hnr. unfold after; simpl. f_equal. f_equal; [lia|].
  by rewrite app_nil_r.
Qed.

Lemma create_completion_stops_on_other_failure_witness :
  create_completion from_settings [] None None false
    (World None
       (fun j _ => match j with
                   | O => Raise APIConnectionError
                   | _ => Raise (OtherException "boom")
                   end) 0 [] 0)
  = (Raise (OtherException "boom"),
     World None
       (fun j _ => match j with
                   | O => Raise APIConnectionError
                   | _ => Raise (OtherException "boom")
                   end) 2 [1%Q] 0).
Proof.
  apply (create_completion_stops_on_other_failure from_settings [] None None
           false
           (World None
              (fun j _ => match j with
                          | O => Raise APIConnectionError
                          | _ => Raise (OtherException "boom")
                          end) 0 [] 0)
           1 (fun _ => APIConnectionError) (OtherException "boom")).
  - simpl. lia.
  - intros j Hj. destruct j; [split; reflexivity | exfalso; lia].
  - reflexivity.
  - reflexivity.
Defined.

(** Whatever the endpoint does, [m >= 1] attempts left make between 1 and
    [m] calls and sleep once between consecutive calls. *)
Lemma attempt_loop_bounded self req : forall m a (w : world),
  Z.of_nat (a + S m) = max_retries self ->
  exists c, (c <= m)%nat
    /\ (attempt_loop self req (seq a (S m)) w).2
       = after w (S c) (map (wait_time self) (seq a c)).
Proof.
  induction m as [|m IH]; intros a w Hmax.
  - exists 0%nat. split; [lia|]. cbn [seq]. rewrite attempt_step.
    assert (Hb : (Z.of_nat a <? max_retries self - 1) = false)
      by (apply Z.ltb_ge; lia).
    rewrite Hb. destruct (endpoint _ _ _) as [response|e]; [done|].
    by rewrite andb_false_r.
  - change (seq a (S (S m))) with (a :: seq (S a) (S m)).
    rewrite attempt_step.
    destruct (endpoint w (endpoint_calls w) req) as [response|e].
    { exists 0%nat. split; [lia|done]. }
    destruct (retryable e && _).
    + destruct (IH (S a) (after w 1 [wait_time self a]) ltac:(lia))
        as (c & Hc & ->).
      exists (S c). split; [lia|]. unfold after; simpl.
      f_equal; [lia|]. by rewrite <- app_assoc.
    + exists 0%nat. split; [lia|done].
Qed.

(** X3.  With at least one attempt configured, every invocation makes at
    least one and at most [max_retries] endpoint calls, sleeps exactly
    once between consecutive calls (with delays [retry_delay * 2^j]), and
    changes nothing else in the world. *)
Theorem create_completion_bounded (self : t) messages temperature' max_tokens'
    stream (w : world) :
  1 <= max_retries self ->
  exists calls : nat,
    (1 <= calls)%nat /\ Z.of_nat calls <= max_retries self
    /\ (create_completion self messages temperature' max_tokens' stream w).2
       = World (redis w) (endpoint w) (endpoint_calls w + calls)
           (sleeps w
            ++ map (fun j => Qmult (retry_delay self)
                               (inject_Z (2 ^ Z.of_nat j)))
                 (seq 0 (calls - 1)))
           (uuid_calls w).
Proof.
  intros Hmax. unfold create_completion, range.
  destruct (Z.to_nat (max_retries self)) as [|m] eqn:Hm; [lia|].
  destruct (attempt_loop_bounded self
              (request self messages temperature' max_tokens' stream)
              m 0%nat w ltac:(lia)) as (c & Hc & ->).
  exists (S c). split; [lia|]. split; [lia|].
  unfold after. simpl. by rewrite Nat.sub_0_r.
Qed.

Lemma create_completion_bounded_witness :
  exists calls : nat,
    (1 <= calls)%nat /\ Z.of_nat calls <= 3
    /\ (create_completion from_settings [] None None false
          (always_raising RateLimitError)).2
       = World None (fun _ _ => Raise RateLimitError) (0 + calls)
           ([] ++ map (fun j => Qmult 1 (inject_Z (2 ^ Z.of_nat j)))
                    (seq 0 (calls - 1)))
           0.
Proof.
  apply (create_completion_bounded from_settings [] None None false
           (always_raising RateLimitError)).
  simpl. lia.
Defined.

(** With no attempt configured ([max_retries <= 0]) the endpoint is
    never called and the generic error after the loop is raised. *)
Theorem create_completion_without_attempts (self : t) messages temperature'
    max_tokens' stream (w : world) :
  max_retries self <= 0 ->
  create_completion self messages temperature' max_tokens' stream w
  = (Raise (OpenAIError "Failed to create completion after all retries"), w).
Proof.
  intros Hle. unfold create_completion, range.
  by replace (Z.to_nat (max_retries self)) with 0%nat by lia.
Qed.

Lemma create_completion_without_attempts_witness :
  create_completion (Client "gpt-4" (7 # 10) 2000 0 1) [] None None false
    (always_raising RateLimitError)
  = (Raise (OpenAIError "Failed to create completion after all retries"),
     always_raising RateLimitError).
Proof.
  apply (create_completion_without_attempts (Client "gpt-4" (7 # 10) 2000 0 1)
           [] None None false (always_raising RateLimitError)).
  simpl. lia.
Defined.

End retry_more_facts.

(** ** More on the cache wrapper *)

(** A world with a live store holding [data] and an endpoint that is
    never reached. *)
Definition live_world (data : gmap string (Z * string)) : world :=
  World (Some (Live data)) (fun _ _ => Raise RateLimitError) 0 [] 0.

(** [invalidate_test_templates] lower-cases the subject it looks for, so
    it does not find the test key of a request whose subject has a capital
    letter: nothing is deleted and the entry stays. *)
Lemma test_invalidation_misses_cased_subject :
  TestGenerationService._get_cache_key
    (TestGenerationRequest.Make "Math" ["algebra"] 5 10
       ["multiple_choice"] None)
  = "test:Math:algebra:5:10:multiple_choice"
  /\ CacheInvalidationService.invalidate_test_templates (Some "Math")
       (live_world {[ "test:Math:algebra:5:10:multiple_choice"
                      := (3600, "{}") ]})
     = (Return 0,
        live_world {[ "test:Math:algebra:5:10:multiple_choice"
                      := (3600, "{}") ]})
  /\ exists w',
       CacheInvalidationService.invalidate_test_templates (Some "math")
         (live_world {[ "test:math:algebra:5:10:multiple_choice"
                        := (3600, "{}") ]})
       = (Return 1, w')
       /\ cached w' "test:math:algebra:5:10:multiple_choice" = None.
Proof.
  split; [reflexivity|]. split; [vm_compute; reflexivity|].
  eexists. split; [vm_compute; reflexivity|]. vm_compute. reflexivity.
Qed.

Section redis_more_facts.
Context `{Externals}.

Lemma expire_time_ok_spec (ttl : Z) :
  expire_time_ok ttl = true <-> 0 < ttl <= 9223372036854775.
Proof. unfold expire_time_ok. lia. Qed.

(** X5.  On a live store, when the time to live (the 24 hour default
    when none is given) is one the server accepts, positive and at most
    [LLONG_MAX / 1000] seconds, [set] stores the encoding of the value
    under the key with that time to live and touches no other key, and a
    following [get] of the key returns the value, provided its encoding
    is non-empty and decodes back to it.  With any other time to live the
    server refuses the command: [set] returns [False] and nothing is
    stored. *)
Theorem set_then_get (w : world) data (key : string) (value : json)
    (ttl : option Z) :
  redis w = Some (Live data) ->
  json_dumps false value <> "" ->
  json_loads (json_dumps false value) = Return value ->
  (0 < default 86400 ttl <= 9223372036854775 ->
   exists w',
     RedisClient.set key value ttl w = (Return true, w')
     /\ cached w' key = Some (default 86400 ttl, json_dumps false value)
     /\ (forall k, k <> key -> cached w' k = cached w k)
     /\ RedisClient.get key w' = (Return (Some value), w'))
  /\ (~ 0 < default 86400 ttl <= 9223372036854775 ->
      RedisClient.set key value ttl w = (Return false, w)).
Proof.
  intros Hr Hne Hrt. split.
  - intros Hok%expire_time_ok_spec.
    eexists. split; [by apply set_live|].
    split; [|split].
    + unfold cached; simpl. apply lookup_insert_eq.
    + intros k Hk. unfold cached; simpl. rewrite Hr.
      by apply lookup_insert_ne.
    + eapply get_live_hit; [reflexivity | apply lookup_insert_eq | done | done].
  - intros Hbad. eapply set_refused; [exact Hr|].
    destruct (expire_time_ok _) eqn:E; [|done].
    by apply expire_time_ok_spec in E.
Qed.

(** X6.  On a live store, [delete] returns [True] whether or not the key
    was there; afterwards [get] of the key returns [None], and the other
    keys are as before. *)
Theorem delete_then_get (w : world) data (key : string) :
  redis w = Some (Live data) ->
  exists w',
    RedisClient.delete key w = (Return true, w')
    /\ RedisClient.get key w' = (Return None, w')
    /\ (forall k, k <> key -> cached w' k = cached w k).
Proof.
  intros Hr. eexists. split; [|split].
  - unfold RedisClient.delete. unfold_monad. simpl. rewrite Hr. simpl.
    unfold redis_DEL. unfold_monad. simpl. reflexivity.
  - eapply get_live_miss; [reflexivity|]. apply lookup_delete_eq.
  - intros k Hk. unfold cached; simpl. rewrite Hr.
    by apply lookup_delete_ne.
Qed.

(** X7.  An entry that is the empty string, or that [json.loads] rejects,
    is reported as a miss: [get] returns [None] and does not raise. *)
Theorem get_unreadable_entry_is_miss (w : world) data (key : string)
    (ttl : Z) (v : string) :
  redis w = Some (Live data) ->
  data !! key = Some (ttl, v) ->
  (v = "" \/ exists e, json_loads v = Raise e) ->
  RedisClient.get key w = (Return None, w).
Proof.
  intros Hr Hk [-> | [e He]].
  - unfold RedisClient.get. unfold_monad. simpl.
    rewrite Hr. simpl. unfold_monad. simpl. by rewrite Hk.
  - by eapply get_absorbs_decode_error.
Qed.

End redis_more_facts.

Lemma set_then_get_witness :
  (exists w',
     RedisClient.set (H := Stub.externals [JInt 7]) "k" (JInt 7) (Some 60)
       (live_world ∅) = (Return true, w')
     /\ cached w' "k" = Some (60, "7")
     /\ (forall k, k <> "k" -> cached w' k = cached (live_world ∅) k)
     /\ RedisClient.get (H := Stub.externals [JInt 7]) "k" w'
        = (Return (Some (JInt 7)), w'))
  /\ RedisClient.set (H := Stub.externals [JInt 7]) "k" (JInt 7) (Some 0)
       (live_world ∅) = (Return false, live_world ∅).
Proof.
  split.
  - apply (set_then_get (H := Stub.externals [JInt 7]) (live_world ∅) ∅ "k"
             (JInt 7) (Some 60)).
    + reflexivity.
    + vm_compute. discriminate.
    + vm_compute. reflexivity.
    + simpl. lia.
  - apply (set_then_get (H := Stub.externals [JInt 7]) (live_world ∅) ∅ "k"
             (JInt 7) (Some 0)).
    + reflexivity.
    + vm_compute. discriminate.
    + vm_compute. reflexivity.
    + simpl. lia.
Defined.

Lemma delete_then_get_witness :
  exists w',
    RedisClient.delete "learning_plan:bob:math:general:7" (live_world {[ "learning_plan:bob:math:general:7" := (86400, "{}") ]})
      = (Return true, w')
    /\ RedisClient.get (H := Stub.externals [])
         "learning_plan:bob:math:general:7" w' = (Return None, w')
    /\ (forall k, k <> "learning_plan:bob:math:general:7" ->
          cached w' k = cached (live_world {[ "learning_plan:bob:math:general:7" := (86400, "{}") ]}) k).
Proof.
  eapply (delete_then_get (H := Stub.externals []) (live_world {[ "learning_plan:bob:math:general:7" := (86400, "{}") ]})).
  reflexivity.
Defined.

Lemma get_unreadable_entry_is_miss_witness :
  RedisClient.get (H := Stub.externals [])
    "learning_plan:bob:math:general:7"
    (live_world {[ "learning_plan:bob:math:general:7" := (86400, "{oops") ]})
  = (Return None,
     live_world {[ "learning_plan:bob:math:general:7" := (86400, "{oops") ]}).
Proof.
  eapply (get_unreadable_entry_is_miss (H := Stub.externals [])
            (live_world
               {[ "learning_plan:bob:math:general:7" := (86400, "{oops") ]})
            _ "learning_plan:bob:math:general:7" 86400 "{oops").
  - reflexivity.
  - vm_compute. reflexivity.
  - right. exists JSONDecodeError. reflexivity.
Defined.

(** ** More on the explanation service *)

(** [l[:n]] for an [int] n: the first [n] elements, or all but the last
    [-n] when [n] is negative. *)
Definition slice_to {A} (n : Z) (l : list A) : list A :=
  if 0 <=? n then take (Z.to_nat n) l
  else take (length l - Z.to_nat (- n)) l.

Module ExampleGeneration.

Section with_externals.
Context `{Externals} (openai_client : OpenAIClient.t).

(** [prompt_manager.format_example_prompt], outside the modelled code. *)
Context (format_example_prompt :
           string -> string -> Z -> Z -> option string -> list message).

(** [ExplanationService.generate_examples] *)
Definition generate_examples (topic subject : string) (student_level : Z)
    (num_examples : Z) (context : option string) : M (list Example.t) :=
  let messages :=
    format_example_prompt topic subject student_level num_examples context in
  response ← OpenAIClient.create_completion openai_client messages
               (Some (8 # 10)%Q) (Some 1500) false;
  content ← lift (ExplanationService.first_choice response);
  let examples := ExplanationService._extract_examples content in
  mret (slice_to num_examples examples).

End with_externals.

End ExampleGeneration.

Section explanation_more_facts.
Context `{Externals} (openai_client : OpenAIClient.t).
Import ExplanationService.

(** X8.  An explanation that is dumped for the cache is rebuilt unchanged
    from the dump exactly when it meets the field constraints (difficulty
    in 1..10, read time at least 1); a dump that breaks them is rejected. *)
Theorem explanation_dump_load (e : Explanation.t) :
  Explanation.from_kwargs (Explanation.model_dump e) = Return e
  <-> 1 <= Explanation.difficulty e <= 10
      /\ 1 <= Explanation.estimated_read_time e.
Proof.
  split; [|intros [Hd Ht]; by apply explanation_dump_roundtrip].
  destruct e as [c exs rel df rt]; simpl.
  rewrite traverse_example_dump, traverse_str_dump.
  unfold mbind, result_bind, Explanation.init.
  destruct (Z.leb_spec 1 df), (Z.leb_spec df 10), (Z.leb_spec 1 rt);
    simpl; intros Heq; try discriminate; lia.
Qed.

(** X9.  [_parse_explanation] always builds an explanation: the content
    is kept, the difficulty is the student level clamped to 1..10 (the
    level itself when it is in 1..10), the read time is at least one
    minute, and there are at most three examples and five related
    topics. *)
Theorem parse_explanation_shape (content : string) (level : Z) :
  exists e,
    _parse_explanation content level = Return e
    /\ Explanation.content e = content
    /\ Explanation.difficulty e = Z.min 10 (Z.max 1 level)
    /\ (1 <= level <= 10 -> Explanation.difficulty e = level)
    /\ 1 <= Explanation.estimated_read_time e
    /\ (length (Explanation.examples e) <= 3)%nat
    /\ (length (Explanation.related_topics e) <= 5)%nat.
Proof.
  unfold _parse_explanation, Explanation.init.
  assert (Hb : (1 <=? Z.min 10 (Z.max 1 level))
               && (Z.min 10 (Z.max 1 level) <=? 10) = true) by lia.
  assert (Hb' : (1 <=? Z.max 1 (round_div (count_words false content) 200))
                = true) by lia.
  rewrite Hb, Hb'. simpl. eexists. split; [done|]. simpl.
  repeat split; try lia.
  - unfold _extract_examples. rewrite length_take. lia.
  - unfold _extract_related_topics. rewrite length_take. lia.
Qed.

(** The cache wrapper on an unavailable store. *)
Lemma get_unavailable key (w : world) :
  unavailable w -> RedisClient.get key w = (Return None, w).
Proof.
  unfold RedisClient.get.
  intros [Hr | [e Hr]]; unfold_monad; simpl; rewrite Hr; simpl;
    unfold_monad; simpl; rewrite ?isinstance_Exception; done.
Qed.

Lemma set_unavailable key value ttl (w : world) :
  unavailable w -> RedisClient.set key value ttl w = (Return false, w).
Proof.
  unfold RedisClient.set.
  intros [Hr | [e Hr]]; unfold_monad; simpl; rewrite Hr; simpl;
    unfold_monad; simpl; rewrite ?isinstance_Exception; done.
Qed.

(** [create_completion] only adds endpoint calls and sleeps. *)
Lemma create_completion_after (self : OpenAIClient.t) messages temperature'
    max_tokens' stream (w : world) :
  exists calls ts,
    (OpenAIClient.create_completion self messages temperature' max_tokens'
       stream w).2 = after w calls ts.
Proof.
  unfold OpenAIClient.create_completion, range.
  destruct (Z.to_nat (OpenAIClient.max_retries self)) as [|m] eqn:Hm.
  - exists 0%nat, []. simpl. destruct w; unfold after; simpl.
    by rewrite Nat.add_0_r, app_nil_r.
  - destruct (attempt_loop_bounded self
                (OpenAIClient.request self messages temperature' max_tokens'
                   stream) m 0%nat w ltac:(lia)) as (c & _ & ->).
    by eexists _, _.
Qed.

(** The world [w] with another store in place of its own. *)
Definition with_redis (w : world) (conn : option redis_conn) : world :=
  World conn (endpoint w) (endpoint_calls w) (sleeps w) (uuid_calls w).

(** The retry loop does not look at the store. *)
Lemma attempt_loop_with_redis (client : OpenAIClient.t) req attempts :
  forall (w : world) conn,
    OpenAIClient.attempt_loop client req attempts (with_redis w conn)
    = ((OpenAIClient.attempt_loop client req attempts w).1,
       with_redis (OpenAIClient.attempt_loop client req attempts w).2 conn).
Proof.
  induction attempts as [|attempt rest IH]; intros w conn; [reflexivity|].
  simpl. unfold_monad. simpl.
  set (w1 := World (redis w) (endpoint w) (S (endpoint_calls w)) (sleeps w)
               (uuid_calls w)).
  set (w2 := World (redis w) (endpoint w) (S (endpoint_calls w))
               (sleeps w ++ [OpenAIClient.wait_time client attempt])
               (uuid_calls w)).
  pose proof (IH w2 conn) as IH2. unfold with_redis in IH2. simpl in IH2.
  destruct (endpoint w (endpoint_calls w) req) as [response|e];
    [reflexivity|].
  repeat match goal with
         | |- context [if ?b then _ else _] => destruct b
         end; try reflexivity; exact IH2.
Qed.

Lemma get_explanation_off_after (self : t) (request : ExplanationRequest)
    (use_cache : bool) (w : world) :
  use_cache && cache_enabled self = false ->
  exists calls ts,
    (get_explanation openai_client self request use_cache w).2
    = after w calls ts.
Proof.
  intros Hoff. unfold get_explanation. rewrite Hoff.
  unfold mbind at 1, M_bind at 1. unfold mret at 1, M_ret at 1.
  unfold mbind at 1, M_bind at 1.
  destruct (create_completion_after openai_client
              (format_explanation_prompt (topic request) (subject request)
                 (student_level request) (context request))
              (Some (7 # 10)%Q) (Some 2000) false w) as (calls & ts & Hw).
  exists calls, ts.
  destruct (OpenAIClient.create_completion _ _ _ _ _ w) as [[response|e] w1];
    simpl in Hw; subst w1; [|done].
  unfold_monad.
  destruct (first_choice response) as [content|e]; [|done].
  by destruct (_parse_explanation content (student_level request)).
Qed.

Lemma get_explanation_off_with_redis (self : t) (request : ExplanationRequest)
    (use_cache : bool) (w : world) conn :
  use_cache && cache_enabled self = false ->
  get_explanation openai_client self request use_cache (with_redis w conn)
  = ((get_explanation openai_client self request use_cache w).1,
     with_redis (get_explanation openai_client self request use_cache w).2
       conn).
Proof.
  intros Hoff. unfold get_explanation. rewrite Hoff.
  unfold OpenAIClient.create_completion. unfold_monad.
  rewrite attempt_loop_with_redis.
  destruct (OpenAIClient.attempt_loop _ _ _ w) as [[response|e] w1];
    cbn [fst snd]; [|reflexivity].
  destruct (first_choice response) as [content|e]; [|reflexivity].
  by destruct (_parse_explanation content (student_level request)).
Qed.

(** X10.  With [use_cache=False], or with caching switched off,
    [get_explanation] neither reads nor writes the store: put any other
    store in place of the world's, whatever it holds, and the invocation
    has the same outcome after the same endpoint calls and sleeps, and in
    both worlds the store is left as it was. *)
Theorem get_explanation_bypasses_cache (self : t) (request : ExplanationRequest)
    (use_cache : bool) (w : world) (conn : option redis_conn) :
  use_cache && cache_enabled self = false ->
  exists r calls ts,
    get_explanation openai_client self request use_cache w
    = (r, after w calls ts)
    /\ get_explanation openai_client self request use_cache
         (with_redis w conn)
       = (r, after (with_redis w conn) calls ts).
Proof.
  intros Hoff.
  destruct (get_explanation_off_after self request use_cache w Hoff)
    as (calls & ts & Hw).
  exists (get_explanation openai_client self request use_cache w).1, calls, ts.
  split.
  - rewrite <- Hw. by destruct (get_explanation _ _ _ _ w).
  - rewrite (get_explanation_off_with_redis _ _ _ _ _ Hoff), Hw.
    reflexivity.
Qed.

(** X11.  A cache outage does not stop generation: with the store
    unavailable and an endpoint that answers its first call with a
    choice, [get_explanation] returns the parsed explanation after one
    endpoint call, and the store stays as it was. *)
Theorem get_explanation_without_cache (self : t) (request : ExplanationRequest)
    (use_cache : bool) (w : world) (response : completion) (content : string)
    (rest : list string) :
  unavailable w ->
  1 <= OpenAIClient.max_retries openai_client ->
  endpoint w (endpoint_calls w) (explanation_call openai_client request)
    = Return response ->
  choices response = content :: rest ->
  exists e,
    _parse_explanation content (student_level request) = Return e
    /\ get_explanation openai_client self request use_cache w
       = (Return e,
          World (redis w) (endpoint w) (S (endpoint_calls w)) (sleeps w)
            (uuid_calls w)).
Proof.
  intros Hun Hmax He Hc.
  destruct (parse_explanation_total content (student_level request))
    as (e & Hp & _). exists e. split; [done|].
  assert (Hun' : unavailable
            (World (redis w) (endpoint w) (S (endpoint_calls w)) (sleeps w)
               (uuid_calls w))) by exact Hun.
  unfold get_explanation.
  destruct (use_cache && cache_enabled self).
  - unfold mbind at 1, M_bind at 1. unfold mbind at 1, M_bind at 1.
    rewrite (get_unavailable _ w Hun).
    unfold mret at 1, M_ret at 1. unfold mbind at 1, M_bind at 1.
    rewrite (create_completion_first_success _ _ _ _ _ w response Hmax He).
    unfold mbind at 1, M_bind at 1. unfold lift at 1, first_choice. rewrite Hc.
    unfold mbind at 1, M_bind at 1. unfold lift at 1. rewrite Hp.
    unfold mbind at 1, M_bind at 1. unfold mbind at 1, M_bind at 1.
    by rewrite (set_unavailable _ _ _ _ Hun').
  - unfold mbind at 1, M_bind at 1. unfold mret at 1, M_ret at 1.
    unfold mbind at 1, M_bind at 1.
    rewrite (create_completion_first_success _ _ _ _ _ w response Hmax He).
    unfold mbind at 1, M_bind at 1. unfold lift at 1, first_choice. rewrite Hc.
    unfold mbind at 1, M_bind at 1. unfold lift at 1. by rewrite Hp.
Qed.

(** X12.  A failed invocation is not cached: on a miss, when
    [create_completion] raises, [get_explanation] raises the same error
    and the store is left as it was. *)
Theorem get_explanation_failure_not_cached (self : t)
    (request : ExplanationRequest) (use_cache : bool) (w w1 : world)
    (cached : option json) (e : exn) :
  RedisClient.get (_generate_cache_key request) w = (Return cached, w) ->
  truthy_opt cached = false ->
  OpenAIClient.create_completion openai_client
    (format_explanation_prompt (topic request) (subject request)
       (student_level request) (context request))
    (Some (7 # 10)%Q) (Some 2000) false w = (Raise e, w1) ->
  get_explanation openai_client self request use_cache w = (Raise e, w1)
  /\ redis w1 = redis w.
Proof.
  intros Hget Hmiss Hcc. split.
  - unfold get_explanation.
    destruct (use_cache && cache_enabled self).
    + unfold mbind at 1, M_bind at 1. unfold mbind at 1, M_bind at 1.
      rewrite Hget.
      assert (Hhit : (match cached with
                      | Some c =>
                          if truthy c
                          then e0 ← lift (Explanation.from_kwargs c); mret (Some e0)
                          else mret None
                      | None => mret None
                      end : M (option Explanation.t)) w = (Return None, w)).
      { destruct cached as [c|]; [|done]. simpl in Hmiss. by rewrite Hmiss. }
      rewrite Hhit. unfold mbind at 1, M_bind at 1. by rewrite Hcc.
    + unfold mbind at 1, M_bind at 1. unfold mret at 1, M_ret at 1.
      unfold mbind at 1, M_bind at 1. by rewrite Hcc.
  - destruct (create_completion_after openai_client
                (format_explanation_prompt (topic request) (subject request)
                   (student_level request) (context request))
                (Some (7 # 10)%Q) (Some 2000) false w) as (calls & ts & Hw).
    rewrite Hcc in Hw. simpl in Hw. by subst w1.
Qed.

(** X13.  When [create_completion] returns a response with at least one
    choice, [generate_examples] returns the first [num_examples] of the
    examples [_extract_examples] finds in the first choice (all but the
    last [-num_examples] for a negative number): a prefix of them, at
    most three, never more than [num_examples] when that is not negative,
    and all of them when [num_examples] is at least their number.  The
    world is the one the completion left, and the store is untouched. *)
Theorem generate_examples_capped
    (format_example_prompt :
       string -> string -> Z -> Z -> option string -> list message)
    (topic subject : string) (student_level num_examples : Z)
    (context : option string) (w w1 : world) (response : completion)
    (content : string) (rest : list string) :
  OpenAIClient.create_completion openai_client
    (format_example_prompt topic subject student_level num_examples context)
    (Some (8 # 10)%Q) (Some 1500) false w = (Return response, w1) ->
  choices response = content :: rest ->
  exists examples,
    ExampleGeneration.generate_examples openai_client format_example_prompt
      topic subject student_level num_examples context w
    = (Return examples, w1)
    /\ examples = slice_to num_examples (_extract_examples content)
    /\ examples `prefix_of` _extract_examples content
    /\ (length examples <= 3)%nat
    /\ (0 <= num_examples -> Z.of_nat (length examples) <= num_examples)
    /\ (Z.of_nat (length (_extract_examples content)) <= num_examples ->
        examples = _extract_examples content)
    /\ redis w1 = redis w.
Proof.
  intros Hcall Hc.
  destruct (create_completion_after openai_client
              (format_example_prompt topic subject student_level num_examples
                 context)
              (Some (8 # 10)%Q) (Some 1500) false w) as (calls & ts & Hw).
  rewrite Hcall in Hw. simpl in Hw.
  eexists. split; [|split; [reflexivity|]].
  - unfold ExampleGeneration.generate_examples.
    unfold mbind at 1, M_bind at 1. rewrite Hcall.
    unfold mbind at 1, M_bind at 1. unfold lift, first_choice. rewrite Hc.
    reflexivity.
  - assert (Hlen : (length (_extract_examples content) <= 3)%nat).
    { unfold _extract_examples. rewrite length_take. lia. }
    assert (Hpre : slice_to num_examples (_extract_examples content)
                     `prefix_of` _extract_examples content).
    { unfold slice_to. destruct (0 <=? num_examples); apply prefix_take. }
    split; [exact Hpre|].
    split; [apply prefix_length in Hpre; lia|].
    split; [|split].
    + intros Hn. unfold slice_to.
      destruct (Z.leb_spec 0 num_examples); [|lia].
      rewrite length_take. lia.
    + intros Hn. unfold slice_to.
      destruct (Z.leb_spec 0 num_examples); [|lia].
      apply take_ge. lia.
    + by rewrite Hw.
Qed.

End explanation_more_facts.

(** A world with the store [r] and an endpoint that always answers
    [text]. *)
Definition answering_world (r : option redis_conn) (text : string) : world :=
  World r (fun _ _ => Return (Completion [text])) 0 [] 0.

Definition sets_request : ExplanationService.ExplanationRequest :=
  ExplanationService.Request "Sets" "Mathematics" 11 None None.

(** A store that already holds an entry under the key of
    [sets_request]. *)
Definition stale_store : option redis_conn :=
  Some (Live {[ ExplanationService._generate_cache_key
                  (H := Stub.externals []) sets_request
                := (86400, "stale") ]}).

Lemma get_explanation_bypasses_cache_witness :
  exists r calls ts,
    ExplanationService.get_explanation (H := Stub.externals [])
      OpenAIClient.from_settings ExplanationService.new sets_request false
      (answering_world (Some (Live ∅)) "A set is a collection.")
    = (r, after (answering_world (Some (Live ∅)) "A set is a collection.")
            calls ts)
    /\ ExplanationService.get_explanation (H := Stub.externals [])
         OpenAIClient.from_settings ExplanationService.new sets_request false
         (with_redis (answering_world (Some (Live ∅)) "A set is a collection.")
            stale_store)
       = (r, after (with_redis
                      (answering_world (Some (Live ∅)) "A set is a collection.")
                      stale_store) calls ts).
Proof.
  apply (get_explanation_bypasses_cache (H := Stub.externals [])
           OpenAIClient.from_settings ExplanationService.new sets_request
           false (answering_world (Some (Live ∅)) "A set is a collection.")
           stale_store).
  reflexivity.
Defined.

Lemma get_explanation_without_cache_witness :
  exists e,
    ExplanationService._parse_explanation (H := Stub.externals [])
      "A set is a collection." 11 = Return e
    /\ ExplanationService.get_explanation (H := Stub.externals [])
         OpenAIClient.from_settings ExplanationService.new sets_request true
         (answering_world None "A set is a collection.")
       = (Return e,
          World None (fun _ _ => Return (Completion ["A set is a collection."]))
            1 [] 0).
Proof.
  apply (get_explanation_without_cache (H := Stub.externals [])
           OpenAIClient.from_settings ExplanationService.new sets_request true
           (answering_world None "A set is a collection.")
           (Completion ["A set is a collection."]) "A set is a collection." []).
  - left. reflexivity.
  - simpl. lia.
  - reflexivity.
  - reflexivity.
Defined.

Lemma get_explanation_failure_not_cached_witness :
  ExplanationService.get_explanation (H := Stub.externals [])
    OpenAIClient.from_settings ExplanationService.new sets_request true
    (live_world ∅)
  = (Raise RateLimitError,
     World (Some (Live ∅)) (fun _ _ => Raise RateLimitError) 3 [1%Q; 2%Q] 0)
  /\ redis (World (Some (Live ∅)) (fun _ _ => Raise RateLimitError) 3
              [1%Q; 2%Q] 0)
     = redis (live_world ∅).
Proof.
  apply (get_explanation_failure_not_cached (H := Stub.externals [])
           OpenAIClient.from_settings ExplanationService.new sets_request true
           (live_world ∅) _ None RateLimitError).
  - reflexivity.
  - reflexivity.
  - reflexivity.
Defined.

Lemma generate_examples_capped_witness :
  exists examples,
    ExampleGeneration.generate_examples (H := Stub.externals [])
      OpenAIClient.from_settings (fun _ _ _ _ _ => [])
      "Sums" "Mathematics" 3 5 None (answering_world None "An example: 1 + 1.")
    = (Return examples,
       World None (fun _ _ => Return (Completion ["An example: 1 + 1."]))
         1 [] 0)
    /\ examples
       = slice_to 5 (ExplanationService._extract_examples
                       (H := Stub.externals []) "An example: 1 + 1.")
    /\ examples `prefix_of` ExplanationService._extract_examples
                              (H := Stub.externals []) "An example: 1 + 1."
    /\ (length examples <= 3)%nat
    /\ (0 <= 5 -> Z.of_nat (length examples) <= 5)
    /\ (Z.of_nat (length (ExplanationService._extract_examples
                            (H := Stub.externals []) "An example: 1 + 1."))
        <= 5 ->
        examples = ExplanationService._extract_examples
                     (H := Stub.externals []) "An example: 1 + 1.")
    /\ redis (World None
                (fun _ _ => Return (Completion ["An example: 1 + 1."])) 1 [] 0)
       = redis (answering_world None "An example: 1 + 1.").
Proof.
  apply (generate_examples_capped (H := Stub.externals [])
           OpenAIClient.from_settings (fun _ _ _ _ _ => [])
           "Sums" "Mathematics" 3 5 None
           (answering_world None "An example: 1 + 1.")
           (World None (fun _ _ => Return (Completion ["An example: 1 + 1."]))
              1 [] 0)
           (Completion ["An example: 1 + 1."]) "An example: 1 + 1." []).
  - reflexivity.
  - reflexivity.
Defined.

(** ** More on test generation *)

Section strip_facts.

(** The last character of [s] exists and is not white space. *)
Fixpoint ends_nonspace (s : string) : bool :=
  match s with
  | EmptyString => false
  | String c EmptyString => negb (isspace c)
  | String _ s' => ends_nonspace s'
  end.

Lemma rstrip_cons c s :
  rstrip (String c s)
  = match rstrip s with
    | EmptyString => if isspace c then EmptyString else String c EmptyString
    | String a r => String c (String a r)
    end.
Proof. reflexivity. Qed.

Lemma rstrip_ends_nonspace s : ends_nonspace s = true -> rstrip s = s.
Proof.
  induction s as [|c s IH]; [done|]. destruct s as [|c' s].
  - simpl. intros Hc. by destruct (isspace c).
  - intros Hs. change (ends_nonspace (String c (String c' s)))
      with (ends_nonspace (String c' s)) in Hs.
    rewrite rstrip_cons. by rewrite (IH Hs).
Qed.

Lemma ends_nonspace_app a b :
  b <> "" -> ends_nonspace (a +:+ b) = ends_nonspace b.
Proof.
  intros Hb. induction a as [|c a IH]; [done|].
  rewrite append_cons. destruct (a +:+ b) as [|c' s] eqn:E.
  - destruct a as [|c0 a]; [by change ("" +:+ b) with b in E |].
    by rewrite append_cons in E.
  - exact IH.
Qed.

Lemma all_chars_lstrip P s : all_chars P s = true -> all_chars P (lstrip s) = true.
Proof.
  induction s as [|c s IH]; [done|]. simpl. intros Hs.
  destruct (isspace c); [|done].
  apply IH. by apply andb_true_iff in Hs as [_ ?].
Qed.

Lemma all_chars_rstrip P s : all_chars P s = true -> all_chars P (rstrip s) = true.
Proof.
  induction s as [|c s IH]; [done|]. simpl.
  intros [Hc Hs]%andb_true_iff. specialize (IH Hs).
  destruct (rstrip s) as [|c' r].
  - destruct (isspace c); [done|]. simpl. by rewrite Hc.
  - simpl. simpl in IH. by rewrite Hc, IH.
Qed.

Lemma all_chars_strip P s : all_chars P s = true -> all_chars P (strip s) = true.
Proof. intros Hs. by apply all_chars_rstrip, all_chars_lstrip. Qed.

End strip_facts.

Section parse_questions_facts.
Context `{Externals}.
Import TestGenerationService.

Definition not_tick (c : ascii) : bool := negb (Ascii.eqb c "`").

Lemma startswith_cons c s a p :
  startswith (String c s) (String a p)
  = if Ascii.eqb a c then startswith s p else false.
Proof. reflexivity. Qed.

Lemma startswith_no_tick s :
  all_chars not_tick s = true -> startswith s fence = false.
Proof.
  destruct s as [|c s]; [done|]. unfold fence, not_tick.
  cbn [all_chars]. intros [Hc _]%andb_true_iff.
  rewrite startswith_cons, Ascii.eqb_sym.
  by destruct (Ascii.eqb c "`").
Qed.

Lemma startswith_self_app p s : startswith (p +:+ s) p = true.
Proof.
  induction p as [|c p IH]; [by destruct s|].
  by rewrite append_cons, startswith_cons, Ascii.eqb_refl.
Qed.

Lemma before_cons sep c s :
  before sep (String c s)
  = if startswith (String c s) sep then EmptyString
    else String c (before sep s).
Proof. reflexivity. Qed.

Lemma before_fence s rest :
  all_chars not_tick s = true -> before fence (s +:+ fence +:+ rest) = s.
Proof.
  induction s as [|c s IH].
  - intros _.
    change ("" +:+ fence +:+ rest) with (String "`" ("``" +:+ rest)).
    rewrite before_cons.
    change (String "`" ("``" +:+ rest)) with (fence +:+ rest).
    by rewrite startswith_self_app.
  - cbn [all_chars]. intros [Hc Hs]%andb_true_iff.
    rewrite append_cons, before_cons.
    assert (Hst : startswith (String c (s +:+ fence +:+ rest)) fence = false).
    { unfold fence, not_tick in *. rewrite startswith_cons, Ascii.eqb_sym.
      by destruct (Ascii.eqb c "`"). }
    rewrite Hst. by rewrite (IH Hs).
Qed.

(** X14.  A reply wrapped in a Markdown code fence, tagged [json] or
    untagged, is parsed exactly like the text inside the fence (for an
    inside without back quotes that, in the untagged case, does not start
    with "json"). *)
Theorem parse_questions_fenced (tag body question_type : string) :
  all_chars not_tick body = true ->
  (tag = "json" \/ tag = "" /\ startswith body "json" = false) ->
  _parse_questions_response (fence +:+ tag +:+ body +:+ fence) question_type
  = _parse_questions_response body question_type.
Proof.
  intros Hbody Htag. unfold _parse_questions_response.
  assert (Hstrip : strip (fence +:+ tag +:+ body +:+ fence)
                   = fence +:+ tag +:+ body +:+ fence).
  { unfold strip.
    change (lstrip (fence +:+ tag +:+ body +:+ fence))
      with (fence +:+ tag +:+ body +:+ fence).
    apply rstrip_ends_nonspace.
    rewrite <- !append_assoc. by rewrite ends_nonspace_app. }
  rewrite Hstrip, startswith_self_app.
  change (drop_chars 3 (fence +:+ tag +:+ body +:+ fence))
    with (tag +:+ body +:+ fence).
  rewrite (startswith_no_tick (strip body)) by (by apply all_chars_strip).
  assert (Hin : (let content := before fence (tag +:+ body +:+ fence) in
                 if startswith content "json" then drop_chars 4 content
                 else content) = body).
  { cbv zeta. destruct Htag as [-> | [-> Hnj]].
    - change ("json" +:+ body +:+ fence)
        with ("json" +:+ body +:+ fence +:+ "").
      rewrite <- (append_assoc "json" body), before_fence.
      + rewrite startswith_self_app. reflexivity.
      + by rewrite all_chars_app, Hbody.
    - change ("" +:+ body +:+ fence) with (body +:+ fence +:+ "").
      rewrite before_fence by done. by rewrite Hnj. }
  cbv zeta in Hin. by rewrite Hin.
Qed.

(** X15.  For a reply that, once stripped, does not open with a code
    fence, the outcome of [_parse_questions_response] is decided by
    [json.loads] on the stripped reply: a JSON list is returned as it is,
    any other JSON value raises ValueError("Response is not a list"), a
    JSONDecodeError becomes ValueError("Invalid JSON response from AI"),
    and any other error of [json.loads] passes through. *)
Theorem parse_questions_outcome (content question_type : string) :
  startswith (strip content) fence = false ->
  (forall questions,
     json_loads (strip content) = Return (JList questions) ->
     _parse_questions_response content question_type = Return questions)
  /\ (forall value,
        json_loads (strip content) = Return value ->
        (forall questions, value <> JList questions) ->
        _parse_questions_response content question_type
        = Raise (ValueError "Response is not a list"))
  /\ (json_loads (strip content) = Raise JSONDecodeError ->
      _parse_questions_response content question_type
      = Raise (ValueError "Invalid JSON response from AI"))
  /\ (forall e,
        json_loads (strip content) = Raise e ->
        isinstance e cJSONDecodeError = false ->
        _parse_questions_response content question_type = Raise e).
Proof.
  intros Hplain. unfold _parse_questions_response. rewrite Hplain.
  repeat split.
  - by intros questions ->.
  - intros value -> Hnot. destruct value; try reflexivity.
    by destruct (Hnot l).
  - by intros ->.
  - intros e -> He. by rewrite He.
Qed.

End parse_questions_facts.

Lemma parse_questions_fenced_witness :
  TestGenerationService._parse_questions_response (H := Stub.externals [JList [JInt 1]])
    "```json[1]```" "multiple_choice"
  = TestGenerationService._parse_questions_response (H := Stub.externals [JList [JInt 1]])
      "[1]" "multiple_choice".
Proof.
  apply (parse_questions_fenced (H := Stub.externals [JList [JInt 1]])
           "json" "[1]" "multiple_choice").
  - reflexivity.
  - left. reflexivity.
Defined.

Lemma parse_questions_outcome_witness :
  TestGenerationService._parse_questions_response
    (H := Stub.externals [JList [JInt 1]; JInt 2]) " [1] " "true_false"
  = Return [JInt 1]
  /\ TestGenerationService._parse_questions_response
       (H := Stub.externals [JList [JInt 1]; JInt 2]) "2" "true_false"
     = Raise (ValueError "Response is not a list")
  /\ TestGenerationService._parse_questions_response
       (H := Stub.externals [JList [JInt 1]; JInt 2]) "Sorry, no." "true_false"
     = Raise (ValueError "Invalid JSON response from AI").
Proof.
  split; [|split].
  - apply (parse_questions_outcome
             (H := Stub.externals [JList [JInt 1]; JInt 2]) " [1] "
             "true_false" eq_refl).
    vm_compute. reflexivity.
  - apply (parse_questions_outcome
             (H := Stub.externals [JList [JInt 1]; JInt 2]) "2"
             "true_false" eq_refl) with (value := JInt 2).
    + vm_compute. reflexivity.
    + discriminate.
  - apply (proj1 (proj2 (proj2
             (parse_questions_outcome
                (H := Stub.externals [JList [JInt 1]; JInt 2]) "Sorry, no."
                "true_false" eq_refl)))).
    vm_compute. reflexivity.
Defined.

Section request_facts.
Import TestGenerationRequest.

Lemma between_spec lo hi n : between lo hi n = true <-> lo <= n <= hi.
Proof. unfold between. lia. Qed.

(** X16.  Every request that [TestGenerationRequest] accepts has a
    difficulty in 1..10, a question count in 1..50, question types among
    the three literals, a student level in 1..12 when one is given, the
    trimmed subject, and at most ten topics, each trimmed and non-empty. *)
Theorem request_init_invariants (subject0 : string) (topics0 : list string)
    (difficulty0 question_count0 : Z) (types0 : option (list string))
    (level0 : option Z) (r : t) :
  init subject0 topics0 difficulty0 question_count0 types0 level0 = Return r ->
  1 <= difficulty r <= 10
  /\ 1 <= question_count r <= 50
  /\ Forall (fun q => q ∈ type_literals) (question_types r)
  /\ (forall l, student_level r = Some l -> 1 <= l <= 12)
  /\ subject r = strip subject0
  /\ (length (topics r) <= 10)%nat
  /\ Forall (fun topic => topic <> "" /\ exists t0, t0 ∈ topics0 /\ topic = strip t0)
       (topics r).
Proof.
  unfold init.
  destruct (between 1 100 _); cbn [negb]; [|discriminate].
  destruct (between 1 10 (Z.of_nat (length topics0))) eqn:Hlen; cbn [negb];
    [|discriminate].
  destruct (between 1 10 difficulty0) eqn:Hd; cbn [negb]; [|discriminate].
  destruct (between 1 50 question_count0) eqn:Hq; cbn [negb]; [|discriminate].
  destruct (forallb _ _) eqn:Hty; cbn [negb]; [|discriminate].
  destruct (from_option (between 1 12) true level0) eqn:Hlv; cbn [negb];
    [|discriminate].
  intros [= <-]. simpl.
  apply between_spec in Hlen, Hd, Hq.
  split; [done|]. split; [done|]. split; [|split; [|split; [done|split]]].
  - apply Forall_forall. intros q Hq'.
    rewrite forallb_forall in Hty. apply list_elem_of_In in Hq'.
    specialize (Hty q Hq'). by apply bool_decide_eq_true in Hty.
  - intros l ->. simpl in Hlv. by apply between_spec in Hlv.
  - rewrite length_map.
    pose proof (length_filter (fun topic => strip topic ≠ "") topics0). lia.
  - apply Forall_forall. intros topic Ht.
    apply list_elem_of_fmap in Ht as (t0 & -> & Ht0).
    apply list_elem_of_filter in Ht0 as [Hne Hin]. split; [done|].
    by exists t0.
Qed.

Lemma request_init_invariants_witness :
  1 <= 5 <= 10
  /\ 1 <= 10 <= 50
  /\ Forall (fun q => q ∈ type_literals) ["multiple_choice"]
  /\ (forall l, None = Some l -> 1 <= l <= 12)
  /\ "Math" = strip " Math "
  /\ (length ["Sets"] <= 10)%nat
  /\ Forall (fun topic => topic <> ""
                          /\ exists t0, t0 ∈ [" Sets"; "  "] /\ topic = strip t0)
       ["Sets"].
Proof.
  apply (request_init_invariants " Math " [" Sets"; "  "] 5 10 None None
           (Make "Math" ["Sets"] 5 10 ["multiple_choice"] None)).
  reflexivity.
Defined.

End request_facts.

Section distribution_more_facts.
Import Distribution.

Lemma dict_set_keys {V} k (v : V) (d : dict V) :
  map fst (dict_set k v d)
  = if bool_decide (k ∈ map fst d) then map fst d else map fst d ++ [k].
Proof.
  induction d as [|[k' v'] d IH]; simpl; [done|].
  destruct (String.eqb_spec k' k) as [->|Hne]; simpl.
  - rewrite bool_decide_eq_true_2; [done | left].
  - rewrite IH. destruct (bool_decide (k ∈ map fst d)) eqn:Hk.
    + apply bool_decide_eq_true in Hk.
      rewrite bool_decide_eq_true_2; [done | by right].
    + apply bool_decide_eq_false in Hk.
      rewrite bool_decide_eq_false_2; [done|].
      intros [?|?]%elem_of_cons; congruence.
Qed.

Lemma dict_set_values {V} (P : V -> Prop) k v (d : dict V) :
  P v -> Forall P (values d) -> Forall P (values (dict_set k v d)).
Proof.
  intros Hv. unfold values.
  induction d as [|[k' v'] d IH]; simpl; intros Hd.
  - by constructor.
  - apply Forall_cons in Hd as [Hv' Hd].
    destruct (String.eqb k' k); simpl; constructor; auto.
Qed.

(** What the loop keeps, whatever the categories: distinct keys, the
    keys seen so far, counts that are the base count or one more. *)
Lemma fold_assign_invariant b r (its : list (nat * string)) : forall d0 : dict Z,
  NoDup (map fst d0) ->
  Forall (fun v => b <= v <= b + 1) (values d0) ->
  let d := fold_left (assign b r) its d0 in
  NoDup (map fst d)
  /\ (forall c, c ∈ map fst d <-> c ∈ map fst d0 \/ c ∈ map snd its)
  /\ Forall (fun v => b <= v <= b + 1) (values d).
Proof.
  induction its as [|[i c0] its IH]; intros d0 Hnd Hv; simpl.
  - split; [done|]. split; [|done]. intros c. split; [auto|].
    intros [?|?%elem_of_nil]; done.
  - destruct (IH (assign b r d0 (i, c0))) as (Hnd' & Hkeys & Hv').
    + unfold assign; simpl. rewrite dict_set_keys.
      destruct (bool_decide (c0 ∈ map fst d0)) eqn:Hc; [done|].
      apply bool_decide_eq_false in Hc.
      apply NoDup_app. split; [done|]. split; [|apply NoDup_singleton].
      intros x Hx ->%list_elem_of_singleton. done.
    + unfold assign; simpl. apply dict_set_values; [|done].
      destruct (_ <? _); lia.
    + split; [done|]. split; [|done].
      intros c. rewrite Hkeys. unfold assign; simpl. rewrite dict_set_keys.
      destruct (bool_decide (c0 ∈ map fst d0)) eqn:Hc.
      * apply bool_decide_eq_true in Hc. rewrite elem_of_cons.
        split; [tauto|]. intros [?|[->|?]]; auto.
      * rewrite elem_of_app, list_elem_of_singleton, elem_of_cons. tauto.
Qed.

Lemma snd_enumerate {A} (l : list A) : map snd (enumerate l) = l.
Proof.
  unfold enumerate. generalize 0%nat.
  induction l as [|x l IH]; intros k; simpl; [done|]. by rewrite IH.
Qed.

(** X17.  For any non-empty list of types, repeated or not,
    [_distribute_questions] returns a mapping whose keys are the distinct
    types of the list, each with the base count or one more; a repeated
    type yields one entry, so there are at most as many entries as types
    given. *)
Theorem distribute_questions_entries (total : Z) (types : list string) :
  types <> [] ->
  exists d,
    _distribute_questions total types = Return d
    /\ NoDup (map fst d)
    /\ (forall c, c ∈ map fst d <-> c ∈ types)
    /\ Forall (fun v =>
                 total `div` Z.of_nat (length types) <= v
                 <= total `div` Z.of_nat (length types) + 1)
         (values d)
    /\ (length d <= length types)%nat.
Proof.
  intros Hne. unfold _distribute_questions.
  destruct (Z.eqb_spec (Z.of_nat (length types)) 0) as [E|_].
  { destruct types; [done | simpl in E; lia]. }
  eexists. split; [done|].
  destruct (fold_assign_invariant
              (total `div` Z.of_nat (length types))
              (total `mod` Z.of_nat (length types))
              (enumerate types) [] (NoDup_nil_2) (Forall_nil_2 _))
    as (Hnd & Hkeys & Hv).
  split; [done|]. split; [|split; [done|]].
  - intros c. rewrite Hkeys, snd_enumerate. split; [|auto].
    intros [?%elem_of_nil|?]; done.
  - rewrite <- (length_map fst). apply submseteq_length.
    apply NoDup_submseteq; [done|].
    intros c Hc. apply Hkeys in Hc as [?%elem_of_nil|Hc]; [done|].
    by rewrite snd_enumerate in Hc.
Qed.

Lemma distribute_questions_entries_witness :
  exists d,
    _distribute_questions 10 ["A"; "B"; "A"] = Return d
    /\ NoDup (map fst d)
    /\ (forall c, c ∈ map fst d <-> c ∈ ["A"; "B"; "A"])
    /\ Forall (fun v => 10 `div` 3 <= v <= 10 `div` 3 + 1) (values d)
    /\ (length d <= 3)%nat.
Proof.
  apply (distribute_questions_entries 10 ["A"; "B"; "A"]). discriminate.
Defined.

End distribution_more_facts.

Section generated_test_facts.

(** A question that meets the constraints of [GeneratedQuestion]. *)
Definition valid_question (q : GeneratedQuestion.t) : Prop :=
  GeneratedQuestion.type q ∈ TestGenerationRequest.type_literals
  /\ 1 <= GeneratedQuestion.difficulty q <= 10.

Lemma traverse_question_str field (l : list string) :
  traverse (GeneratedQuestion.validate_str field) (map JStr l) = Return l.
Proof.
  induction l as [|a l IH]; simpl; [done|].
  unfold mbind, result_bind in *. by rewrite IH.
Qed.

Lemma question_dump_roundtrip (q : GeneratedQuestion.t) :
  valid_question q ->
  GeneratedQuestion.validate (GeneratedQuestion.model_dump q) = Return q.
Proof.
  intros [Hty Hd]. destruct q as [i ty c o a e df tp p]; simpl in *.
  unfold GeneratedQuestion.init.
  rewrite bool_decide_eq_true_2 by done. cbn [negb].
  assert (Hb : TestGenerationRequest.between 1 10 df = true)
    by (unfold TestGenerationRequest.between; lia).
  assert (Ho : GeneratedQuestion.validate_options
                 (Some (from_option (fun l => JList (map JStr l)) JNull o))
               = Return o).
  { destruct o as [l|]; simpl; [|done].
    unfold mbind, result_bind. by rewrite traverse_question_str. }
  assert (Ha : GeneratedQuestion.validate_answer
                 (GeneratedQuestion.dump_answer a) = Return a).
  { destruct a as [s|l]; simpl; [done|].
    unfold mbind, result_bind. by rewrite traverse_question_str. }
  rewrite Ho, Ha, Hb. done.
Qed.

Lemma traverse_question_dump (l : list GeneratedQuestion.t) :
  Forall valid_question l ->
  traverse GeneratedQuestion.validate (map GeneratedQuestion.model_dump l)
  = Return l.
Proof.
  induction 1 as [|q l Hq Hl IH]; [done|].
  cbn [map traverse]. rewrite (question_dump_roundtrip q Hq).
  unfold mbind, result_bind in *. by rewrite IH.
Qed.

(** X18.  A generated test whose questions meet the field constraints
    (a type among the three literals, a difficulty in 1..10) is rebuilt
    unchanged from its dump. *)
Theorem test_dump_roundtrip (g : GeneratedTest.t) :
  Forall valid_question (GeneratedTest.questions g) ->
  GeneratedTest.from_kwargs (GeneratedTest.model_dump g) = Return g.
Proof.
  intros Hq. destruct g as [ti su tl ql lim ps]; simpl in *.
  rewrite traverse_question_str. unfold mbind, result_bind.
  rewrite (traverse_question_dump ql Hq).
  by destruct lim.
Qed.

Definition sample_question : GeneratedQuestion.t :=
  GeneratedQuestion.Make "q1" "true_false" "Is 2 even?"
    (Some ["True"; "False"]) (GeneratedQuestion.One "True") "2 = 2 * 1" 3
    "Parity" 1.

Lemma test_dump_roundtrip_witness :
  GeneratedTest.from_kwargs
    (GeneratedTest.model_dump
       (GeneratedTest.Make "Mathematics: Parity Test" "Mathematics" ["Parity"]
          [sample_question] (Some 5) 80))
  = Return (GeneratedTest.Make "Mathematics: Parity Test" "Mathematics"
              ["Parity"] [sample_question] (Some 5) 80).
Proof.
  apply (test_dump_roundtrip
           (GeneratedTest.Make "Mathematics: Parity Test" "Mathematics"
              ["Parity"] [sample_question] (Some 5) 80)).
  repeat constructor; [|simpl; lia..].
  apply (bool_decide_unpack _). vm_compute. exact I.
Defined.

End generated_test_facts.

(** ** [app/routes/tests.py] *)

Module TestRoutes.

(** [HTTPException(status_code=.., detail={"error": .., "message": ..})] *)
Record http_exception := HTTPException {
  status_code : Z;
  error : string;
  message : string
}.

(** [isinstance(e, ValueError)]: JSONDecodeError and pydantic's
    ValidationError derive from ValueError. *)
Definition is_ValueError (e : exn) : bool :=
  match e with
  | ValueError _ | JSONDecodeError | ValidationError _ => true
  | _ => false
  end.

Section with_externals.
Context `{Externals} (openai_client : OpenAIClient.t).

(** [str(e)], outside the modelled code. *)
Context (str_exn : exn -> string).

(** The route [POST /tests/generate]: the test, or the HTTPException the
    handlers raise in its place. *)
Definition generate_test (service : TestGenerationService.t)
    (request : TestGenerationRequest.t)
    : M (GeneratedTest.t + http_exception) :=
  r ← try_ (TestGenerationService.generate_test openai_client service request);
  match r with
  | Return test => mret (inl test)
  | Raise e =>
      if is_ValueError e then
        mret (inr (HTTPException 400 "VALIDATION_ERROR" (str_exn e)))
      else if isinstance e cException then
        mret (inr (HTTPException 503 "AI_SERVICE_ERROR"
                     "Failed to generate test"))
      else raise e
  end.

End with_externals.

End TestRoutes.

Section test_route_facts.
Context `{Externals} (openai_client : OpenAIClient.t).
Import TestGenerationService.

(** On a miss [generate_test] raises one of three errors and leaves the
    world as it was. *)
Lemma generate_test_miss_outcome (self : t) (request : TestGenerationRequest.t)
    (w : world) (cached : option json) :
  RedisClient.get (_get_cache_key request) w = (Return cached, w) ->
  truthy_opt cached = false ->
  exists e,
    generate_test openai_client self request w = (Raise e, w)
    /\ (e = ZeroDivisionError \/ e = no_chat_completion \/ e = unexpected_ex).
Proof.
  intros Hget Hmiss.
  unfold generate_test. unfold mbind at 1, M_bind at 1.
  rewrite Hget, Hmiss. unfold _generate_questions.
  unfold mbind at 1, M_bind at 1. unfold mbind at 1, M_bind at 1.
  unfold lift at 1.
  destruct (Distribution._distribute_questions _ _) as [d|e0] eqn:Hd.
  - rewrite generate_each_outcome.
    destruct (some_positive d) eqn:Hpos.
    + exists no_chat_completion. auto.
    + exists unexpected_ex. split; [|auto].
      unfold mbind, M_bind. by rewrite write_through_raises.
  - exists e0. split; [done|]. left.
    unfold Distribution._distribute_questions in Hd.
    destruct (_ =? 0); congruence.
Qed.

(** X19.  On a cache miss the route [POST /tests/generate] always answers
    with the HTTPException 503 "AI_SERVICE_ERROR", never with a test and
    never with a 400, and makes no endpoint call. *)
Theorem generate_test_route_unavailable (str_exn : exn -> string)
    (self : t) (request : TestGenerationRequest.t) (w : world)
    (cached : option json) :
  RedisClient.get (_get_cache_key request) w = (Return cached, w) ->
  truthy_opt cached = false ->
  TestRoutes.generate_test openai_client str_exn self request w
  = (Return (inr (TestRoutes.HTTPException 503 "AI_SERVICE_ERROR"
                    "Failed to generate test")), w).
Proof.
  intros Hget Hmiss.
  destruct (generate_test_miss_outcome self request w cached Hget Hmiss)
    as (e & He & Hcases).
  unfold TestRoutes.generate_test. unfold_monad. rewrite He.
  by destruct Hcases as [-> | [-> | ->]].
Qed.

End test_route_facts.

Lemma generate_test_route_unavailable_witness :
  TestRoutes.generate_test (H := Stub.externals []) OpenAIClient.from_settings
    (fun _ => "") TestGenerationService.new
    (TestGenerationRequest.Make "Mathematics" ["Sets"] 5 10
       ["multiple_choice"] None)
    (live_world ∅)
  = (Return (inr (TestRoutes.HTTPException 503 "AI_SERVICE_ERROR"
                    "Failed to generate test")), live_world ∅).
Proof.
  apply (generate_test_route_unavailable (H := Stub.externals [])
           OpenAIClient.from_settings (fun _ => "") TestGenerationService.new
           (TestGenerationRequest.Make "Mathematics" ["Sets"] 5 10
              ["multiple_choice"] None)
           (live_world ∅) None).
  - reflexivity.
  - reflexivity.
Defined.

(** ** More on cache invalidation *)

Module InvalidateAll.

(** [redis_client.redis] inside the [try], evaluated anew for each
    command. *)
Definition current_redis : M redis_conn :=
  r ← self_redis;
  match r with
  | Some conn => mret conn
  | None => raise (AttributeError "NoneType" "keys")
  end.

(** The loop [for pattern in patterns] of [invalidate_all]. *)
Fixpoint delete_patterns (patterns : list string) (total_deleted : Z) : M Z :=
  match patterns with
  | [] => mret total_deleted
  | pattern :: rest =>
      conn ← current_redis;
      keys ← redis_KEYS conn pattern;
      match keys with
      | _ :: _ =>
          conn ← current_redis;
          deleted ← redis_DEL conn keys;
          delete_patterns rest (total_deleted + deleted)
      | [] => delete_patterns rest total_deleted
      end
  end.

Definition patterns : list string :=
  ["explanation:*"; "test:*"; "learning_plan:*"].

(** [CacheInvalidationService.invalidate_all] *)
Definition invalidate_all : M Z :=
  redis ← self_redis;
  match redis with
  | None => mret 0
  | Some _ =>
      r ← try_ (delete_patterns patterns 0);
      match r with
      | Return total_deleted => mret total_deleted
      | Raise e => if isinstance e cException then mret 0 else raise e
      end
  end.

End InvalidateAll.

Section invalidation_more_facts.
Import CacheInvalidationService.

(** The keys of [data] that [pattern] matches. *)
Definition matching (pattern : string) (data : gmap string (Z * string))
    : list string :=
  filter (fun k => key_match pattern k = true) (map fst (map_to_list data)).

Lemma elem_of_matching pattern data k :
  k ∈ matching pattern data
  <-> key_match pattern k = true /\ is_Some (data !! k).
Proof.
  unfold matching. rewrite list_elem_of_filter, list_elem_of_fmap.
  split.
  - intros [Hm ([k' v] & -> & Hin)]. split; [done|].
    apply elem_of_map_to_list in Hin. by exists v.
  - intros [Hm [v Hv]]. split; [done|]. exists (k, v). split; [done|].
    by apply elem_of_map_to_list.
Qed.

Lemma NoDup_matching pattern data : NoDup (matching pattern data).
Proof. apply NoDup_filter, NoDup_fst_map_to_list. Qed.

Lemma remove_dups_NoDup_id {A} `{EqDecision A} (l : list A) :
  NoDup l -> remove_dups l = l.
Proof.
  induction 1 as [|x l Hx Hl IH]; simpl; [done|].
  destruct (decide_rel elem_of x l); [done|]. by rewrite IH.
Qed.

Lemma filter_all {A} (P : A -> Prop) `{!forall x, Decision (P x)} (l : list A) :
  Forall P l -> filter P l = l.
Proof.
  induction 1 as [|x l Hx Hl IH]; [done|].
  rewrite filter_cons. destruct (decide (P x)); [by rewrite IH | done].
Qed.

Lemma lookup_foldr_delete_in (data : gmap string (Z * string)) keys k :
  k ∈ keys -> foldr delete data keys !! k = None.
Proof.
  induction keys as [|k' keys IH]; simpl; [by intros ?%elem_of_nil|].
  destruct (decide (k' = k)) as [->|Hne].
  - intros _. apply lookup_delete_eq.
  - intros [?|Hin]%elem_of_cons; [congruence|].
    rewrite lookup_delete_ne by done. by apply IH.
Qed.

(** The store after the keys matched by [pattern] are deleted. *)
Definition without (pattern : string) (data : gmap string (Z * string))
    : gmap string (Z * string) :=
  foldr delete data (matching pattern data).

Lemma lookup_without pattern data k :
  without pattern data !! k
  = if key_match pattern k then None else data !! k.
Proof.
  unfold without. destruct (key_match pattern k) eqn:Hm.
  - destruct (data !! k) as [v|] eqn:Hk.
    + apply lookup_foldr_delete_in, elem_of_matching. eauto.
    + rewrite lookup_foldr_delete_other; [done|].
      intros [_ [v Hv]]%elem_of_matching. congruence.
  - apply lookup_foldr_delete_other.
    intros [Hm' _]%elem_of_matching. congruence.
Qed.

(** Invalidation by pattern on a live store: the matched keys are
    deleted and counted. *)
Lemma invalidate_pattern_live pattern (w : world) data :
  redis w = Some (Live data) ->
  exists data',
    invalidate_pattern pattern w
    = (Return (Z.of_nat (length (matching pattern data))),
       World (Some (Live data')) (endpoint w) (endpoint_calls w) (sleeps w)
         (uuid_calls w))
    /\ forall k, data' !! k
                 = if key_match pattern k then None else data !! k.
Proof.
  intros Hr. unfold invalidate_pattern. unfold_monad. simpl.
  rewrite Hr. simpl. unfold_monad. simpl. fold (matching pattern data).
  destruct (matching pattern data) as [|k0 keys] eqn:Hkeys.
  - exists data. split; [by destruct w; simpl in *; subst|].
    intros k. destruct (key_match pattern k) eqn:Hm; [|done].
    destruct (data !! k) as [v|] eqn:Hk; [|done].
    assert (Hin : k ∈ matching pattern data)
      by (apply elem_of_matching; eauto).
    rewrite Hkeys in Hin. by apply elem_of_nil in Hin.
  - unfold redis_DEL. unfold_monad. simpl.
    exists (without pattern data). split; [|apply lookup_without].
    unfold without. rewrite Hkeys.
    pose proof (NoDup_matching pattern data) as Hnd. rewrite Hkeys in Hnd.
    change (if decide_rel elem_of k0 keys
            then remove_dups keys else k0 :: remove_dups keys)
      with (remove_dups (k0 :: keys)).
    rewrite (remove_dups_NoDup_id _ Hnd), filter_all; [done|].
    apply Forall_forall. intros k Hk. rewrite <- Hkeys in Hk.
    by apply elem_of_matching in Hk as [_ ?].
Qed.

End invalidation_more_facts.

Section invalidation_more_theorems.
Import CacheInvalidationService.

Lemma startswith_nil k : startswith k "" = true.
Proof. by destruct k. Qed.

Lemma matches_star k : Glob.matches [Glob.Star] k = true.
Proof. induction k as [|c k IH]; [done|]. simpl in *. exact IH. Qed.

Lemma matches_lits_star p : forall k,
  Glob.matches (lits p ++ [Glob.Star]) k = startswith k p.
Proof.
  induction p as [|c p IH]; intros k.
  - rewrite startswith_nil. apply matches_star.
  - destruct k as [|x k]; [done|].
    cbn [lits app Glob.matches]. rewrite IH, startswith_cons, Ascii.eqb_sym.
    by destruct (Ascii.eqb c x).
Qed.

(** A pattern [p*] with [p] made of plain characters matches exactly the
    keys that start with [p]. *)
Lemma glob_star_is_prefix p k :
  all_chars plain p = true ->
  Glob.glob_match (p +:+ "*") k = startswith k p.
Proof.
  intros Hp. unfold Glob.glob_match. rewrite (parse_plain_app _ _ Hp).
  apply matches_lits_star.
Qed.

(** The server finds under [p*], for [p] made of plain characters,
    exactly the keys that start with [p]. *)
Lemma key_star_is_prefix p k :
  all_chars plain p = true ->
  key_match (p +:+ "*") k = startswith k p.
Proof.
  intros Hp. unfold key_match. rewrite encode_app.
  change (encode "*") with "*".
  rewrite (glob_star_is_prefix _ _ (encode_plain p Hp)).
  apply startswith_encode.
Qed.

(** X20.  On a live store, for a student identifier without the pattern
    characters [*], [?], [[] and backslash, [invalidate_learning_plans]
    deletes every key under the student's prefix and nothing else, and
    returns the number of keys it deleted. *)
Theorem invalidate_learning_plans_complete (student_id : string) (w : world)
    data :
  redis w = Some (Live data) ->
  all_chars plain student_id = true ->
  let prefix := "learning_plan:" +:+ student_id +:+ ":" in
  exists w',
    invalidate_learning_plans student_id w
    = (Return (Z.of_nat
                 (length (filter (fun k => startswith k prefix = true)
                            (map fst (map_to_list data))))), w')
    /\ forall k, cached w' k
                 = if startswith k prefix then None else cached w k.
Proof.
  intros Hr Hplain prefix.
  assert (Hpat : forall k,
            key_match ("learning_plan:" +:+ student_id +:+ ":*") k
            = startswith k prefix).
  { intros k. unfold prefix.
    change ("learning_plan:" +:+ student_id +:+ ":*")
      with ("learning_plan:" +:+ student_id +:+ ":" +:+ "*").
    rewrite <- (append_assoc student_id), <- (append_assoc "learning_plan:").
    rewrite key_star_is_prefix; [done|].
    by rewrite !all_chars_app, Hplain. }
  destruct (invalidate_pattern_live
              ("learning_plan:" +:+ student_id +:+ ":*") w data Hr)
    as (data' & Hrun & Hlook).
  eexists. split.
  - unfold invalidate_learning_plans. rewrite Hrun. f_equal. f_equal. f_equal.
    f_equal. unfold matching. apply list_filter_iff. intros k.
    by rewrite Hpat.
  - intros k. unfold cached; simpl. rewrite Hr, Hlook. by rewrite Hpat.
Qed.

(** X21.  With the store unavailable every invalidation returns 0,
    raises nothing, and leaves the world as it was. *)
Theorem invalidation_unavailable (w : world) (topic subject student_id : string)
    (test_subject : option string) :
  unavailable w ->
  invalidate_explanation topic subject w = (Return 0, w)
  /\ invalidate_test_templates test_subject w = (Return 0, w)
  /\ invalidate_learning_plans student_id w = (Return 0, w)
  /\ InvalidateAll.invalidate_all w = (Return 0, w).
Proof.
  intros Hun.
  assert (Hpat : forall pattern, invalidate_pattern pattern w = (Return 0, w)).
  { intros pattern. unfold invalidate_pattern.
    destruct Hun as [Hr | [e Hr]]; unfold_monad; simpl; rewrite Hr; simpl;
      unfold_monad; simpl; rewrite ?isinstance_Exception; done. }
  repeat split; try apply Hpat.
  unfold InvalidateAll.invalidate_all, InvalidateAll.patterns.
  destruct Hun as [Hr | [e Hr]]; unfold_monad; simpl; rewrite Hr; simpl;
    [done|].
  unfold InvalidateAll.current_redis. unfold_monad. simpl. rewrite Hr. simpl.
  by rewrite ?isinstance_Exception.
Qed.

(** The loop of [invalidate_all] on a live store deletes the matches of
    each pattern in turn. *)
Lemma delete_patterns_live patterns : forall total (w : world) data,
  redis w = Some (Live data) ->
  exists n,
    InvalidateAll.delete_patterns patterns total w
    = (Return n,
       World (Some (Live (fold_left (fun d p => without p d) patterns data)))
         (endpoint w) (endpoint_calls w) (sleeps w) (uuid_calls w)).
Proof.
  induction patterns as [|pattern rest IH]; intros total w data Hr.
  - exists total. simpl. unfold_monad. destruct w; simpl in *. by subst.
  - cbn [InvalidateAll.delete_patterns fold_left].
    unfold InvalidateAll.current_redis. unfold_monad. simpl.
    rewrite Hr. simpl.
    assert (Hw : without pattern data
                 = foldr delete data
                     (filter (fun k => key_match pattern k = true)
                        (map fst (map_to_list data)))) by done.
    rewrite Hw.
    destruct (filter _ (map fst (map_to_list data))) as [|k0 keys].
    + destruct (IH total w data Hr) as [n Hn]. exists n. by rewrite Hn.
    + rewrite Hr. unfold redis_DEL. unfold_monad. simpl.
      match goal with
      | |- context [InvalidateAll.delete_patterns rest ?t ?w1] =>
          destruct (IH t w1 (delete k0 (foldr delete data keys)) eq_refl)
            as [n Hn]
      end.
      exists n. by rewrite Hn.
Qed.

(** X22.  On a live store [invalidate_all] deletes every key that starts
    with [explanation:], [test:] or [learning_plan:] and leaves every
    other key, such as the conversation contexts, as it was. *)
Theorem invalidate_all_scope (w : world) data :
  redis w = Some (Live data) ->
  exists n w',
    InvalidateAll.invalidate_all w = (Return n, w')
    /\ forall k, cached w' k
                 = if startswith k "explanation:" || startswith k "test:"
                      || startswith k "learning_plan:"
                   then None else cached w k.
Proof.
  intros Hr.
  destruct (delete_patterns_live InvalidateAll.patterns 0 w data Hr) as [n Hn].
  exists n. eexists. split.
  - unfold InvalidateAll.invalidate_all.
    unfold mbind at 1, M_bind at 1, self_redis. rewrite Hr.
    unfold mbind at 1, M_bind at 1, try_. by rewrite Hn.
  - intros k. unfold cached; simpl. rewrite Hr.
    rewrite !lookup_without.
    assert (H1 : key_match "explanation:*" k = startswith k "explanation:")
      by apply (key_star_is_prefix "explanation:" k eq_refl).
    assert (H2 : key_match "test:*" k = startswith k "test:")
      by apply (key_star_is_prefix "test:" k eq_refl).
    assert (H3 : key_match "learning_plan:*" k
                 = startswith k "learning_plan:")
      by apply (key_star_is_prefix "learning_plan:" k eq_refl).
    rewrite H1, H2, H3.
    by destruct (startswith k "explanation:"), (startswith k "test:"),
      (startswith k "learning_plan:").
Qed.

End invalidation_more_theorems.

Lemma invalidate_learning_plans_complete_witness :
  exists w',
    CacheInvalidationService.invalidate_learning_plans "bob"
      (live_world {[ "learning_plan:bob:math:general:7" := (86400, "{}") ]})
    = (Return (Z.of_nat
                 (length (filter (fun k => startswith k "learning_plan:bob:" = true)
                            (map fst (map_to_list
                               ({[ "learning_plan:bob:math:general:7"
                                   := (86400, "{}") ]}
                                : gmap string (Z * string))))))), w')
    /\ forall k, cached w' k
                 = if startswith k "learning_plan:bob:" then None
                   else cached
                          (live_world
                             {[ "learning_plan:bob:math:general:7"
                                := (86400, "{}") ]}) k.
Proof.
  apply (invalidate_learning_plans_complete "bob"
           (live_world {[ "learning_plan:bob:math:general:7" := (86400, "{}") ]})
           {[ "learning_plan:bob:math:general:7" := (86400, "{}") ]}).
  - reflexivity.
  - reflexivity.
Defined.

Lemma invalidation_unavailable_witness :
  CacheInvalidationService.invalidate_explanation "Sets" "Mathematics"
    (always_raising RateLimitError) = (Return 0, always_raising RateLimitError)
  /\ CacheInvalidationService.invalidate_test_templates (Some "Mathematics")
       (always_raising RateLimitError)
     = (Return 0, always_raising RateLimitError)
  /\ CacheInvalidationService.invalidate_learning_plans "bob"
       (always_raising RateLimitError)
     = (Return 0, always_raising RateLimitError)
  /\ InvalidateAll.invalidate_all (always_raising RateLimitError)
     = (Return 0, always_raising RateLimitError).
Proof.
  apply (invalidation_unavailable (always_raising RateLimitError)
           "Sets" "Mathematics" "bob" (Some "Mathematics")).
  left. reflexivity.
Defined.

Lemma invalidate_all_scope_witness :
  exists n w',
    InvalidateAll.invalidate_all
      (live_world {[ "conversation:u:c" := (3600, "{}") ]}) = (Return n, w')
    /\ forall k, cached w' k
                 = if startswith k "explanation:" || startswith k "test:"
                      || startswith k "learning_plan:"
                   then None
                   else cached
                          (live_world {[ "conversation:u:c" := (3600, "{}") ]})
                          k.
Proof.
  apply (invalidate_all_scope
           (live_world {[ "conversation:u:c" := (3600, "{}") ]})
           {[ "conversation:u:c" := (3600, "{}") ]}).
  reflexivity.
Defined.

(** ** [app/services/context_manager.py] *)

(** [l[start:]] for an [int] start. *)
Definition slice_from {A} (start : Z) (l : list A) : list A :=
  let len := Z.of_nat (length l) in
  let s := if start <? 0 then Z.max (start + len) 0 else Z.min start len in
  drop (Z.to_nat s) l.

Module ConversationContext.

(** The attributes set by [__init__]; the defaults are 10 and 3600. *)
Record t := Make { max_messages : Z; ttl : Z }.

Definition new : t := Make 10 3600.

Definition _get_context_key (user_id conversation_id : string) : string :=
  "conversation:" +:+ user_id +:+ ":" +:+ conversation_id.

(** [context.get("messages", [])] *)
Definition get_messages (context : json) : result json :=
  match context with
  | JDict d => Return (default (JList []) (dict_get "messages" d))
  | _ => Raise (AttributeError "object" "get")
  end.

(** [messages.append(message)] *)
Definition append_message (messages message : json) : result (list json) :=
  match messages with
  | JList l => Return (l ++ [message])
  | _ => Raise (AttributeError "object" "append")
  end.

(** [context[key] = value] *)
Definition set_item (context : json) (key : string) (value : json)
    : result json :=
  match context with
  | JDict d => Return (JDict (dict_set key value d))
  | _ => Raise (TypeError "object does not support item assignment")
  end.

(** The dictionary [message]; [metadata or {}] is the empty dictionary
    for [None]. *)
Definition new_message (role content timestamp : string)
    (metadata : option (list (string * json))) : json :=
  JDict [("role", JStr role); ("content", JStr content);
         ("timestamp", JStr timestamp);
         ("metadata", JDict (default [] metadata))].

(** Lines 75-92 of [add_message]: the context that is written back.
    [timestamp] and [updated_at] are the two readings of
    [datetime.utcnow().isoformat()]. *)
Definition updated_context (self : t) (context : json)
    (role content : string) (metadata : option (list (string * json)))
    (timestamp updated_at : string) : result json :=
  messages ← get_messages context;
  let message := new_message role content timestamp metadata in
  messages ← append_message messages message;
  let messages :=
    if max_messages self <? Z.of_nat (length messages)
    then slice_from (- max_messages self) messages
    else messages in
  context ← set_item context "messages" (JList messages);
  set_item context "updated_at" (JStr updated_at).

(** [cached or {"messages": []}] of line 74. *)
Definition or_default (got : option json) : json :=
  match got with
  | Some c => if truthy c then c else JDict [("messages", JList [])]
  | None => JDict [("messages", JList [])]
  end.

Section with_externals.
Context `{Externals}.

Definition get_context (self : t) (user_id conversation_id : string) : M json :=
  let key := _get_context_key user_id conversation_id in
  context ← RedisClient.get key;
  match context with
  | Some c => if truthy c then lift (get_messages c) else mret (JList [])
  | None => mret (JList [])
  end.

Definition add_message (self : t) (user_id conversation_id role content : string)
    (metadata : option (list (string * json)))
    (timestamp updated_at : string) : M unit :=
  let key := _get_context_key user_id conversation_id in
  got ← RedisClient.get key;
  let context := or_default got in
  context ← lift (updated_context self context role content metadata
                    timestamp updated_at);
  _ ← RedisClient.set key context (Some (ttl self));
  mret tt.

Definition clear_context (self : t) (user_id conversation_id : string) : M unit :=
  let key := _get_context_key user_id conversation_id in
  _ ← RedisClient.delete key;
  mret tt.

End with_externals.

End ConversationContext.

Section context_facts.
Context `{Externals}.
Import ConversationContext.

Lemma dict_get_set_eq {V} k (v : V) (d : dict V) :
  dict_get k (dict_set k v d) = Some v.
Proof.
  induction d as [|[k' v'] d IH]; simpl.
  - by rewrite String.eqb_refl.
  - destruct (String.eqb k' k) eqn:E; simpl; rewrite E; [done|exact IH].
Qed.

Lemma dict_get_set_ne {V} k k' (v : V) (d : dict V) :
  k <> k' -> dict_get k (dict_set k' v d) = dict_get k d.
Proof.
  intros Hne. induction d as [|[k0 v0] d IH]; simpl.
  - destruct (String.eqb_spec k' k); [congruence|done].
  - destruct (String.eqb_spec k0 k') as [->|Hne0]; simpl.
    + destruct (String.eqb_spec k' k); [congruence|done].
    + destruct (String.eqb k0 k); [done|exact IH].
Qed.

Lemma slice_from_last {A} (n : Z) (l : list A) :
  1 <= n -> n < Z.of_nat (length l) ->
  slice_from (- n) l = drop (length l - Z.to_nat n) l.
Proof.
  intros Hn Hlen. unfold slice_from.
  assert (Hneg : (- n <? 0) = true) by lia. rewrite Hneg. f_equal. lia.
Qed.

(** The messages stored in a context. *)
Definition stored_messages (context : json) : option (list json) :=
  match context with
  | JDict d =>
      match dict_get "messages" d with
      | Some (JList l) => Some l
      | _ => None
      end
  | _ => None
  end.

(** What [updated_context] computes on a mapping whose [messages] entry
    is a list or is missing. *)
Lemma updated_context_messages (self : t) (d : list (string * json))
    (l : list json) role content metadata timestamp updated_at :
  default (JList []) (dict_get "messages" d) = JList l ->
  let all := l ++ [new_message role content timestamp metadata] in
  exists d',
    updated_context self (JDict d) role content metadata timestamp updated_at
    = Return (JDict d')
    /\ dict_get "messages" d'
       = Some (JList (if max_messages self <? Z.of_nat (length all)
                      then slice_from (- max_messages self) all else all))
    /\ dict_get "updated_at" d' = Some (JStr updated_at).
Proof.
  intros Hl all. unfold updated_context. simpl. rewrite Hl. simpl.
  eexists. split; [done|]. split.
  - rewrite dict_get_set_ne by done. apply dict_get_set_eq.
  - apply dict_get_set_eq.
Qed.

(** X23.  With [max_messages >= 1], the messages that [add_message]
    writes back never exceed [max_messages]: they are the last
    [max_messages] of the old messages followed by the new one, so the new
    message is always kept and the oldest are dropped first. *)
Theorem updated_context_bounded (self : t) (d : list (string * json))
    (l : list json) role content metadata timestamp updated_at :
  1 <= max_messages self ->
  default (JList []) (dict_get "messages" d) = JList l ->
  exists c' ms,
    updated_context self (JDict d) role content metadata timestamp updated_at
    = Return c'
    /\ stored_messages c' = Some ms
    /\ Z.of_nat (length ms) <= max_messages self
    /\ ms `suffix_of` (l ++ [new_message role content timestamp metadata])
    /\ last ms = Some (new_message role content timestamp metadata)
    /\ length ms
       = Nat.min (S (length l)) (Z.to_nat (max_messages self)).
Proof.
  intros Hmax Hl.
  destruct (updated_context_messages self d l role content metadata timestamp
              updated_at Hl) as (d' & Hrun & Hms & _).
  set (m := new_message role content timestamp metadata) in *.
  eexists _, _. split; [exact Hrun|]. unfold stored_messages. rewrite Hms.
  split; [done|].
  assert (Hlen : length (l ++ [m]) = S (length l))
    by (rewrite length_app; simpl; lia).
  destruct (Z.ltb_spec (max_messages self) (Z.of_nat (length (l ++ [m])))).
  - rewrite slice_from_last by lia. rewrite length_drop.
    split; [lia|]. split; [apply suffix_drop|]. split; [|lia].
    rewrite Hlen. replace (S (length l) - Z.to_nat (max_messages self))%nat
      with (length l - (Z.to_nat (max_messages self) - 1))%nat by lia.
    rewrite drop_app_le by lia. by rewrite last_snoc.
  - split; [lia|]. split; [done|]. split; [by rewrite last_snoc | lia].
Qed.

(** X24.  With [max_messages = 0] nothing is ever dropped: the slice
    [messages[-0:]] is the whole list, so the history grows without
    bound. *)
Theorem updated_context_unbounded (self : t) (d : list (string * json))
    (l : list json) role content metadata timestamp updated_at :
  max_messages self = 0 ->
  default (JList []) (dict_get "messages" d) = JList l ->
  exists c',
    updated_context self (JDict d) role content metadata timestamp updated_at
    = Return c'
    /\ stored_messages c'
       = Some (l ++ [new_message role content timestamp metadata]).
Proof.
  intros Hmax Hl.
  destruct (updated_context_messages self d l role content metadata timestamp
              updated_at Hl) as (d' & Hrun & Hms & _).
  eexists. split; [exact Hrun|]. unfold stored_messages.
  rewrite Hmax in Hms. rewrite Hms.
  destruct (0 <? _); [|reflexivity]. unfold slice_from.
  change (- 0 <? 0) with false. cbv beta iota zeta.
  by rewrite Z.min_l by lia.
Qed.

(** X25.  On a live store, when the manager's time to live is one the
    server accepts (positive, at most [LLONG_MAX / 1000] seconds),
    [add_message] writes the updated context under the conversation key
    with that time to live, and a following [get_context] returns exactly
    the messages it wrote, provided the encoding of the context is
    non-empty and decodes back to it.  With any other time to live the
    write is refused and [add_message] still returns normally: the
    message is dropped and the store is as before. *)
Theorem add_message_then_get_context (self : t) (w : world) data
    (user_id conversation_id role content : string) metadata
    (timestamp updated_at : string) got c' ms :
  let key := _get_context_key user_id conversation_id in
  redis w = Some (Live data) ->
  RedisClient.get key w = (Return got, w) ->
  updated_context self (or_default got) role content metadata timestamp
    updated_at = Return c' ->
  stored_messages c' = Some ms ->
  json_dumps false c' <> "" ->
  json_loads (json_dumps false c') = Return c' ->
  (0 < ttl self <= 9223372036854775 ->
   exists w',
     add_message self user_id conversation_id role content metadata timestamp
       updated_at w = (Return tt, w')
     /\ cached w' key = Some (ttl self, json_dumps false c')
     /\ (forall k, k <> key -> cached w' k = cached w k)
     /\ get_context self user_id conversation_id w' = (Return (JList ms), w'))
  /\ (~ 0 < ttl self <= 9223372036854775 ->
      add_message self user_id conversation_id role content metadata timestamp
        updated_at w = (Return tt, w)).
Proof.
  intros key Hr Hget Hup Hms Hne Hrt.
  assert (Hrun : forall b w',
            RedisClient.set key c' (Some (ttl self)) w = (Return b, w') ->
            add_message self user_id conversation_id role content metadata
              timestamp updated_at w = (Return tt, w')).
  { intros b w' Hset.
    unfold add_message. fold key. unfold mbind at 1, M_bind at 1.
    rewrite Hget. cbv beta iota zeta. rewrite Hup.
    unfold lift. unfold mbind at 1, M_bind at 1. cbv beta iota.
    unfold mbind at 1, M_bind at 1. rewrite Hset. reflexivity. }
  split.
  - intros Hok%expire_time_ok_spec.
    eexists. split; [|split; [|split]].
    + eapply Hrun. by apply (set_live w key c' (Some (ttl self)) data Hr).
    + unfold cached; simpl. apply lookup_insert_eq.
    + intros k Hk. unfold cached; simpl. rewrite Hr.
      by apply lookup_insert_ne.
    + unfold get_context. fold key. unfold mbind at 1, M_bind at 1.
      erewrite get_live_hit; [|reflexivity|apply lookup_insert_eq|exact Hne
                              |exact Hrt].
      cbv beta iota. unfold stored_messages in Hms.
      destruct c' as [| | | | |d']; try discriminate.
      destruct (dict_get "messages" d') as [[| | | |l|]|] eqn:Hd;
        try discriminate.
      injection Hms as <-.
      destruct d' as [|p d']; [discriminate|].
      cbn [truthy]. unfold lift, get_messages. by rewrite Hd.
  - intros Hbad. eapply Hrun.
    eapply (set_refused w key c' (Some (ttl self)) data Hr).
    destruct (expire_time_ok _) eqn:E; [|done].
    by apply expire_time_ok_spec in E.
Qed.

(** X26.  On a live store, after [clear_context] the conversation has no
    messages: [get_context] returns the empty list, and the entries of
    other conversations are left as they were. *)
Theorem clear_context_then_get_context (self : t) (w : world) data
    (user_id conversation_id : string) :
  let key := _get_context_key user_id conversation_id in
  redis w = Some (Live data) ->
  exists w',
    clear_context self user_id conversation_id w = (Return tt, w')
    /\ get_context self user_id conversation_id w' = (Return (JList []), w')
    /\ (forall k, k <> key -> cached w' k = cached w k).
Proof.
  intros key Hr. eexists. split; [|split].
  - unfold clear_context, RedisClient.delete. fold key. unfold_monad. simpl.
    rewrite Hr. simpl. unfold redis_DEL. unfold_monad. simpl. reflexivity.
  - unfold get_context. fold key. unfold mbind at 1, M_bind at 1.
    erewrite get_live_miss; [|reflexivity|apply lookup_delete_eq].
    reflexivity.
  - intros k Hk. unfold cached; simpl. rewrite Hr.
    by apply lookup_delete_ne.
Qed.

(** X27.  When the store is unavailable the conversation is silently
    lost: [add_message] returns without raising and changes nothing, and
    [get_context] returns the empty list. *)
Theorem context_lost_when_unavailable (self : t) (w : world)
    (user_id conversation_id role content : string) metadata
    (timestamp updated_at : string) :
  unavailable w ->
  add_message self user_id conversation_id role content metadata timestamp
    updated_at w = (Return tt, w)
  /\ get_context self user_id conversation_id w = (Return (JList []), w).
Proof.
  intros Hu. split.
  - unfold add_message. unfold mbind at 1, M_bind at 1.
    rewrite (get_unavailable _ w Hu). cbv beta iota zeta.
    unfold or_default, updated_context. simpl.
    unfold lift. unfold mbind at 1, M_bind at 1. cbv beta iota.
    unfold mbind at 1, M_bind at 1.
    rewrite (set_unavailable _ _ _ w Hu). reflexivity.
  - unfold get_context. unfold mbind at 1, M_bind at 1.
    rewrite (get_unavailable _ w Hu). reflexivity.
Qed.

End context_facts.

(** A manager keeping two messages, and a context already holding two. *)
Definition small_context : ConversationContext.t :=
  ConversationContext.Make 2 3600.

Definition two_messages : list (string * json) :=
  [("messages", JList [JStr "first"; JStr "second"])].

(** The context written for the first message of a conversation. *)
Definition first_context : json :=
  JDict [("messages",
          JList [ConversationContext.new_message "user" "hello" "t0" None]);
         ("updated_at", JStr "t1")].

Lemma updated_context_bounded_witness :
  exists c' ms,
    ConversationContext.updated_context small_context (JDict two_messages)
      "user" "hello" None "t0" "t1" = Return c'
    /\ stored_messages c' = Some ms
    /\ Z.of_nat (length ms) <= 2
    /\ ms `suffix_of`
         ([JStr "first"; JStr "second"]
            ++ [ConversationContext.new_message "user" "hello" "t0" None])
    /\ last ms = Some (ConversationContext.new_message "user" "hello" "t0" None)
    /\ length ms = Nat.min 3 2.
Proof.
  apply (updated_context_bounded small_context two_messages
           [JStr "first"; JStr "second"] "user" "hello" None "t0" "t1").
  - simpl. lia.
  - reflexivity.
Defined.

Lemma updated_context_unbounded_witness :
  exists c',
    ConversationContext.updated_context (ConversationContext.Make 0 3600)
      (JDict two_messages) "user" "hello" None "t0" "t1" = Return c'
    /\ stored_messages c'
       = Some ([JStr "first"; JStr "second"]
                 ++ [ConversationContext.new_message "user" "hello" "t0" None]).
Proof.
  apply (updated_context_unbounded (ConversationContext.Make 0 3600)
           two_messages [JStr "first"; JStr "second"] "user" "hello" None
           "t0" "t1").
  - reflexivity.
  - reflexivity.
Defined.

Lemma add_message_then_get_context_witness :
  (exists w',
     ConversationContext.add_message (H := Stub.externals [first_context])
       ConversationContext.new "ann" "c1" "user" "hello" None "t0" "t1"
       (live_world ∅) = (Return tt, w')
     /\ cached w' (ConversationContext._get_context_key "ann" "c1")
        = Some (3600,
                json_dumps (Externals := Stub.externals [first_context]) false
                  first_context)
     /\ (forall k, k <> ConversationContext._get_context_key "ann" "c1" ->
                   cached w' k = cached (live_world ∅) k)
     /\ ConversationContext.get_context (H := Stub.externals [first_context])
          ConversationContext.new "ann" "c1" w'
        = (Return
             (JList [ConversationContext.new_message "user" "hello" "t0" None]),
           w'))
  /\ ConversationContext.add_message (H := Stub.externals [first_context])
       (ConversationContext.Make 10 0) "ann" "c1" "user" "hello" None "t0" "t1"
       (live_world ∅) = (Return tt, live_world ∅).
Proof.
  split.
  - apply (add_message_then_get_context (H := Stub.externals [first_context])
             ConversationContext.new (live_world ∅) ∅ "ann" "c1" "user"
             "hello" None "t0" "t1" None first_context
             [ConversationContext.new_message "user" "hello" "t0" None]).
    + reflexivity.
    + reflexivity.
    + reflexivity.
    + reflexivity.
    + vm_compute. discriminate.
    + vm_compute. reflexivity.
    + simpl. lia.
  - apply (add_message_then_get_context (H := Stub.externals [first_context])
             (ConversationContext.Make 10 0) (live_world ∅) ∅ "ann" "c1"
             "user" "hello" None "t0" "t1" None first_context
             [ConversationContext.new_message "user" "hello" "t0" None]).
    + reflexivity.
    + reflexivity.
    + reflexivity.
    + reflexivity.
    + vm_compute. discriminate.
    + vm_compute. reflexivity.
    + simpl. lia.
Defined.

Lemma clear_context_then_get_context_witness :
  exists w',
    ConversationContext.clear_context ConversationContext.new "ann" "c1"
      (live_world {[ "conversation:ann:c1" := (3600, "{}") ]})
    = (Return tt, w')
    /\ ConversationContext.get_context (H := Stub.externals [])
         ConversationContext.new "ann" "c1" w' = (Return (JList []), w')
    /\ (forall k, k <> ConversationContext._get_context_key "ann" "c1" ->
          cached w' k
          = cached (live_world {[ "conversation:ann:c1" := (3600, "{}") ]}) k).
Proof.
  apply (clear_context_then_get_context (H := Stub.externals [])
           ConversationContext.new
           (live_world {[ "conversation:ann:c1" := (3600, "{}") ]})
           {[ "conversation:ann:c1" := (3600, "{}") ]} "ann" "c1").
  reflexivity.
Defined.

Lemma context_lost_when_unavailable_witness :
  ConversationContext.add_message (H := Stub.externals [])
    ConversationContext.new "ann" "c1" "user" "hello" None "t0" "t1"
    (World None (fun _ _ => Raise RateLimitError) 0 [] 0)
  = (Return tt, World None (fun _ _ => Raise RateLimitError) 0 [] 0)
  /\ ConversationContext.get_context (H := Stub.externals [])
       ConversationContext.new "ann" "c1"
       (World None (fun _ _ => Raise RateLimitError) 0 [] 0)
     = (Return (JList []), World None (fun _ _ => Raise RateLimitError) 0 [] 0).
Proof.
  apply (context_lost_when_unavailable (H := Stub.externals [])
           ConversationContext.new
           (World None (fun _ _ => Raise RateLimitError) 0 [] 0)
           "ann" "c1" "user" "hello" None "t0" "t1").
  left. reflexivity.
Defined.

(** ** [app/services/learning_plan_service.py]: [analyze_knowledge_gaps] *)

(** The loop [for x in l: acc = f(acc, x)] where [f] may raise. *)
Fixpoint fold_result {A B} (f : B -> A -> result B) (l : list A) (b : B)
    : result B :=
  match l with
  | [] => Return b
  | x :: l => b' ← f b x; fold_result f l b'
  end.

(** A knowledge gap, the dictionary with the keys [subject], [topic],
    [severity] and [error_count]. *)
Module Gap.

Record t := Make {
  subject : string;
  topic : json;
  severity : string;
  error_count : Z
}.

End Gap.

Module KnowledgeGaps.

(** [obj.get(key, dflt)]: only a dictionary has [get]. *)
Definition get_or (obj : json) (key : string) (dflt : json) : result json :=
  match obj with
  | JDict d => Return (default dflt (dict_get key d))
  | _ => Raise (AttributeError "object" "get")
  end.

(** [value.lower()]: only a string has [lower]. *)
Definition lower_of (value : json) : result string :=
  match value with
  | JStr s => Return (lower s)
  | _ => Raise (AttributeError "object" "lower")
  end.

(** [for x in value]: the items of a list, the keys of a dictionary, the
    characters of a string. *)
Definition iterate (value : json) : result (list json) :=
  match value with
  | JList l => Return l
  | JDict d => Return (map (fun kv => JStr kv.1) d)
  | JStr s => Return (map (fun c => JStr (String c "")) (String.list_ascii_of_string s))
  | _ => Raise (TypeError "object is not iterable")
  end.

(** Lists and dictionaries cannot be dictionary keys. *)
Definition hashable (k : json) : bool :=
  match k with
  | JList _ | JDict _ => false
  | _ => true
  end.

(** Equality of dictionary keys: [True == 1] and [False == 0]. *)
Definition key_eqb (a b : json) : bool :=
  match a, b with
  | JNull, JNull => true
  | JStr s, JStr t => String.eqb s t
  | JBool x, JBool y => Bool.eqb x y
  | JInt n, JInt m => n =? m
  | JBool x, JInt m => (if x then 1 else 0) =? m
  | JInt n, JBool y => n =? (if y then 1 else 0)
  | _, _ => false
  end.

(** [weak_topics[topic] = weak_topics.get(topic, 0) + 1] on a dictionary
    kept in insertion order; an equal key keeps its place and its first
    spelling. *)
Fixpoint bump (topic : json) (weak_topics : list (json * Z))
    : list (json * Z) :=
  match weak_topics with
  | [] => [(topic, 0 + 1)]
  | (k, n) :: rest =>
      if key_eqb k topic then (k, n + 1) :: rest
      else (k, n) :: bump topic rest
  end.

(** The body of [for question_result in ...]. *)
Definition count_question (weak_topics : list (json * Z))
    (question_result : json) : result (list (json * Z)) :=
  correct ← get_or question_result "correct" (JBool false);
  if negb (truthy correct) then
    topic ← get_or question_result "topic" (JStr "Unknown");
    if hashable topic then Return (bump topic weak_topics)
    else Raise (TypeError "unhashable type")
  else Return weak_topics.

(** The body of [for result in subject_results]. *)
Definition count_result (weak_topics : list (json * Z)) (result' : json)
    : result (list (json * Z)) :=
  detailed_results ← get_or result' "detailed_results" (JList []);
  question_results ← iterate detailed_results;
  fold_result count_question question_results weak_topics.

(** [[r for r in test_results
      if r.get('subject', '').lower() == subject.lower()]] *)
Fixpoint subject_results (subject : string) (test_results : list json)
    : result (list json) :=
  match test_results with
  | [] => Return []
  | r :: rest =>
      value ← get_or r "subject" (JStr "");
      s ← lower_of value;
      rest' ← subject_results subject rest;
      Return (if String.eqb s (lower subject) then r :: rest' else rest')
  end.

Definition severity_of (error_count : Z) : string :=
  if 3 <=? error_count then "high"
  else if 2 <=? error_count then "medium"
  else "low".

(** The body of [for subject in subjects]. *)
Definition analyze_subject (test_results : list json) (gaps : list Gap.t)
    (subject : string) : result (list Gap.t) :=
  results ← subject_results subject test_results;
  match results with
  | [] => Return gaps
  | _ =>
      weak_topics ← fold_result count_result results [];
      Return (gaps ++ map (fun entry =>
                             match entry with
                             | (topic, error_count) =>
                                 Gap.Make subject topic
                                   (severity_of error_count) error_count
                             end) weak_topics)
  end.

(** [severity_order[severity]] *)
Definition severity_order (severity : string) : result Z :=
  if String.eqb severity "high" then Return 0
  else if String.eqb severity "medium" then Return 1
  else if String.eqb severity "low" then Return 2
  else Raise (KeyError severity).

(** [(severity_order[x['severity']], -x['error_count'])] *)
Definition sort_key (x : Gap.t) : result (Z * Z) :=
  order ← severity_order (Gap.severity x);
  Return (order, - Gap.error_count x).

(** The order of tuples of two integers. *)
Definition key_le (a b : Z * Z) : bool :=
  (a.1 <? b.1) || ((a.1 =? b.1) && (a.2 <=? b.2)).

(** [list.sort] is stable: an item goes before the items after it that
    have the same key. *)
Fixpoint insert_by (x : (Z * Z) * Gap.t) (l : list ((Z * Z) * Gap.t))
    : list ((Z * Z) * Gap.t) :=
  match l with
  | [] => [x]
  | y :: l' => if key_le x.1 y.1 then x :: y :: l' else y :: insert_by x l'
  end.

(** [gaps.sort(key=...)]: the keys are computed first. *)
Definition sort_gaps (gaps : list Gap.t) : result (list Gap.t) :=
  keyed ← traverse (fun x => k ← sort_key x; Return (k, x)) gaps;
  Return (map snd (foldr insert_by [] keyed)).

(** The body of the [try]. *)
Definition analyze (test_results : list json) (subjects : list string)
    : result (list Gap.t) :=
  match test_results with
  | [] => Return []
  | _ =>
      gaps ← fold_result (analyze_subject test_results) subjects [];
      sort_gaps gaps
  end.

(** [analyze_knowledge_gaps]: [except Exception] returns the empty
    list. *)
Definition analyze_knowledge_gaps (student_id : string)
    (test_results : list json) (subjects : list string) : list Gap.t :=
  match analyze test_results subjects with
  | Return gaps => gaps
  | Raise e => []
  end.

End KnowledgeGaps.

Section knowledge_gap_facts.
Import KnowledgeGaps.

Lemma fold_result_inv {A B} (f : B -> A -> result B) (P : B -> Prop)
    (l : list A) :
  (forall b a b', a ∈ l -> P b -> f b a = Return b' -> P b') ->
  forall b b', P b -> fold_result f l b = Return b' -> P b'.
Proof.
  induction l as [|x l IH]; intros Hf b b' Hb; simpl.
  - by intros [= <-].
  - destruct (f b x) as [b1|e] eqn:E; simpl; [|discriminate].
    apply IH.
    + intros b0 a b0' Ha. apply Hf. by right.
    + eapply Hf; [left| |]; eauto.
Qed.

(** Every counter of [weak_topics] is at least one. *)
Definition counted (weak_topics : list (json * Z)) : Prop :=
  Forall (fun entry => 1 <= entry.2) weak_topics.

Lemma bump_counted topic weak_topics :
  counted weak_topics -> counted (bump topic weak_topics).
Proof.
  unfold counted. induction 1 as [|[k n] rest Hn Hrest IH]; simpl.
  - by repeat constructor.
  - destruct (key_eqb k topic); constructor; simpl in *; auto; lia.
Qed.

Lemma count_question_counted weak_topics question_result weak_topics' :
  counted weak_topics ->
  count_question weak_topics question_result = Return weak_topics' ->
  counted weak_topics'.
Proof.
  intros Hc. unfold count_question.
  destruct (get_or question_result "correct" _) as [c|]; simpl; [|done].
  destruct (negb (truthy c)); [|by intros [= <-]].
  destruct (get_or question_result "topic" _) as [t|]; simpl; [|done].
  destruct (hashable t); [|done]. intros [= <-]. by apply bump_counted.
Qed.

Lemma count_result_counted weak_topics r weak_topics' :
  counted weak_topics ->
  count_result weak_topics r = Return weak_topics' ->
  counted weak_topics'.
Proof.
  intros Hc. unfold count_result.
  destruct (get_or r "detailed_results" _) as [d|]; simpl; [|done].
  destruct (iterate d) as [qs|]; simpl; [|done].
  apply (fold_result_inv count_question counted); [|done].
  intros b a b' _. apply count_question_counted.
Qed.

(** What holds of every gap that is produced. *)
Definition well_formed (subjects : list string) (g : Gap.t) : Prop :=
  1 <= Gap.error_count g
  /\ Gap.severity g = severity_of (Gap.error_count g)
  /\ Gap.subject g ∈ subjects.

Lemma analyze_subject_well_formed subjects test_results gaps subject gaps' :
  subject ∈ subjects ->
  Forall (well_formed subjects) gaps ->
  analyze_subject test_results gaps subject = Return gaps' ->
  Forall (well_formed subjects) gaps'.
Proof.
  intros Hs Hg. unfold analyze_subject.
  destruct (subject_results subject test_results) as [rs|]; simpl; [|done].
  destruct rs as [|r rs]; [by intros [= <-]|].
  destruct (fold_result count_result (r :: rs) []) as [weak|] eqn:E;
    simpl; [|done].
  intros [= <-]. apply Forall_app. split; [done|].
  assert (Hc : counted weak).
  { eapply (fold_result_inv count_result counted); [| |exact E].
    - intros b a b' _. apply count_result_counted.
    - constructor. }
  apply Forall_fmap. eapply Forall_impl; [exact Hc|].
  intros [t n] Hn. by repeat split.
Qed.

(** The key of a well-formed gap. *)
Definition key_of (g : Gap.t) : Z * Z :=
  ((if 3 <=? Gap.error_count g then 0
    else if 2 <=? Gap.error_count g then 1 else 2),
   - Gap.error_count g).

Lemma sort_key_well_formed subjects g :
  well_formed subjects g -> sort_key g = Return (key_of g).
Proof.
  intros (_ & Hs & _). unfold sort_key, key_of. rewrite Hs.
  unfold severity_of.
  destruct (3 <=? Gap.error_count g); [reflexivity|].
  destruct (2 <=? Gap.error_count g); reflexivity.
Qed.

Lemma traverse_sort_key subjects gaps :
  Forall (well_formed subjects) gaps ->
  traverse (fun x => k ← sort_key x; Return (k, x)) gaps
  = Return (map (fun x => (key_of x, x)) gaps).
Proof.
  induction 1 as [|g gaps Hg _ IH]; simpl; [done|].
  rewrite (sort_key_well_formed _ _ Hg). simpl. by rewrite IH.
Qed.

Lemma Forall_insert_by (P : (Z * Z) * Gap.t -> Prop) x l :
  P x -> Forall P l -> Forall P (insert_by x l).
Proof.
  intros Hx. induction 1 as [|y l Hy Hl IH]; simpl.
  - by repeat constructor.
  - destruct (key_le x.1 y.1); repeat constructor; auto.
Qed.

(** More errors first. *)
Definition more_errors (a b : Gap.t) : Prop :=
  Gap.error_count b <= Gap.error_count a.

Lemma key_le_more_errors a b :
  key_le (key_of a) (key_of b) = true -> more_errors a b.
Proof.
  unfold key_le, key_of, more_errors. simpl.
  destruct (3 <=? Gap.error_count a) eqn:?, (2 <=? Gap.error_count a) eqn:?,
    (3 <=? Gap.error_count b) eqn:?, (2 <=? Gap.error_count b) eqn:?; lia.
Qed.

Lemma key_gt_more_errors a b :
  key_le (key_of a) (key_of b) = false -> more_errors b a.
Proof.
  unfold key_le, key_of, more_errors. simpl.
  destruct (3 <=? Gap.error_count a) eqn:?, (2 <=? Gap.error_count a) eqn:?,
    (3 <=? Gap.error_count b) eqn:?, (2 <=? Gap.error_count b) eqn:?; lia.
Qed.

Definition keyed (p : (Z * Z) * Gap.t) : Prop := p.1 = key_of p.2.

Lemma insert_by_sorted x l :
  keyed x -> Forall keyed l ->
  StronglySorted (fun p q => more_errors p.2 q.2) l ->
  StronglySorted (fun p q => more_errors p.2 q.2) (insert_by x l).
Proof.
  intros Hx Hl Hs. induction Hs as [|y l Hs IH Hy]; simpl.
  - by repeat constructor.
  - apply Forall_cons in Hl as [Hky Hl].
    destruct (key_le x.1 y.1) eqn:E.
    + rewrite Hx, Hky in E. apply key_le_more_errors in E.
      constructor; [by constructor|]. constructor; [done|].
      eapply Forall_impl; [exact Hy|]. unfold more_errors in *.
      intros q Hq; simpl in *. lia.
    + rewrite Hx, Hky in E. apply key_gt_more_errors in E.
      constructor; [by apply IH|].
      by apply (Forall_insert_by (fun q => more_errors y.2 q.2)).
Qed.

Lemma sort_gaps_sorted subjects gaps :
  Forall (well_formed subjects) gaps ->
  exists sorted_gaps,
    sort_gaps gaps = Return sorted_gaps
    /\ StronglySorted more_errors sorted_gaps
    /\ Forall (well_formed subjects) sorted_gaps
    /\ sorted_gaps ≡ₚ gaps.
Proof.
  intros Hg. unfold sort_gaps. rewrite (traverse_sort_key _ _ Hg). simpl.
  eexists. split; [reflexivity|].
  set (l := map (fun x => (key_of x, x)) gaps).
  assert (Hk : Forall keyed l).
  { subst l. apply Forall_fmap. by apply Forall_true. }
  assert (Hw : Forall (fun p => well_formed subjects p.2) l).
  { subst l. apply Forall_fmap. eapply Forall_impl; [exact Hg|done]. }
  assert (Hp : forall x l0, insert_by x l0 ≡ₚ x :: l0).
  { intros x l0. induction l0 as [|y l0 IH]; simpl; [done|].
    destruct (key_le x.1 y.1); [done|]. rewrite IH. apply Permutation_swap. }
  assert (Hperm : foldr insert_by [] l ≡ₚ l).
  { clear Hk Hw. induction l as [|x l IH]; simpl; [done|].
    by rewrite Hp, IH. }
  assert (Hk' : Forall keyed (foldr insert_by [] l)) by by rewrite Hperm.
  split; [|split].
  - assert (Hs : StronglySorted (fun p q => more_errors p.2 q.2)
                   (foldr insert_by [] l)).
    { clear Hw Hperm Hk'. induction Hk as [|x l Hx Hl IH]; simpl;
        [constructor|].
      apply insert_by_sorted; [done| |done].
      clear IH. induction Hl as [|y l Hy Hl IH]; simpl; [constructor|].
      by apply Forall_insert_by. }
    clear -Hs. induction Hs as [|p l0 Hs IH Hp]; simpl; constructor; [done|].
    by apply Forall_fmap.
  - apply Forall_fmap. by rewrite Hperm.
  - rewrite Hperm. subst l. rewrite <- list_fmap_compose.
    by rewrite list_fmap_id.
Qed.

(** X28.  The gaps [analyze_knowledge_gaps] returns are ordered by
    decreasing error count; every gap counts at least one error, its
    severity is [high] from three errors, [medium] for two and [low] for
    one, and its subject is one of the subjects asked for. *)
Theorem analyze_knowledge_gaps_ordered (student_id : string)
    (test_results : list json) (subjects : list string) :
  let gaps := analyze_knowledge_gaps student_id test_results subjects in
  StronglySorted (fun a b => Gap.error_count b <= Gap.error_count a) gaps
  /\ Forall (fun g =>
               1 <= Gap.error_count g
               /\ Gap.severity g
                  = (if 3 <=? Gap.error_count g then "high"
                     else if 2 <=? Gap.error_count g then "medium"
                     else "low")
               /\ Gap.subject g ∈ subjects) gaps.
Proof.
  cbv zeta. unfold analyze_knowledge_gaps, analyze.
  destruct test_results as [|r rs]; [by split; constructor|].
  destruct (fold_result (analyze_subject (r :: rs)) subjects []) as [gaps|e]
    eqn:E; simpl; [|by split; constructor].
  assert (Hg : Forall (well_formed subjects) gaps).
  { eapply (fold_result_inv (analyze_subject (r :: rs))
              (Forall (well_formed subjects))); [| |exact E].
    - intros b a b' Ha Hb. by apply analyze_subject_well_formed.
    - constructor. }
  destruct (sort_gaps_sorted _ _ Hg) as (sorted_gaps & -> & Hs & Hw & _).
  split; [exact Hs | exact Hw].
Qed.

Lemma subject_results_raises subject test_results r e :
  r ∈ test_results ->
  (value ← get_or r "subject" (JStr ""); lower_of value) = Raise e ->
  exists e', subject_results subject test_results = Raise e'.
Proof.
  intros Hr He. induction test_results as [|r0 rest IH]; [by inversion Hr|].
  simpl. destruct (get_or r0 "subject" (JStr "")) as [v|e0] eqn:Ev; simpl;
    [|by eexists].
  destruct (lower_of v) as [s|e0] eqn:Es; simpl; [|by eexists].
  apply elem_of_cons in Hr as [->|Hr].
  - rewrite Ev in He. simpl in He. congruence.
  - destruct (IH Hr) as [e' ->]. by eexists.
Qed.

(** X29.  One malformed test result discards the whole analysis: when
    some test result is not a mapping, or its [subject] is not a string,
    [analyze_knowledge_gaps] returns the empty list for any non-empty list
    of subjects, whatever the other results hold. *)
Theorem analyze_knowledge_gaps_malformed (student_id : string)
    (test_results : list json) (subjects : list string) (r : json) (e : exn) :
  r ∈ test_results ->
  subjects <> [] ->
  (value ← get_or r "subject" (JStr ""); lower_of value) = Raise e ->
  analyze_knowledge_gaps student_id test_results subjects = [].
Proof.
  intros Hr Hs He. unfold analyze_knowledge_gaps, analyze.
  destruct test_results as [|r0 rs]; [done|].
  destruct subjects as [|s subjects]; [done|].
  destruct (subject_results_raises s _ _ _ Hr He) as [e' He'].
  assert (Hf : fold_result (analyze_subject (r0 :: rs)) (s :: subjects) []
               = Raise e').
  { change (fold_result (analyze_subject (r0 :: rs)) (s :: subjects) [])
      with (b' ← analyze_subject (r0 :: rs) [] s;
            fold_result (analyze_subject (r0 :: rs)) subjects b').
    unfold analyze_subject. by rewrite He'. }
  by rewrite Hf.
Qed.

End knowledge_gap_facts.

(** Two test results for mathematics, the second without a usable
    subject. *)
Definition algebra_result : json :=
  JDict [("subject", JStr "Math");
         ("detailed_results",
          JList [JDict [("correct", JBool false); ("topic", JStr "algebra")];
                 JDict [("correct", JBool false); ("topic", JStr "algebra")]])].

Definition broken_result : json := JDict [("subject", JInt 5)].

Lemma analyze_knowledge_gaps_malformed_witness :
  KnowledgeGaps.analyze_knowledge_gaps "ann" [algebra_result; broken_result]
    ["math"] = [].
Proof.
  apply (analyze_knowledge_gaps_malformed "ann" [algebra_result; broken_result]
           ["math"] broken_result (AttributeError "object" "lower")).
  - right. left.
  - discriminate.
  - reflexivity.
Defined.

Section knowledge_gap_counts.
Import KnowledgeGaps.

(** A question result that is a mapping with a hashable topic. *)
Definition good_question (q : json) : Prop :=
  exists d, q = JDict d
            /\ hashable (default (JStr "Unknown") (dict_get "topic" d)) = true.

(** A test result that is a mapping with a string for its subject and a
    list of good question results. *)
Definition good_result (r : json) : Prop :=
  exists d s qs,
    r = JDict d
    /\ default (JStr "") (dict_get "subject" d) = JStr s
    /\ default (JList []) (dict_get "detailed_results" d) = JList qs
    /\ Forall good_question qs.

(** The question results of a test result. *)
Definition questions_of (r : json) : list json :=
  match r with
  | JDict d =>
      match default (JList []) (dict_get "detailed_results" d) with
      | JList qs => qs
      | _ => []
      end
  | _ => []
  end.

(** Whether a question result is marked correct. *)
Definition marked_correct (q : json) : bool :=
  match q with
  | JDict d => truthy (default (JBool false) (dict_get "correct" d))
  | _ => false
  end.

(** The number of question results of [r] not marked correct. *)
Definition wrong_answers (r : json) : Z :=
  Z.of_nat (length (filter (fun q => marked_correct q = false)
                      (questions_of r))).

(** Whether the subject of a test result is [subject], ignoring case. *)
Definition about (subject : string) (r : json) : bool :=
  match r with
  | JDict d =>
      match default (JStr "") (dict_get "subject" d) with
      | JStr s => String.eqb (lower s) (lower subject)
      | _ => false
      end
  | _ => false
  end.

(** The wrong answers in the test results about [subject]. *)
Definition wrong_answers_about (test_results : list json) (subject : string)
    : Z :=
  sum (wrong_answers <$> filter (fun r => about subject r = true) test_results).

Definition total (weak_topics : list (json * Z)) : Z := sum (snd <$> weak_topics).

Lemma bump_total topic weak_topics :
  total (bump topic weak_topics) = total weak_topics + 1.
Proof.
  unfold total. induction weak_topics as [|[k n] rest IH]; csimpl; [done|].
  destruct (key_eqb k topic); csimpl; lia.
Qed.

Lemma count_question_total weak_topics q :
  good_question q ->
  exists weak_topics',
    count_question weak_topics q = Return weak_topics'
    /\ total weak_topics'
       = total weak_topics + (if marked_correct q then 0 else 1).
Proof.
  intros (d & -> & Hh). unfold count_question. simpl.
  destruct (truthy _); simpl.
  - eexists. split; [done|lia].
  - rewrite Hh. eexists. split; [done|]. apply bump_total.
Qed.

Lemma count_questions_total qs : forall weak_topics,
  Forall good_question qs ->
  exists weak_topics',
    fold_result count_question qs weak_topics = Return weak_topics'
    /\ total weak_topics'
       = total weak_topics
         + Z.of_nat (length (filter (fun q => marked_correct q = false) qs)).
Proof.
  induction qs as [|q qs IH]; intros weak Hqs; simpl.
  - eexists. split; [done|]. simpl. lia.
  - apply Forall_cons in Hqs as [Hq Hqs].
    destruct (count_question_total weak q Hq) as (w1 & -> & H1). simpl.
    destruct (IH w1 Hqs) as (w2 & -> & H2).
    eexists. split; [done|]. rewrite H2, H1.
    destruct (marked_correct q) eqn:Em.
    + rewrite filter_cons_False by (by rewrite Em). lia.
    + rewrite filter_cons_True by done. simpl length. lia.
Qed.

Lemma count_result_total weak_topics r :
  good_result r ->
  exists weak_topics',
    count_result weak_topics r = Return weak_topics'
    /\ total weak_topics' = total weak_topics + wrong_answers r.
Proof.
  intros (d & s & qs & -> & _ & Hqs & Hgood).
  unfold count_result, wrong_answers, questions_of. simpl. rewrite Hqs. simpl.
  by apply count_questions_total.
Qed.

Lemma count_results_total rs : forall weak_topics,
  Forall good_result rs ->
  exists weak_topics',
    fold_result count_result rs weak_topics = Return weak_topics'
    /\ total weak_topics' = total weak_topics + sum (wrong_answers <$> rs).
Proof.
  induction rs as [|r rs IH]; intros weak Hrs; simpl.
  - eexists. split; [done|]. lia.
  - apply Forall_cons in Hrs as [Hr Hrs].
    destruct (count_result_total weak r Hr) as (w1 & -> & H1). simpl.
    destruct (IH w1 Hrs) as (w2 & -> & H2).
    eexists. split; [done|]. rewrite H2, H1. unfold fmap. lia.
Qed.

Lemma subject_results_good subject test_results :
  Forall good_result test_results ->
  subject_results subject test_results
  = Return (filter (fun r => about subject r = true) test_results).
Proof.
  induction 1 as [|r rs Hr _ IH]; simpl; [done|].
  destruct Hr as (d & s & qs & -> & Hs & _). simpl. rewrite Hs. simpl.
  rewrite IH. simpl.
  destruct (String.eqb (lower s) (lower subject)) eqn:Es.
  - rewrite filter_cons_True; [done|]. simpl. by rewrite Hs.
  - rewrite filter_cons_False; [done|]. simpl. rewrite Hs, Es. done.
Qed.

Definition errors (gaps : list Gap.t) : Z := sum (Gap.error_count <$> gaps).

Lemma errors_app gaps gaps' : errors (gaps ++ gaps') = errors gaps + errors gaps'.
Proof.
  unfold errors. induction gaps as [|g gaps IH]; csimpl; [done|]. lia.
Qed.

Lemma analyze_subject_errors test_results gaps subject :
  Forall good_result test_results ->
  exists gaps',
    analyze_subject test_results gaps subject = Return gaps'
    /\ errors gaps' = errors gaps + wrong_answers_about test_results subject.
Proof.
  intros Hgood. unfold analyze_subject, wrong_answers_about.
  rewrite (subject_results_good _ _ Hgood). simpl.
  assert (Hf : Forall good_result
                 (filter (fun r => about subject r = true) test_results)).
  { apply Forall_forall. intros r Hr. apply list_elem_of_filter in Hr as [_ Hr].
    rewrite Forall_forall in Hgood. by apply Hgood. }
  destruct (filter _ test_results) as [|r rs] eqn:E.
  - eexists. split; [done|]. simpl. lia.
  - destruct (count_results_total (r :: rs) [] Hf) as (weak & -> & Ht). simpl.
    eexists. split; [done|]. rewrite errors_app. f_equal.
    unfold total in Ht. simpl in Ht. unfold errors.
    rewrite <- list_fmap_compose. etrans; [|exact Ht].
    f_equal. apply list_fmap_ext. by intros i [t n].
Qed.

Lemma analyze_subjects_errors test_results subjects : forall gaps,
  Forall good_result test_results ->
  exists gaps',
    fold_result (analyze_subject test_results) subjects gaps = Return gaps'
    /\ errors gaps'
       = errors gaps + sum (wrong_answers_about test_results <$> subjects).
Proof.
  induction subjects as [|s subjects IH]; intros gaps Hgood; simpl.
  - eexists. split; [done|]. lia.
  - destruct (analyze_subject_errors test_results gaps s Hgood)
      as (g1 & -> & H1). simpl.
    destruct (IH g1 Hgood) as (g2 & -> & H2).
    eexists. split; [done|]. rewrite H2, H1. unfold fmap. lia.
Qed.

Lemma errors_perm gaps gaps' : gaps ≡ₚ gaps' -> errors gaps = errors gaps'.
Proof.
  unfold errors. induction 1; csimpl in *; lia.
Qed.

(** The gaps of each listed subject carry the wrong answers of the
    results about it. *)
Lemma analyze_knowledge_gaps_errors (student_id : string)
    (test_results : list json) (subjects : list string) :
  Forall good_result test_results ->
  sum (Gap.error_count
         <$> analyze_knowledge_gaps student_id test_results subjects)
  = sum (wrong_answers_about test_results <$> subjects).
Proof.
  intros Hgood. unfold analyze_knowledge_gaps, analyze.
  destruct test_results as [|r rs].
  - simpl. clear. induction subjects as [|s subjects IH]; [done|].
    csimpl. rewrite <- IH. reflexivity.
  - destruct (analyze_subjects_errors (r :: rs) subjects [] Hgood)
      as (gaps & Hrun & Herr).
    rewrite Hrun. simpl.
    assert (Hw : Forall (well_formed subjects) gaps).
    { eapply (fold_result_inv (analyze_subject (r :: rs))
                (Forall (well_formed subjects))); [| |exact Hrun].
      - intros b a b' Ha Hb. by apply analyze_subject_well_formed.
      - constructor. }
    destruct (sort_gaps_sorted _ _ Hw) as (sorted_gaps & -> & _ & _ & Hp).
    fold (errors sorted_gaps). rewrite (errors_perm _ _ Hp), Herr.
    unfold errors. simpl. lia.
Qed.

Lemma sum_app (l l' : list Z) : sum (l ++ l') = sum l + sum l'.
Proof. induction l as [|x l IH]; csimpl; [done|]. lia. Qed.

(** Whether a test result is about one of the listed subjects. *)
Definition asked (subjects : list string) (r : json) : bool :=
  existsb (fun subject => about subject r) subjects.

Lemma about_lower subject subject' r :
  about subject r = true -> about subject' r = true ->
  lower subject = lower subject'.
Proof.
  unfold about. destruct r as [| | | | |d]; try discriminate.
  destruct (default (JStr "") (dict_get "subject" d)); try discriminate.
  intros H1%String.eqb_eq H2%String.eqb_eq. congruence.
Qed.

Lemma sum_filter_disjoint (f : json -> Z) (p q : json -> bool) (l : list json) :
  (forall x, p x = true -> q x = true -> False) ->
  sum (f <$> filter (fun x => p x = true) l)
  + sum (f <$> filter (fun x => q x = true) l)
  = sum (f <$> filter (fun x => p x || q x = true) l).
Proof.
  intros Hdis. induction l as [|x l IH]; [done|].
  destruct (p x) eqn:Ep, (q x) eqn:Eq.
  - by destruct (Hdis x).
  - rewrite (filter_cons_True (fun x => p x = true)) by done.
    rewrite (filter_cons_False (fun x => q x = true)) by (by rewrite Eq).
    rewrite (filter_cons_True (fun x => p x || q x = true))
      by (by rewrite Ep).
    csimpl. unfold fmap in *. lia.
  - rewrite (filter_cons_False (fun x => p x = true)) by (by rewrite Ep).
    rewrite (filter_cons_True (fun x => q x = true)) by done.
    rewrite (filter_cons_True (fun x => p x || q x = true))
      by (by rewrite Ep, Eq).
    csimpl. unfold fmap in *. lia.
  - rewrite (filter_cons_False (fun x => p x = true)) by (by rewrite Ep).
    rewrite (filter_cons_False (fun x => q x = true)) by (by rewrite Eq).
    rewrite (filter_cons_False (fun x => p x || q x = true))
      by (by rewrite Ep, Eq).
    exact IH.
Qed.

Lemma wrong_answers_once (test_results : list json) (subjects : list string) :
  NoDup (lower <$> subjects) ->
  sum (wrong_answers_about test_results <$> subjects)
  = sum (wrong_answers
           <$> filter (fun r => asked subjects r = true) test_results).
Proof.
  induction subjects as [|s subjects IH]; intros Hnd.
  - csimpl. induction test_results as [|r rs IHr]; [done|].
    by rewrite filter_cons_False.
  - csimpl in Hnd. apply NoDup_cons in Hnd as [Hs Hnd].
    csimpl. rewrite (IH Hnd). unfold wrong_answers_about.
    apply (sum_filter_disjoint wrong_answers (about s) (asked subjects)).
    intros r Hr Hasked. apply Hs.
    unfold asked in Hasked. apply existsb_exists in Hasked as (s' & Hin & Hs').
    rewrite (about_lower s s' r Hr Hs').
    apply list_elem_of_fmap. exists s'. split; [done|].
    by apply list_elem_of_In.
Qed.

(** X30.  On well-formed test results the error counts of the returned
    gaps add up, over the listed subjects, to the question results not
    marked correct in the test results about each of them, subjects being
    compared without regard to case.  So when the listed subjects are
    pairwise different without regard to case, every wrong answer of a
    test result about a listed subject is counted exactly once and no
    other is counted; a subject listed twice has its wrong answers
    counted twice. *)
Theorem analyze_knowledge_gaps_counts_every_error (student_id : string)
    (test_results : list json) (subjects : list string) :
  Forall good_result test_results ->
  sum (Gap.error_count
         <$> analyze_knowledge_gaps student_id test_results subjects)
  = sum (wrong_answers_about test_results <$> subjects)
  /\ (NoDup (lower <$> subjects) ->
      sum (Gap.error_count
             <$> analyze_knowledge_gaps student_id test_results subjects)
      = sum (wrong_answers
               <$> filter (fun r => asked subjects r = true) test_results))
  /\ sum (Gap.error_count
            <$> analyze_knowledge_gaps student_id test_results
                  (subjects ++ subjects))
     = 2 * sum (Gap.error_count
                  <$> analyze_knowledge_gaps student_id test_results subjects).
Proof.
  intros Hgood. split; [|split].
  - by apply analyze_knowledge_gaps_errors.
  - intros Hnd. rewrite analyze_knowledge_gaps_errors by done.
    by apply wrong_answers_once.
  - rewrite !analyze_knowledge_gaps_errors by done.
    rewrite fmap_app, sum_app. lia.
Qed.

End knowledge_gap_counts.

Lemma analyze_knowledge_gaps_counts_every_error_witness :
  sum (Gap.error_count
         <$> KnowledgeGaps.analyze_knowledge_gaps "ann" [algebra_result]
               ["MATH"; "physics"])
  = sum (wrong_answers
           <$> filter (fun r => asked ["MATH"; "physics"] r = true)
                 [algebra_result]).
Proof.
  apply (analyze_knowledge_gaps_counts_every_error "ann" [algebra_result]
           ["MATH"; "physics"]).
  - repeat constructor. eexists _, _, _.
    split; [reflexivity|]. split; [reflexivity|]. split; [reflexivity|].
    repeat constructor; eexists; (split; [reflexivity|reflexivity]).
  - apply (bool_decide_eq_true_1 (NoDup (lower <$> ["MATH"; "physics"]))).
    vm_compute. reflexivity.
Defined.

(** ** [app/services/learning_plan_service.py]: [generate_plan] *)

Module PlanGeneration.

Section with_externals.
Context `{Externals} (openai_client : OpenAIClient.t).

(** Library code: [py_str] is [str(value)] as an f-string applies it,
    [datetime] the class of that name with [days_between a b] for
    [(a - b).days] (a TypeError between an aware and a naive value) and
    [strftime_ymd] for [strftime("%Y-%m-%d")], and [format_messages] is
    [PLAN_GENERATION_PROMPT.format_messages], each message given by its
    [type] and [content]. *)
Variable py_str : json -> string.
Variable datetime : Type.
Variable days_between : datetime -> datetime -> result Z.
Variable strftime_ymd : datetime -> string.
Variable format_messages :
  Z -> string -> string -> string -> json -> string -> string -> Z -> Z ->
  list message.

(** One line of [_format_knowledge_gaps]. *)
Definition format_gap (gap : json) : result string :=
  subject ← KnowledgeGaps.get_or gap "subject" (JStr "Unknown");
  topic ← KnowledgeGaps.get_or gap "topic" (JStr "Unknown");
  severity ← KnowledgeGaps.get_or gap "severity" (JStr "medium");
  error_count ← KnowledgeGaps.get_or gap "error_count" (JInt 0);
  Return ("- " +:+ py_str subject +:+ ": " +:+ py_str topic
            +:+ " (Severity: " +:+ py_str severity
            +:+ ", Errors: " +:+ py_str error_count +:+ ")").

Definition _format_knowledge_gaps (gaps : option (list json)) : result string :=
  match gaps with
  | None | Some [] =>
      Return "No specific knowledge gaps identified. Focus on comprehensive coverage."
  | Some gaps =>
      formatted ← traverse format_gap (take 10 gaps);
      Return (join TestGenerationService.nl formatted)
  end.

(** [value.items()] *)
Definition items (value : json) : result (list (string * json)) :=
  match value with
  | JDict d => Return d
  | _ => Raise (AttributeError "object" "items")
  end.

Definition _format_performance (performance : option (list (string * json)))
    : result string :=
  match performance with
  | None | Some [] =>
      Return "No performance data available. Assume beginner level."
  | Some performance =>
      let formatted := [] in
      let formatted :=
        match dict_get "overall_score" performance with
        | Some score =>
            formatted ++ ["Overall Score: " +:+ py_str score +:+ "%"]
        | None => formatted
        end in
      formatted ←
        match dict_get "subject_scores" performance with
        | Some scores =>
            scores ← items scores;
            Return (formatted
                      ++ [TestGenerationService.nl +:+ "Subject Scores:"]
                      ++ map (fun entry =>
                                match entry with
                                | (subject, score) =>
                                    "- " +:+ subject +:+ ": "
                                      +:+ py_str score +:+ "%"
                                end) scores)
        | None => Return formatted
        end;
      let formatted :=
        match dict_get "tests_completed" performance with
        | Some n =>
            formatted ++ [TestGenerationService.nl +:+ "Tests Completed: "
                            +:+ py_str n]
        | None => formatted
        end in
      let formatted :=
        match dict_get "study_time" performance with
        | Some n =>
            formatted ++ ["Total Study Time: " +:+ py_str n +:+ " minutes"]
        | None => formatted
        end in
      Return (match formatted with
              | [] => "Limited performance data available."
              | _ => join TestGenerationService.nl formatted
              end)
  end.

(** Lines 111-138 of [generate_plan]: the prompt.  [now] is the reading
    of [datetime.now()]. *)
Definition plan_prompt (student_level : Z) (subjects : list string)
    (exam_type : option string) (exam_date : option datetime)
    (knowledge_gaps : option (list json))
    (current_performance : option (list (string * json)))
    (planning_days : Z) (now : datetime) : result (list message) :=
  days_until_exam ←
    match exam_date with
    | Some exam_date =>
        days ← days_between exam_date now;
        Return (if days <? 0 then JStr "Exam has passed" else JInt days)
    | None => Return (JStr "Not specified")
    end;
  gaps_text ← _format_knowledge_gaps knowledge_gaps;
  performance_text ← _format_performance current_performance;
  let num_weekly_goals := Z.max 2 (planning_days / 7) in
  Return (format_messages student_level (join ", " subjects)
            (match exam_type with
             | Some e => if negb (String.eqb e "") then e
                         else "General assessment"
             | None => "General assessment"
             end)
            (match exam_date with
             | Some exam_date => strftime_ymd exam_date
             | None => "Not specified"
             end)
            days_until_exam gaps_text performance_text planning_days
            num_weekly_goals).

(** [generate_plan]: the handler logs and re-raises.  A cached plan goes
    through [json.loads], which takes a string; the reply of the client
    would go through [_parse_plan_response], whose [json.loads] is handed
    the completion object. *)
Definition generate_plan (student_id : string) (student_level : Z)
    (subjects : list string) (exam_type : option string)
    (exam_date : option datetime) (knowledge_gaps : option (list json))
    (current_performance : option (list (string * json)))
    (planning_days : Z) (now : datetime) : M json :=
  r ← try_ (
    let cache_key :=
      LearningPlanService._generate_cache_key student_id subjects exam_type
        planning_days in
    cached_plan ← RedisClient.get cache_key;
    if truthy_opt cached_plan then
      match cached_plan with
      | Some (JStr s) => lift (json_loads s)
      | _ => raise (TypeError "the JSON object must be str, bytes or bytearray")
      end
    else
      prompt ← lift (plan_prompt student_level subjects exam_type exam_date
                       knowledge_gaps current_performance planning_days now);
      response ← OpenAIClient.call openai_client "chat_completion" prompt
        (Some (7 # 10)%Q) (Some 2000);
      plan_data ←
        raise (A := json)
          (TypeError "the JSON object must be str, bytes or bytearray");
      _ ← RedisClient.call_set cache_key (JStr (json_dumps false plan_data))
            [("ex", 86400)];
      mret plan_data);
  match r with
  | Return plan => mret plan
  | Raise e => raise e
  end.

End with_externals.

End PlanGeneration.

Section plan_generation_facts.
Context `{Externals} (openai_client : OpenAIClient.t).
Variable py_str : json -> string.
Variable datetime : Type.
Variable days_between : datetime -> datetime -> result Z.
Variable strftime_ymd : datetime -> string.
Variable format_messages :
  Z -> string -> string -> string -> json -> string -> string -> Z -> Z ->
  list message.
Import PlanGeneration.

(** X4.  [generate_plan] never produces a new plan: in every world it
    leaves the endpoint uncalled and the store unwritten.  It returns a
    plan only when the store already holds, under the plan's key, a
    non-empty JSON string that [json.loads] accepts; on a miss it always
    raises, and when the prompt could be built the error is the
    AttributeError for the missing method [chat_completion]. *)
Theorem generate_plan_never_generates (student_id : string)
    (student_level : Z) (subjects : list string) (exam_type : option string)
    (exam_date : option datetime) (knowledge_gaps : option (list json))
    (current_performance : option (list (string * json)))
    (planning_days : Z) (now : datetime) (w : world) :
  exists r cached,
    RedisClient.get
      (LearningPlanService._generate_cache_key student_id subjects exam_type
         planning_days) w = (Return cached, w)
    /\ generate_plan openai_client py_str datetime days_between strftime_ymd
         format_messages student_id student_level subjects exam_type exam_date
         knowledge_gaps current_performance planning_days now w = (r, w)
    /\ (forall plan, r = Return plan ->
          exists s, cached = Some (JStr s) /\ s <> ""
                    /\ json_loads s = Return plan)
    /\ (truthy_opt cached = false ->
          exists e, r = Raise e
            /\ (forall prompt,
                  plan_prompt py_str datetime days_between strftime_ymd
                    format_messages student_level subjects exam_type exam_date
                    knowledge_gaps current_performance planning_days now
                  = Return prompt ->
                  e = AttributeError "OpenAIClient" "chat_completion")).
Proof.
  destruct (get_never_raises
              (LearningPlanService._generate_cache_key student_id subjects
                 exam_type planning_days) w) as [cached Hget].
  unfold generate_plan. unfold mbind at 1, M_bind at 1, try_.
  unfold mbind at 1, M_bind at 1. rewrite Hget. cbv beta iota zeta.
  destruct (truthy_opt cached) eqn:Ht.
  - destruct cached as [[|b|n|s|l|d]|]; try discriminate;
      try solve [eexists _, _; split; [reflexivity|]; split; [reflexivity|];
                 split; [intros plan; discriminate
                        | intros Hf; rewrite Ht in Hf; discriminate]].
    unfold lift. destruct (json_loads s) as [plan|e] eqn:Es.
    + eexists _, _. split; [reflexivity|]. split; [reflexivity|].
      split; [|intros Hf; rewrite Ht in Hf; discriminate].
      intros plan' [= <-].
      exists s. split; [done|]. split; [|done].
      intros ->. discriminate.
    + eexists _, _. split; [reflexivity|]. split; [reflexivity|].
      split; [intros plan; discriminate
             | intros Hf; rewrite Ht in Hf; discriminate].
  - unfold lift. unfold mbind at 1, M_bind at 1.
    destruct (plan_prompt _ _ _ _ _ _ _ _ _ _ _ _ _) as [prompt|e] eqn:Ep.
    + eexists _, _. split; [reflexivity|]. split; [reflexivity|].
      split; [intros plan; discriminate|]. intros _. eexists.
      split; [reflexivity|]. reflexivity.
    + eexists _, _. split; [reflexivity|]. split; [reflexivity|].
      split; [intros plan; discriminate|]. intros _. eexists.
      split; [reflexivity|]. intros prompt; discriminate.
Qed.

End plan_generation_facts.
